(** * BioLogic potentiostat stack: parameter schema, channel state machine,
      technique runner and job server

    A shallow embedding of the Python sources

      - [biologic/params.py]      (DataRange, validators, TechniqueParams)
      - [biologic/techniques/*]   (the eight parameter classes)
      - [biologic/channel.py]     (Channel)
      - [biologic/runner.py]      (TechniqueRunner)
      - [biologic_host.py], [biologic_client.py] (framing, job worker)

    Python values are a small dynamic universe [PyVal]; Python exceptions are
    an explicit result type [Res]; objects with mutable fields are records
    threaded through the functions; calls into the instrument driver are
    recorded in a trace. *)

From Stdlib Require Import List ZArith NArith QArith Bool String Ascii Lia.
From Stdlib Require Import DecimalString.
From Stdlib Require Strings.Byte.
From Stdlib Require Import Init.Byte.
Import ListNotations.

Set Implicit Arguments.
Set Warnings "-register-all".

Close Scope Q_scope.
Open Scope string_scope.
Open Scope list_scope.

(* ====================================================================== *)
(** * Python values, exceptions and results                                *)
(* ====================================================================== *)

Module Py.

(** The step dataclasses of the technique modules ([CVStep] in cv.py,
    [CPStep] in cp.py, [CAStep] in ca.py, [LPStep] in lp.py).  Each has
    exactly three fields. *)
Inductive StepClass : Type := CVStep | CPStep | CAStep | LPStep.

(** The dynamic values the parameter code manipulates.  Floats are
    modelled by rationals: only their order and equality are used. *)
Inductive PyVal : Type :=
| VNone
| VBool (b : bool)
| VInt (n : Z)
| VFloat (q : Q)
| VStr (s : string)
| VEnum (cls member : string)
| VList (xs : list PyVal)
| VTuple (xs : list PyVal)
| VDict (kvs : list (string * PyVal))
| VStep (cls : StepClass) (a b c : PyVal).

(** [DataRange] of params.py: a dataclass of two optional bounds and two
    strictness flags (both default to [False]). *)
Record DataRange : Type := {
  min_value : option Q;
  max_value : option Q;
  min_strict : bool;
  max_strict : bool
}.

(** The message of a [ValidationError]; the f-strings of params.py are kept
    structured so that no number has to be printed. *)
Inductive Message : Type :=
| MsgIncorrectType (required given : string)
| MsgNotInRange (r : DataRange)
| MsgExactLen (n : nat)
| MsgNoLength
| MsgText (s : string).

(** [ValidationError(param, message)]. *)
Record ValidationError : Type := {
  param : string;
  message : Message
}.

(** The exceptions that occur in the modelled code. *)
Inductive PyExn : Type :=
| TypeError
| AttributeError
| KeyError (key : string)
| IndexError
| ValueError (msg : string)
| RuntimeError (msg : string)
| StopIteration
| ChannelStopped
| StructError
| DriverError (code : Z)
| ExceptionGroup (msg : string) (errors : list ValidationError).

(** A computation either returns or raises. *)
Inductive Res (A : Type) : Type :=
| Ok (a : A)
| Raise (e : PyExn).

Arguments Ok {A} a.
Arguments Raise {A} e.

Definition bind {A B : Type} (m : Res A) (k : A -> Res B) : Res B :=
  match m with
  | Ok a => k a
  | Raise e => Raise e
  end.

Definition is_ok {A : Type} (m : Res A) : bool :=
  match m with Ok _ => true | Raise _ => false end.

(** [map_res f l]: evaluate [f] on each element from left to right and stop
    at the first exception (a list comprehension, or a generator expression
    that is consumed at once). *)
Fixpoint map_res {A B : Type} (f : A -> Res B) (l : list A) : Res (list B) :=
  match l with
  | [] => Ok []
  | x :: tl =>
      match f x with
      | Raise e => Raise e
      | Ok y =>
          match map_res f tl with
          | Raise e => Raise e
          | Ok ys => Ok (y :: ys)
          end
      end
  end.

(** [enumerate]. *)
Fixpoint enumerate_from {A : Type} (i : nat) (l : list A) : list (nat * A) :=
  match l with
  | [] => []
  | x :: tl => (i, x) :: enumerate_from (S i) tl
  end.

Definition enumerate {A : Type} (l : list A) : list (nat * A) :=
  enumerate_from 0 l.

(** Lookup in an insertion-ordered dict with string keys. *)
Fixpoint dict_get {A : Type} (d : list (string * A)) (k : string) : option A :=
  match d with
  | [] => None
  | (k', v) :: tl => if String.eqb k' k then Some v else dict_get tl k
  end.

(** [d[k] = v]: replace in place when the key exists, append otherwise. *)
Fixpoint dict_set {A : Type} (d : list (string * A)) (k : string) (v : A)
  : list (string * A) :=
  match d with
  | [] => [(k, v)]
  | (k', v') :: tl =>
      if String.eqb k' k then (k, v) :: tl else (k', v') :: dict_set tl k v
  end.

(** [str(idx)] for a list position, as used by [f'{name}[{idx}]']. *)
Definition str_of_nat (n : nat) : string :=
  NilZero.string_of_uint (Nat.to_uint n).

Definition indexed_name (name : string) (idx : nat) : string :=
  (name ++ "[" ++ str_of_nat idx ++ "]")%string.

(** ** The enum classes of [kbio.types]

    [E_RANGE], [I_RANGE] and [BANDWIDTH] are imported from [kbio.types],
    which is not part of the sources.  Their member tables are a parameter:
    [enum_member cls m] says that [m] names a member of [cls], and
    [enum_int cls m] is the member's integer value when the class mixes in
    [int] (then its members are numbers), [None] for a plain [Enum]. *)
Record EnumTable : Type := {
  enum_member : string -> string -> bool;
  enum_int : string -> string -> option Z
}.

(** [SweepMode] (peis.py) and [RcmpMode] (pzir.py) are plain [Enum]
    classes defined in the sources: their members are fixed, and they are
    not numbers. *)
Definition source_enums : list (string * list string) :=
  [ ("SweepMode", ["Linear"; "Logarithmic"]);
    ("RcmpMode", ["Software"; "Hardware"]) ].

Section WithEnums.

Variable K : EnumTable.

(** [m] names a member of the enum class [c]. *)
Definition is_member (c m : string) : bool :=
  match dict_get source_enums c with
  | Some ms => existsb (String.eqb m) ms
  | None => enum_member K c m
  end.

(** The integer value of a member of an [int]-derived enum class. *)
Definition int_value (c m : string) : option Z :=
  match dict_get source_enums c with
  | Some _ => None
  | None => enum_int K c m
  end.

(** The numeric view of a value: what [<] and [==] against a number use.
    [None] means the comparison raises [TypeError]. *)
Definition as_number (v : PyVal) : option Q :=
  match v with
  | VBool b => Some (if b then 1 else 0)%Q
  | VInt n => Some (inject_Z n)
  | VFloat q => Some q
  | VEnum c m =>
      if is_member c m then option_map inject_Z (int_value c m) else None
  | _ => None
  end.

(** The classes used as second argument of [isinstance] in the validators. *)
Inductive PyType : Type :=
| TNumber              (* numbers.Number *)
| TInt                 (* int *)
| TBool                (* bool *)
| TEnumCls (cls : string).

Definition type_name (t : PyType) : string :=
  match t with
  | TNumber => "Number"
  | TInt => "int"
  | TBool => "bool"
  | TEnumCls c => c
  end.

Definition step_class_name (c : StepClass) : string :=
  match c with
  | CVStep => "CVStep" | CPStep => "CPStep"
  | CAStep => "CAStep" | LPStep => "LPStep"
  end.

(** [type(value).__name__]. *)
Definition type_of_name (v : PyVal) : string :=
  match v with
  | VNone => "NoneType"
  | VBool _ => "bool"
  | VInt _ => "int"
  | VFloat _ => "float"
  | VStr _ => "str"
  | VEnum c _ => c
  | VList _ => "list"
  | VTuple _ => "tuple"
  | VDict _ => "dict"
  | VStep c _ _ _ => step_class_name c
  end.

Definition is_int_enum (c m : string) : bool :=
  is_member c m && match int_value c m with Some _ => true | None => false end.

(** [isinstance(value, require_type)].  [bool] is a subclass of [int], and
    [int] and [float] are registered as [Number]. *)
Definition isinstance (v : PyVal) (t : PyType) : bool :=
  match t, v with
  | TNumber, (VBool _ | VInt _ | VFloat _) => true
  | TNumber, VEnum c m => is_int_enum c m
  | TInt, (VBool _ | VInt _) => true
  | TInt, VEnum c m => is_int_enum c m
  | TBool, VBool _ => true
  | TEnumCls c, VEnum c' m => String.eqb c c' && is_member c' m
  | _, _ => false
  end.

(** [isinstance(value, Iterable)] together with the elements iteration
    yields: a string iterates its characters, a dict its keys. *)
Definition py_iter (v : PyVal) : option (list PyVal) :=
  match v with
  | VStr s => Some (map (fun ch => VStr (String ch EmptyString)) (list_ascii_of_string s))
  | VList xs => Some xs
  | VTuple xs => Some xs
  | VDict kvs => Some (map (fun kv => VStr (fst kv)) kvs)
  | _ => None
  end.

End WithEnums.

End Py.

Import Py.

Declare Scope res_scope.
Delimit Scope res_scope with res.
Notation "x <- m ;; k" := (bind m (fun x => k))
  (at level 100, m at next level, right associativity) : res_scope.
Open Scope res_scope.

(* ====================================================================== *)
(** * biologic/deviceinfo.py and biologic/params.py                        *)
(* ====================================================================== *)

Module Params.

(** [DeviceFamily] of deviceinfo.py. *)
Inductive DeviceFamily : Type := VMP3 | SP300.

(** [DeviceInfo]: only [family] and [num_channels] are read by the modelled
    code; the other fields are plain data copied from the driver. *)
Record DeviceInfo : Type := {
  family : DeviceFamily;
  num_channels : Z
}.

Definition Qlt_bool (a b : Q) : bool := negb (Qle_bool b a).

Section WithEnums.

Variable K : EnumTable.

(** ** DataRange *)

(** [self.min_value < value] and [value < self.max_value]: defined between
    numbers, [TypeError] otherwise. *)
Definition num_lt_val (m : Q) (v : PyVal) : Res bool :=
  match as_number K v with
  | Some q => Ok (Qlt_bool m q)
  | None => Raise TypeError
  end.

Definition val_lt_num (v : PyVal) (m : Q) : Res bool :=
  match as_number K v with
  | Some q => Ok (Qlt_bool q m)
  | None => Raise TypeError
  end.

(** [self.min_value == value]: never raises. *)
Definition num_eq_val (m : Q) (v : PyVal) : bool :=
  match as_number K v with
  | Some q => Qeq_bool m q
  | None => false
  end.

(** [DataRange._compare_lower_bound]: 1 if value is outside, -1 if inside,
    0 if equal. *)
Definition _compare_lower_bound (self : DataRange) (value : PyVal) : Res Z :=
  match value with
  | VNone => Ok (match min_value self with None => 0 | Some _ => 1 end)%Z
  | _ =>
      match min_value self with
      | None => Ok (-1)%Z
      | Some m =>
          lt <- num_lt_val m value ;;
          if lt then Ok (-1)%Z
          else if negb (min_strict self) && num_eq_val m value then Ok 0%Z
          else Ok 1%Z
      end
  end.

(** [DataRange._compare_upper_bound]. *)
Definition _compare_upper_bound (self : DataRange) (value : PyVal) : Res Z :=
  match value with
  | VNone => Ok (match max_value self with None => 0 | Some _ => 1 end)%Z
  | _ =>
      match max_value self with
      | None => Ok (-1)%Z
      | Some m =>
          lt <- val_lt_num value m ;;
          if lt then Ok (-1)%Z
          else if negb (max_strict self) && num_eq_val m value then Ok 0%Z
          else Ok 1%Z
      end
  end.

(** [DataRange.__contains__]; [and] evaluates its second operand only when
    the first is true. *)
Definition contains (self : DataRange) (value : PyVal) : Res bool :=
  lo <- _compare_lower_bound self value ;;
  if (lo <=? 0)%Z then
    hi <- _compare_upper_bound self value ;;
    Ok (hi <=? 0)%Z
  else Ok false.

(** ** Validation helpers *)

(** [validate_type(value, name, require_type)]. *)
Definition validate_type (value : PyVal) (name : string) (require_type : PyType)
  : option ValidationError :=
  if isinstance K value require_type then None
  else Some {| param := name;
               message := MsgIncorrectType (type_name require_type)
                                           (type_of_name value) |}.

(** [validate_data_range(value, name, data_range)]. *)
Definition validate_data_range (value : PyVal) (name : string) (data_range : DataRange)
  : Res (option ValidationError) :=
  inside <- contains data_range value ;;
  if inside then Ok None
  else Ok (Some {| param := name; message := MsgNotInRange data_range |}).

(** [len(value)]: defined on strings, lists, tuples and dicts. *)
Definition py_len (v : PyVal) : option nat :=
  match v with
  | VStr s => Some (String.length s)
  | VList xs => Some (List.length xs)
  | VTuple xs => Some (List.length xs)
  | VDict kvs => Some (List.length kvs)
  | _ => None
  end.

(** [validate_len(value, name, required_len)]: the [TypeError] of [len] is
    caught and turned into a [ValidationError]. *)
Definition validate_len (value : PyVal) (name : string) (required_len : nat)
  : option ValidationError :=
  match py_len value with
  | None => Some {| param := name; message := MsgNoLength |}
  | Some length =>
      if Nat.eqb length required_len then None
      else Some {| param := name; message := MsgExactLen required_len |}
  end.

(** [yield_errors(errors)]: the entries that are not [None], in order. *)
Fixpoint yield_errors (errors : list (option ValidationError)) : list ValidationError :=
  match errors with
  | [] => []
  | None :: tl => yield_errors tl
  | Some e :: tl => e :: yield_errors tl
  end.

(** The values that can be indexed by position, with their entries. *)
Definition py_seq (v : PyVal) : option (list PyVal) :=
  match v with
  | VList xs | VTuple xs => Some xs
  | VStr s => Some (map (fun ch => VStr (String ch EmptyString)) (list_ascii_of_string s))
  | _ => None
  end.

(** [value[idx]] on a sequence. *)
Definition py_getitem (v : PyVal) (idx : nat) : Res PyVal :=
  match v with
  | VList xs | VTuple xs =>
      match nth_error xs idx with
      | Some x => Ok x
      | None => Raise IndexError
      end
  | VStr s =>
      match nth_error (list_ascii_of_string s) idx with
      | Some ch => Ok (VStr (String ch EmptyString))
      | None => Raise IndexError
      end
  | VDict _ => Raise (KeyError (str_of_nat idx))
  | _ => Raise TypeError
  end.

(** ** Parameter descriptors *)

(** The instance dictionary of a parameter object: field name to value, in
    the order the dataclass [__init__] assigns them. *)
Definition Attrs : Type := list (string * PyVal).

(** [data_range] is either a [DataRange] or a callable on [DeviceInfo]. *)
Inductive RangeSpec : Type :=
| FixedRange (r : DataRange)
| DeviceRange (f : DeviceInfo -> DataRange).

(** The [Parameter] descriptor class ([Parameter] is reserved in Rocq):
    the attributes read by validation and by the JSON conversions.
    ([units], [pack], [array_index] and [supports_devices] only matter when
    packing for the driver.) *)
Record ParameterDesc : Type := {
  name : string;
  param_id : option string;
  data_range : option RangeSpec;
  create_field : bool;
  create_property : option (Attrs -> Res PyVal);
  default : option PyVal;
  to_json : option (PyVal -> Res PyVal);
  from_json : option (PyVal -> Res PyVal)
}.

(** [Parameter.get_default]. *)
Definition get_default (p : ParameterDesc) : Res PyVal :=
  match default p with
  | Some d => Ok d
  | None => Raise AttributeError
  end.

(** [Parameter.get_data_range]. *)
Definition get_data_range (p : ParameterDesc) (device_info : DeviceInfo) : option DataRange :=
  match data_range p with
  | None => None
  | Some (FixedRange r) => Some r
  | Some (DeviceRange f) => Some (f device_info)
  end.

(** ** Python equality

    [==] between values: numbers compare by value across [bool], [int] and
    [float]; lists and tuples compare element-wise and a tuple never equals
    a list; dicts compare as key/value sets; dataclass instances compare
    class and fields; members of a plain [Enum] compare by identity. *)
Definition step_class_eqb (c d : StepClass) : bool :=
  match c, d with
  | CVStep, CVStep | CPStep, CPStep | CAStep, CAStep | LPStep, LPStep => true
  | _, _ => false
  end.

Fixpoint py_eq (a b : PyVal) {struct a} : bool :=
  match as_number K a, as_number K b with
  | Some x, Some y => Qeq_bool x y
  | Some _, None | None, Some _ => false
  | None, None =>
      match a, b with
      | VNone, VNone => true
      | VStr s, VStr t => String.eqb s t
      | VEnum c m, VEnum c' m' => String.eqb c c' && String.eqb m m'
      | VList xs, VList ys | VTuple xs, VTuple ys =>
          (fix seq_eq (l r : list PyVal) {struct l} : bool :=
             match l, r with
             | [], [] => true
             | x :: l', y :: r' => py_eq x y && seq_eq l' r'
             | _, _ => false
             end) xs ys
      | VDict d1, VDict d2 =>
          Nat.eqb (List.length d1) (List.length d2) &&
          (fix all_in (l : list (string * PyVal)) {struct l} : bool :=
             match l with
             | [] => true
             | (k, v) :: l' =>
                 match dict_get d2 k with
                 | Some v' => py_eq v v'
                 | None => false
                 end && all_in l'
             end) d1
      | VStep c a1 b1 c1, VStep d a2 b2 c2 =>
          step_class_eqb c d && py_eq a1 a2 && py_eq b1 b2 && py_eq c1 c2
      | _, _ => false
      end
  end.

(** ** TechniqueParams *)

(** A parameter class: its name and the values of its [_params_] chain map
    in iteration order (inherited parameters first, then the class's own in
    declaration order). *)
Record ParamsCls : Type := {
  cls_name : string;
  _params_ : list ParameterDesc
}.

Section WithClass.

Variable cls : ParamsCls.

(** [cls._params_.get(name)]. *)
Definition find_param (n : string) : option ParameterDesc :=
  find (fun p => String.eqb (name p) n) (_params_ cls).

(** [TechniqueParams.parameters]. *)
Definition parameters : list ParameterDesc := _params_ cls.

(** The dataclass fields: the parameters that create a field. *)
Definition fields : list ParameterDesc :=
  filter (fun p => create_field p) (_params_ cls).

(** [getattr(self, name)]: a property of the class wins over the instance
    dictionary; a dataclass field with a default leaves the default as class
    attribute; otherwise [AttributeError]. *)
Definition getattr (self : Attrs) (n : string) : Res PyVal :=
  match find_param n with
  | Some p =>
      match create_property p with
      | Some fget => fget self
      | None =>
          match dict_get self n with
          | Some v => Ok v
          | None =>
              match create_field p, default p with
              | true, Some d => Ok d
              | _, _ => Raise AttributeError
              end
          end
      end
  | None =>
      match dict_get self n with
      | Some v => Ok v
      | None => Raise AttributeError
      end
  end.

(** [TechniqueParams.get_value]. *)
Definition get_value (self : Attrs) (n : string) : Res PyVal :=
  match getattr self n with
  | Ok v => Ok v
  | Raise AttributeError =>
      match find_param n with
      | None => Raise AttributeError
      | Some p => get_default p
      end
  | Raise e => Raise e
  end.

(** The range tests one parameter contributes in
    [TechniqueParams.validate]: one test for a scalar, one per element for
    an iterable value. *)
Definition range_tests (self : Attrs) (device_info : DeviceInfo) (p : ParameterDesc)
  : Res (list (option ValidationError)) :=
  match get_data_range p device_info with
  | None => Ok []
  | Some dr =>
      value <- get_value self (name p) ;;
      match py_iter value with
      | None =>
          t <- validate_data_range value (name p) dr ;;
          Ok [t]
      | Some elems =>
          map_res (fun ie => validate_data_range (snd ie) (indexed_name (name p) (fst ie)) dr)
                  (enumerate elems)
      end
  end.

(** [TechniqueParams.validate]: the whole list [tests] is built before the
    first error is yielded. *)
Definition base_validate (self : Attrs) (device_info : DeviceInfo)
  : Res (list ValidationError) :=
  e_range <- getattr self "E_range" ;;
  i_range <- getattr self "I_range" ;;
  bandwidth <- getattr self "bandwidth" ;;
  let tests := [ validate_type e_range "E_range" (TEnumCls "E_RANGE");
                 validate_type i_range "I_range" (TEnumCls "I_RANGE");
                 validate_type bandwidth "bandwidth" (TEnumCls "BANDWIDTH") ] in
  ranged <- map_res (range_tests self device_info) parameters ;;
  Ok (yield_errors (tests ++ List.concat ranged)).

(** [TechniqueParams.to_json]. *)
Fixpoint to_json_loop (self : Attrs) (ps : list ParameterDesc) (json : Attrs)
  : Res Attrs :=
  match ps with
  | [] => Ok json
  | p :: tl =>
      if negb (create_field p) then to_json_loop self tl json
      else
        match getattr self (name p) with
        | Raise AttributeError => to_json_loop self tl json
        | Raise e => Raise e
        | Ok value =>
            value' <- match to_json p with
                      | Some f => f value
                      | None => Ok value
                      end ;;
            match value' with
            | VNone => to_json_loop self tl json
            | _ => to_json_loop self tl (dict_set json (name p) value')
            end
        end
  end.

Definition TechniqueParams_to_json (self : Attrs) : Res Attrs :=
  to_json_loop self parameters [].

(** The dataclass [__init__] called with keyword arguments: an unknown
    keyword or a missing field without default is a [TypeError]. *)
Definition construct (kwargs : Attrs) : Res Attrs :=
  if forallb (fun kv => existsb (fun p => String.eqb (name p) (fst kv)) fields) kwargs
  then
    map_res (fun p =>
               match dict_get kwargs (name p) with
               | Some v => Ok (name p, v)
               | None =>
                   match default p with
                   | Some d => Ok (name p, d)
                   | None => Raise TypeError
                   end
               end) fields
  else Raise TypeError.

(** [TechniqueParams.from_json]. *)
Fixpoint from_json_loop (json : Attrs) (ps : list ParameterDesc) (kwargs : Attrs)
  : Res Attrs :=
  match ps with
  | [] => Ok kwargs
  | p :: tl =>
      match dict_get json (name p) with
      | None => from_json_loop json tl kwargs
      | Some value =>
          value' <- match from_json p with
                    | None => Ok value
                    | Some f =>
                        match f value with
                        | Ok v => Ok v
                        | Raise _ => Raise (ValueError ("invalid value for " ++ name p)%string)
                        end
                    end ;;
          from_json_loop json tl (dict_set kwargs (name p) value')
      end
  end.

Definition TechniqueParams_from_json (json : Attrs) : Res Attrs :=
  kwargs <- from_json_loop json parameters [] ;;
  construct kwargs.

(** The dataclass [__eq__] between two instances of this class: the tuples
    of field values are compared. *)
Definition instance_eq (a b : Attrs) : bool :=
  forallb (fun p =>
             match dict_get a (name p), dict_get b (name p) with
             | Some x, Some y => py_eq x y
             | _, _ => false
             end) fields.

End WithClass.

(** ** The outcome of consuming a [validate] generator

    A generator yields some errors and then either finishes or raises. *)
Record Outcome : Type := {
  yielded : list ValidationError;
  raised : option PyExn
}.

(** One [yield from yield_errors([...])] block followed by the rest of the
    generator body: building the list may raise before anything of the
    block is yielded. *)
Definition yield_block (block : Res (list ValidationError)) (rest : Outcome) : Outcome :=
  match block with
  | Raise e => {| yielded := []; raised := Some e |}
  | Ok errs => {| yielded := errs ++ yielded rest; raised := raised rest |}
  end.

Definition finish : Outcome := {| yielded := []; raised := None |}.

(** [list(gen)]. *)
Definition list_of (o : Outcome) : Res (list ValidationError) :=
  match raised o with
  | None => Ok (yielded o)
  | Some e => Raise e
  end.

(** The enum conversions of the common hardware parameters:
    [to_json=lambda o: o.name] and [from_json=lambda s: E_RANGE[s]]. *)
Definition enum_name (o : PyVal) : Res PyVal :=
  match o with
  | VEnum _ m => Ok (VStr m)
  | _ => Raise AttributeError
  end.

Definition enum_getitem (c : string) (s : PyVal) : Res PyVal :=
  match s with
  | VStr m => if is_member K c m then Ok (VEnum c m) else Raise (KeyError m)
  | _ => Raise (KeyError "")
  end.

(** The three parameters declared by [TechniqueParams] itself. *)
Definition E_range : ParameterDesc := {|
  name := "E_range"; param_id := Some "E_Range"; data_range := None;
  create_field := true; create_property := None;
  default := Some (VEnum "E_RANGE" "E_RANGE_AUTO");
  to_json := Some enum_name; from_json := Some (enum_getitem "E_RANGE") |}.

Definition I_range : ParameterDesc := {|
  name := "I_range"; param_id := Some "I_Range"; data_range := None;
  create_field := true; create_property := None;
  default := Some (VEnum "I_RANGE" "I_RANGE_AUTO");
  to_json := Some enum_name; from_json := Some (enum_getitem "I_RANGE") |}.

Definition bandwidth : ParameterDesc := {|
  name := "bandwidth"; param_id := Some "Bandwidth"; data_range := None;
  create_field := true; create_property := None;
  default := Some (VEnum "BANDWIDTH" "BW_KEEP");
  to_json := Some enum_name; from_json := Some (enum_getitem "BANDWIDTH") |}.

Definition TechniqueParams_params : list ParameterDesc :=
  [E_range; I_range; bandwidth].

End WithEnums.

End Params.

(* ====================================================================== *)
(** * biologic/techniques: the parameter classes                           *)
(* ====================================================================== *)

Module Techniques.

Import Params.

(** Field names of the step dataclasses, in declaration order. *)
Definition step_fields (c : StepClass) : string * string * string :=
  match c with
  | CVStep => ("voltage", "scan_rate", "vs_initial")
  | CPStep => ("current", "duration", "vs_initial")
  | CAStep => ("voltage", "duration", "vs_initial")
  | LPStep => ("voltage_scan", "scan_rate", "vs_initial_scan")
  end.

(** [obj.attr] for the attributes the technique code reads from a step. *)
Definition obj_attr (v : PyVal) (n : string) : Res PyVal :=
  match v with
  | VStep c a b d =>
      let '(fa, fb, fc) := step_fields c in
      if String.eqb n fa then Ok a
      else if String.eqb n fb then Ok b
      else if String.eqb n fc then Ok d
      else Raise AttributeError
  | _ => Raise AttributeError
  end.

(** [step.to_json()]: a dict of the three fields. *)
Definition step_to_json (v : PyVal) : Res PyVal :=
  match v with
  | VStep c a b d =>
      let '(fa, fb, fc) := step_fields c in
      Ok (VDict [(fa, a); (fb, b); (fc, d)])
  | _ => Raise AttributeError
  end.

(** [json[key]] with a string key. *)
Definition json_item (json : PyVal) (key : string) : Res PyVal :=
  match json with
  | VDict kvs =>
      match dict_get kvs key with
      | Some v => Ok v
      | None => Raise (KeyError key)
      end
  | _ => Raise TypeError
  end.

(** [CVStep.from_json], [CPStep.from_json], ...: the class is rebuilt from
    the three keys. *)
Definition step_from_json (c : StepClass) (json : PyVal) : Res PyVal :=
  let '(fa, fb, fc) := step_fields c in
  a <- json_item json fa ;;
  b <- json_item json fb ;;
  d <- json_item json fc ;;
  Ok (VStep c a b d).

(** [self.<field>] inside a property body, before the class exists: the
    instance dictionary or [AttributeError]. *)
Definition self_field (self : Attrs) (n : string) : Res PyVal :=
  match dict_get self n with
  | Some v => Ok v
  | None => Raise AttributeError
  end.

Definition range_ge0 : DataRange :=
  {| min_value := Some 0%Q; max_value := None; min_strict := false; max_strict := false |}.

Definition range_0_1 : DataRange :=
  {| min_value := Some 0%Q; max_value := Some 1%Q; min_strict := false; max_strict := false |}.

(** [DataRange(0, timebase*(1<<31))]; the timebase is read as the decimal
    it is written as, and the product is exact. *)
Definition range_time (timebase : Q) : DataRange :=
  {| min_value := Some 0%Q; max_value := Some (timebase * inject_Z (2 ^ 31))%Q;
     min_strict := false; max_strict := false |}.

(** A plain scalar parameter with an optional fixed range. *)
Definition scalar_param (n id : string) (r : option DataRange) : ParameterDesc := {|
  name := n; param_id := Some id;
  data_range := option_map FixedRange r;
  create_field := true; create_property := None; default := None;
  to_json := None; from_json := None |}.

(** A parameter derived by a property ([create_field=False]). *)
Definition derived_param (n id : string) (r : option DataRange)
           (fget : Attrs -> Res PyVal) : ParameterDesc := {|
  name := n; param_id := Some id;
  data_range := option_map FixedRange r;
  create_field := false; create_property := Some fget; default := None;
  to_json := None; from_json := None |}.

(** A constant parameter ([create_field=False] with a default). *)
Definition const_param (n id : string) (d : PyVal) : ParameterDesc := {|
  name := n; param_id := Some id; data_range := None;
  create_field := false; create_property := None; default := Some d;
  to_json := None; from_json := None |}.

(** A [CVStep] with its three fields, and the object it denotes. *)
Record CVStepRec : Type := {
  voltage : PyVal;
  scan_rate : PyVal;
  vs_initial : PyVal
}.

Definition CVStep_obj (s : CVStepRec) : PyVal :=
  VStep CVStep (voltage s) (scan_rate s) (vs_initial s).

Section WithEnums.

Variable K : EnumTable.

(** ** ocv.py *)

Definition OCV_TIMEBASE : Q := (20 # 1000000)%Q.

Definition OCVParams : ParamsCls := {|
  cls_name := "OCVParams";
  _params_ :=
    TechniqueParams_params K ++
    [ scalar_param "rest_time_T" "Rest_time_T" (Some (range_time OCV_TIMEBASE));
      scalar_param "record_every_dE" "Record_every_dE" (Some range_ge0);
      scalar_param "record_every_dT" "Record_every_dT" (Some range_ge0) ]
|}.

(** [OCVParams.validate]. *)
Definition OCVParams_validate (self : Attrs) (device_info : DeviceInfo) : Outcome :=
  yield_block
    (rest_time_T <- getattr OCVParams self "rest_time_T" ;;
     record_every_dT <- getattr OCVParams self "record_every_dT" ;;
     record_every_dE <- getattr OCVParams self "record_every_dE" ;;
     Ok (yield_errors
           [ validate_type K rest_time_T "rest_time_T" TNumber;
             validate_type K record_every_dT "record_every_dT" TNumber;
             validate_type K record_every_dE "record_every_dE" TNumber ]))
    (yield_block (base_validate K OCVParams self device_info) finish).

(** ** cv.py *)

(** [CVParams._step_sequence]: [self.Ei, self.E1, self.E2, self.Ei, self.Ef]. *)
Definition CV_step_sequence (self : Attrs) : Res (list PyVal) :=
  ei <- self_field self "Ei" ;;
  e1 <- self_field self "E1" ;;
  e2 <- self_field self "E2" ;;
  ei' <- self_field self "Ei" ;;
  ef <- self_field self "Ef" ;;
  Ok [ei; e1; e2; ei'; ef].

(** [[ step.<attr> for step in self._step_sequence() ]]. *)
Definition CV_projection (attr : string) (self : Attrs) : Res PyVal :=
  steps <- CV_step_sequence self ;;
  xs <- map_res (fun step => obj_attr step attr) steps ;;
  Ok (VList xs).

Definition CV_vs_initial := CV_projection "vs_initial".
Definition CV_voltage_step := CV_projection "voltage".
Definition CV_scan_rate := CV_projection "scan_rate".

Definition step_param (n : string) (c : StepClass) : ParameterDesc := {|
  name := n; param_id := None; data_range := None;
  create_field := true; create_property := None; default := None;
  to_json := Some step_to_json;
  from_json := Some (step_from_json c) |}.

Definition CVParams : ParamsCls := {|
  cls_name := "CVParams";
  _params_ :=
    TechniqueParams_params K ++
    [ const_param "scan_number" "Scan_number" (VInt 2);
      scalar_param "record_every_dE" "Record_every_dE" (Some range_ge0);
      scalar_param "average_over_dE" "Average_over_dE" None;
      scalar_param "n_cycles" "N_Cycles" (Some range_ge0);
      scalar_param "begin_measuring_i" "Begin_measuring_I" (Some range_0_1);
      scalar_param "end_measuring_i" "End_measuring_I" (Some range_0_1);
      step_param "Ei" CVStep;
      step_param "E1" CVStep;
      step_param "E2" CVStep;
      step_param "Ef" CVStep;
      derived_param "vs_initial" "vs_initial" None CV_vs_initial;
      derived_param "voltage_step" "Voltage_step" None CV_voltage_step;
      derived_param "scan_rate" "Scan_Rate" (Some range_ge0) CV_scan_rate ]
|}.

(** The generator expression over [range(n)] in the [validate] methods of
    cv.py: for each index the three arrays are read again and indexed. *)
Definition CV_index_tests (self : Attrs) (idx : nat) : Res (list (option ValidationError)) :=
  vs <- getattr CVParams self "vs_initial" ;;
  a <- py_getitem vs idx ;;
  vo <- getattr CVParams self "voltage_step" ;;
  b <- py_getitem vo idx ;;
  sr <- getattr CVParams self "scan_rate" ;;
  c <- py_getitem sr idx ;;
  Ok [ validate_type K a (indexed_name "vs_initial" idx) TBool;
       validate_type K b (indexed_name "voltage_step" idx) TNumber;
       validate_type K c (indexed_name "scan_rate" idx) TNumber ].

(** [CVParams.validate]. *)
Definition CVParams_validate (self : Attrs) (device_info : DeviceInfo) : Outcome :=
  yield_block
    (vs <- getattr CVParams self "vs_initial" ;;
     vo <- getattr CVParams self "voltage_step" ;;
     sr <- getattr CVParams self "scan_rate" ;;
     per_index <- map_res (CV_index_tests self) (seq 0 5) ;;
     record_every_dE <- getattr CVParams self "record_every_dE" ;;
     average_over_dE <- getattr CVParams self "average_over_dE" ;;
     n_cycles <- getattr CVParams self "n_cycles" ;;
     begin_measuring_i <- getattr CVParams self "begin_measuring_i" ;;
     end_measuring_i <- getattr CVParams self "end_measuring_i" ;;
     Ok (yield_errors
           ([ validate_len vs "vs_initial" 5;
              validate_len vo "voltage_step" 5;
              validate_len sr "scan_rate" 5 ]
            ++ List.concat per_index
            ++ [ validate_type K record_every_dE "record_every_dE" TNumber;
                 validate_type K average_over_dE "average_over_dE" TBool;
                 validate_type K n_cycles "n_cycles" TNumber;
                 validate_type K begin_measuring_i "begin_measuring_i" TNumber;
                 validate_type K end_measuring_i "end_measuring_i" TNumber ])))
    (yield_block (base_validate K CVParams self device_info) finish).

(** ** cp.py *)

Definition CP_TIMEBASE : Q := (21 # 1000000)%Q.

(** The generator properties [current_step], [duration_step] and
    [vs_initial]: [for step in self.steps: yield step.<attr>].  The elements
    are produced when the generator is consumed; every use in the modelled
    code consumes it at once. *)
Definition CP_projection (attr : string) (self : Attrs) : Res PyVal :=
  steps <- self_field self "steps" ;;
  match py_iter steps with
  | None => Raise TypeError
  | Some elems =>
      xs <- map_res (fun step => obj_attr step attr) elems ;;
      Ok (VList xs)
  end.

(** [step_number]: [len(self.steps) - 1]. *)
Definition CP_step_number (self : Attrs) : Res PyVal :=
  steps <- self_field self "steps" ;;
  match py_len steps with
  | None => Raise TypeError
  | Some n => Ok (VInt (Z.of_nat n - 1))
  end.

(** [to_json=lambda s: [ step.to_json() for step in s ]]. *)
Definition steps_to_json (s : PyVal) : Res PyVal :=
  match py_iter s with
  | None => Raise TypeError
  | Some elems =>
      js <- map_res step_to_json elems ;;
      Ok (VList js)
  end.

(** [from_json=lambda s: [ CPStep.from_json(step) for step in s ]]. *)
Definition steps_from_json (c : StepClass) (s : PyVal) : Res PyVal :=
  match py_iter s with
  | None => Raise TypeError
  | Some elems =>
      xs <- map_res (step_from_json c) elems ;;
      Ok (VList xs)
  end.

Definition CPParams : ParamsCls := {|
  cls_name := "CPParams";
  _params_ :=
    TechniqueParams_params K ++
    [ scalar_param "record_every_dT" "Record_every_dT" (Some range_ge0);
      scalar_param "record_every_dE" "Record_every_dE" (Some range_ge0);
      scalar_param "n_cycles" "N_Cycles" (Some range_ge0);
      {| name := "steps"; param_id := None; data_range := None;
         create_field := true; create_property := None; default := None;
         to_json := Some steps_to_json;
         from_json := Some (steps_from_json CPStep) |};
      derived_param "current_step" "Current_step" None (CP_projection "current");
      derived_param "vs_initial" "vs_initial" None (CP_projection "vs_initial");
      derived_param "duration_step" "Duration_step"
                    (Some (range_time CP_TIMEBASE)) (CP_projection "duration");
      derived_param "step_number" "Step_number"
                    (Some {| min_value := Some 0%Q; max_value := Some (98 # 1)%Q;
                             min_strict := false; max_strict := false |})
                    CP_step_number ]
|}.

(** [*(validate_type(o, f'<name>[{idx}]', T) for idx, o in enumerate(v))]. *)
Definition enumerate_type_tests (v : PyVal) (n : string) (t : PyType)
  : Res (list (option ValidationError)) :=
  match py_iter v with
  | None => Raise TypeError
  | Some elems =>
      Ok (map (fun io => validate_type K (snd io) (indexed_name n (fst io)) t)
              (enumerate elems))
  end.

Definition I_auto_error : ValidationError :=
  {| param := "I_range";
     message := MsgText "I auto-range is not allowed for this technique" |}.

(** [CPParams.validate]: the auto-range error is yielded before the list
    of type tests is built. *)
Definition CPParams_validate (self : Attrs) (device_info : DeviceInfo) : Outcome :=
  match getattr CPParams self "I_range" with
  | Raise e => {| yielded := []; raised := Some e |}
  | Ok i_range =>
      yield_block
        (Ok (if py_eq K i_range (VEnum "I_RANGE" "I_RANGE_AUTO")
             then [I_auto_error] else []))
        (yield_block
           (record_every_dT <- getattr CPParams self "record_every_dT" ;;
            record_every_dE <- getattr CPParams self "record_every_dE" ;;
            n_cycles <- getattr CPParams self "n_cycles" ;;
            current_step <- getattr CPParams self "current_step" ;;
            cur <- enumerate_type_tests current_step "current_step" TNumber ;;
            vs_initial <- getattr CPParams self "vs_initial" ;;
            vs <- enumerate_type_tests vs_initial "vs_initial" TBool ;;
            duration_step <- getattr CPParams self "duration_step" ;;
            dur <- enumerate_type_tests duration_step "duration_step" TNumber ;;
            Ok (yield_errors
                  ([ validate_type K record_every_dT "record_every_dT" TNumber;
                     validate_type K record_every_dE "record_every_dI" TNumber;
                     validate_type K n_cycles "n_cycles" TInt ]
                   ++ cur ++ vs ++ dur)))
           (yield_block (base_validate K CPParams self device_info) finish))
  end.

(** ** ca.py *)

(** [CA_TIMEBASE], a dict keyed by device family. *)
Definition CA_TIMEBASE (f : DeviceFamily) : Q :=
  match f with
  | VMP3 => (24 # 1000000)%Q
  | SP300 => (21 # 1000000)%Q
  end.

(** The list properties [voltage_step], [duration_step] and [vs_initial]:
    [[ step.<attr> for step in self.steps ]]. *)
Definition CA_projection (attr : string) (self : Attrs) : Res PyVal :=
  steps <- self_field self "steps" ;;
  match py_iter steps with
  | None => Raise TypeError
  | Some elems =>
      xs <- map_res (fun step => obj_attr step attr) elems ;;
      Ok (VList xs)
  end.

(** [step_number]: [len(self.steps) - 1]. *)
Definition CA_step_number (self : Attrs) : Res PyVal :=
  steps <- self_field self "steps" ;;
  match py_len steps with
  | None => Raise TypeError
  | Some n => Ok (VInt (Z.of_nat n - 1))
  end.

Definition CAParams : ParamsCls := {|
  cls_name := "CAParams";
  _params_ :=
    TechniqueParams_params K ++
    [ scalar_param "record_every_dT" "Record_every_dT" (Some range_ge0);
      scalar_param "record_every_dI" "Record_every_dI" (Some range_ge0);
      scalar_param "n_cycles" "N_Cycles" (Some range_ge0);
      {| name := "steps"; param_id := None; data_range := None;
         create_field := true; create_property := None; default := None;
         to_json := Some steps_to_json;
         from_json := Some (steps_from_json CAStep) |};
      derived_param "voltage_step" "Voltage_step" None (CA_projection "voltage");
      derived_param "vs_initial" "vs_initial" None (CA_projection "vs_initial");
      {| name := "duration_step"; param_id := Some "Duration_step";
         data_range :=
           Some (DeviceRange (fun device => range_time (CA_TIMEBASE (family device))));
         create_field := false; create_property := Some (CA_projection "duration");
         default := None; to_json := None; from_json := None |};
      derived_param "step_number" "Step_number"
                    (Some {| min_value := Some 0%Q; max_value := Some (98 # 1)%Q;
                             min_strict := false; max_strict := false |})
                    CA_step_number ]
|}.

(** [CAParams.validate]. *)
Definition CAParams_validate (self : Attrs) (device_info : DeviceInfo) : Outcome :=
  yield_block
    (record_every_dT <- getattr CAParams self "record_every_dT" ;;
     record_every_dI <- getattr CAParams self "record_every_dI" ;;
     n_cycles <- getattr CAParams self "n_cycles" ;;
     voltage_step <- getattr CAParams self "voltage_step" ;;
     vol <- enumerate_type_tests voltage_step "voltage_step" TNumber ;;
     vs_initial <- getattr CAParams self "vs_initial" ;;
     vs <- enumerate_type_tests vs_initial "vs_initial" TBool ;;
     duration_step <- getattr CAParams self "duration_step" ;;
     dur <- enumerate_type_tests duration_step "duration_step" TNumber ;;
     Ok (yield_errors
           ([ validate_type K record_every_dT "record_every_dT" TNumber;
              validate_type K record_every_dI "record_every_dI" TNumber;
              validate_type K n_cycles "n_cycles" TInt ]
            ++ vol ++ vs ++ dur)))
    (yield_block (base_validate K CAParams self device_info) finish).

(** ** peis.py *)

Definition PEIS_TIMEBASE : Q := (24 # 1000000)%Q.

Definition range_ge1 : DataRange :=
  {| min_value := Some 1%Q; max_value := None; min_strict := false; max_strict := false |}.

(** [vs_final] and [final_voltage_step]: always equal to [vs_initial] and
    [initial_voltage_step]. *)
Definition PEIS_vs_final (self : Attrs) : Res PyVal := self_field self "vs_initial".

Definition PEIS_final_voltage_step (self : Attrs) : Res PyVal :=
  self_field self "initial_voltage_step".

(** A parameter holding a member of an enum class, converted by name. *)
Definition enum_param (n id c : string) (d : option PyVal) : ParameterDesc := {|
  name := n; param_id := Some id; data_range := None;
  create_field := true; create_property := None; default := d;
  to_json := Some enum_name; from_json := Some (enum_getitem K c) |}.

Definition PEISParams : ParamsCls := {|
  cls_name := "PEISParams";
  _params_ :=
    TechniqueParams_params K ++
    [ scalar_param "vs_initial" "vs_initial" None;
      derived_param "vs_final" "vs_final" None PEIS_vs_final;
      scalar_param "initial_voltage_step" "Initial_Voltage_step" None;
      derived_param "final_voltage_step" "Final_Voltage_step" None PEIS_final_voltage_step;
      scalar_param "duration_step" "Duration_step" (Some (range_time PEIS_TIMEBASE));
      const_param "step_number" "Step_number" (VInt 0);
      scalar_param "record_every_dT" "Record_every_dT" (Some range_ge0);
      scalar_param "record_every_dI" "Record_every_dI" (Some range_ge0);
      scalar_param "final_frequency" "Final_frequency" None;
      scalar_param "initial_frequency" "Initial_frequency" None;
      enum_param "sweep" "sweep" "SweepMode" None;
      scalar_param "amplitude_voltage" "Amplitude_Voltage" None;
      scalar_param "frequency_number" "Frequency_number" (Some range_ge1);
      scalar_param "average_n_times" "Average_N_times" (Some range_ge1);
      scalar_param "correction" "Correction" None;
      scalar_param "wait_for_steady" "Wait_for_steady" (Some range_ge0) ]
|}.

(** [PEISParams.validate]. *)
Definition PEISParams_validate (self : Attrs) (device_info : DeviceInfo) : Outcome :=
  yield_block
    (vs_initial <- getattr PEISParams self "vs_initial" ;;
     initial_voltage_step <- getattr PEISParams self "initial_voltage_step" ;;
     duration_step <- getattr PEISParams self "duration_step" ;;
     record_every_dT <- getattr PEISParams self "record_every_dT" ;;
     record_every_dI <- getattr PEISParams self "record_every_dI" ;;
     final_frequency <- getattr PEISParams self "final_frequency" ;;
     initial_frequency <- getattr PEISParams self "initial_frequency" ;;
     sweep <- getattr PEISParams self "sweep" ;;
     amplitude_voltage <- getattr PEISParams self "amplitude_voltage" ;;
     frequency_number <- getattr PEISParams self "frequency_number" ;;
     average_n_times <- getattr PEISParams self "average_n_times" ;;
     correction <- getattr PEISParams self "correction" ;;
     wait_for_steady <- getattr PEISParams self "wait_for_steady" ;;
     Ok (yield_errors
           [ validate_type K vs_initial "vs_initial" TBool;
             validate_type K initial_voltage_step "initial_voltage_step" TNumber;
             validate_type K duration_step "duration_step" TNumber;
             validate_type K record_every_dT "record_every_dT" TNumber;
             validate_type K record_every_dI "record_every_dI" TNumber;
             validate_type K final_frequency "final_frequency" TNumber;
             validate_type K initial_frequency "initial_frequency" TNumber;
             validate_type K sweep "sweep" (TEnumCls "SweepMode");
             validate_type K amplitude_voltage "amplitude_voltage" TNumber;
             validate_type K frequency_number "frequency_number" TInt;
             validate_type K average_n_times "average_n_times" TInt;
             validate_type K correction "correction" TBool;
             validate_type K wait_for_steady "wait_for_steady" TNumber ]))
    (yield_block (base_validate K PEISParams self device_info) finish).

(** ** pzir.py *)

(** [final_frequency] and [initial_frequency]: both [self.frequency]. *)
Definition PZIR_frequency (self : Attrs) : Res PyVal := self_field self "frequency".

Definition PZIRParams : ParamsCls := {|
  cls_name := "PZIRParams";
  _params_ :=
    TechniqueParams_params K ++
    [ {| name := "frequency"; param_id := None; data_range := None;
         create_field := true; create_property := None; default := None;
         to_json := None; from_json := None |};
      derived_param "final_frequency" "Final_frequency" None PZIR_frequency;
      derived_param "initial_frequency" "Initial_frequency" None PZIR_frequency;
      scalar_param "amplitude_voltage" "Amplitude_Voltage" None;
      scalar_param "average_n_times" "Average_N_times" (Some range_ge1);
      scalar_param "wait_for_steady" "Wait_for_steady" (Some range_ge0);
      const_param "sweep" "sweep" (VBool true);
      scalar_param "rcomp_level" "Rcomp_Level" (Some range_ge0);
      enum_param "rcmp_mode" "Rcmp_Mode" "RcmpMode" (Some (VEnum "RcmpMode" "Software")) ]
|}.

(** [PZIRParams.validate]. *)
Definition PZIRParams_validate (self : Attrs) (device_info : DeviceInfo) : Outcome :=
  yield_block
    (frequency <- getattr PZIRParams self "frequency" ;;
     amplitude_voltage <- getattr PZIRParams self "amplitude_voltage" ;;
     average_n_times <- getattr PZIRParams self "average_n_times" ;;
     wait_for_steady <- getattr PZIRParams self "wait_for_steady" ;;
     rcomp_level <- getattr PZIRParams self "rcomp_level" ;;
     rcmp_mode <- getattr PZIRParams self "rcmp_mode" ;;
     Ok (yield_errors
           [ validate_type K frequency "frequency" TNumber;
             validate_type K amplitude_voltage "amplitude_voltage" TNumber;
             validate_type K average_n_times "average_n_times" TInt;
             validate_type K wait_for_steady "wait_for_steady" TNumber;
             validate_type K rcomp_level "rcomp_level" TNumber;
             validate_type K rcmp_mode "rcmp_mode" (TEnumCls "RcmpMode") ]))
    (yield_block (base_validate K PZIRParams self device_info) finish).

(** ** lp.py *)

Definition LP_TIMEBASE : Q := (40 # 1000000)%Q.

(** [LPParams._step_sequence]: [self.Ei, self.El]. *)
Definition LP_step_sequence (self : Attrs) : Res (list PyVal) :=
  ei <- self_field self "Ei" ;;
  el <- self_field self "El" ;;
  Ok [ei; el].

(** [[ step.<attr> for step in self._step_sequence() ]]. *)
Definition LP_projection (attr : string) (self : Attrs) : Res PyVal :=
  steps <- LP_step_sequence self ;;
  xs <- map_res (fun step => obj_attr step attr) steps ;;
  Ok (VList xs).

(** A constant parameter that carries a range. *)
Definition ranged_const_param (n id : string) (r : DataRange) (d : PyVal)
  : ParameterDesc := {|
  name := n; param_id := Some id; data_range := Some (FixedRange r);
  create_field := false; create_property := None; default := Some d;
  to_json := None; from_json := None |}.

Definition LPParams : ParamsCls := {|
  cls_name := "LPParams";
  _params_ :=
    TechniqueParams_params K ++
    [ scalar_param "record_every_dEr" "Record_every_dEr" (Some range_ge0);
      scalar_param "rest_time_T" "Rest_time_T" (Some (range_time LP_TIMEBASE));
      scalar_param "record_every_dTr" "Record_every_dTr" (Some range_ge0);
      const_param "oc1" "OC1" (VBool false);
      ranged_const_param "e1" "E1" range_ge0 (VInt 0);
      ranged_const_param "t1" "T1" range_ge0 (VInt 0);
      step_param "Ei" LPStep;
      step_param "El" LPStep;
      const_param "scan_number" "Scan_number" (VInt 0);
      scalar_param "record_every_dE" "Record_every_dE" (Some range_ge0);
      scalar_param "average_over_dE" "Average_over_dE" None;
      scalar_param "begin_measuring_I" "Begin_measuring_I" (Some range_0_1);
      scalar_param "end_measuring_I" "End_measuring_I" (Some range_0_1);
      derived_param "vs_initial_scan" "vs_initial_scan" None (LP_projection "vs_initial_scan");
      derived_param "voltage_scan" "Voltage_scan" None (LP_projection "voltage_scan");
      derived_param "scan_rate" "Scan_Rate" (Some range_ge0) (LP_projection "scan_rate") ]
|}.

(** The generator expression over [range(2)] in [LPParams.validate]. *)
Definition LP_index_tests (self : Attrs) (idx : nat) : Res (list (option ValidationError)) :=
  vs <- getattr LPParams self "vs_initial_scan" ;;
  a <- py_getitem vs idx ;;
  vo <- getattr LPParams self "voltage_scan" ;;
  b <- py_getitem vo idx ;;
  sr <- getattr LPParams self "scan_rate" ;;
  c <- py_getitem sr idx ;;
  Ok [ validate_type K a (indexed_name "vs_initial_scan" idx) TBool;
       validate_type K b (indexed_name "voltage_scan" idx) TNumber;
       validate_type K c (indexed_name "scan_rate" idx) TNumber ].

(** [LPParams.validate]. *)
Definition LPParams_validate (self : Attrs) (device_info : DeviceInfo) : Outcome :=
  yield_block
    (record_every_dEr <- getattr LPParams self "record_every_dEr" ;;
     rest_time_T <- getattr LPParams self "rest_time_T" ;;
     record_every_dTr <- getattr LPParams self "record_every_dTr" ;;
     vs <- getattr LPParams self "vs_initial_scan" ;;
     vo <- getattr LPParams self "voltage_scan" ;;
     sr <- getattr LPParams self "scan_rate" ;;
     per_index <- map_res (LP_index_tests self) (seq 0 2) ;;
     record_every_dE <- getattr LPParams self "record_every_dE" ;;
     average_over_dE <- getattr LPParams self "average_over_dE" ;;
     begin_measuring_I <- getattr LPParams self "begin_measuring_I" ;;
     end_measuring_I <- getattr LPParams self "end_measuring_I" ;;
     Ok (yield_errors
           ([ validate_type K record_every_dEr "record_every_dEr" TNumber;
              validate_type K rest_time_T "rest_time_T" TNumber;
              validate_type K record_every_dTr "record_every_dTr" TNumber;
              validate_len vs "vs_initial_scan" 2;
              validate_len vo "voltage_scan" 2;
              validate_len sr "scan_rate" 2 ]
            ++ List.concat per_index
            ++ [ validate_type K record_every_dE "record_every_dE" TNumber;
                 validate_type K average_over_dE "average_over_dE" TBool;
                 validate_type K begin_measuring_I "begin_measuring_I" TNumber;
                 validate_type K end_measuring_I "end_measuring_I" TNumber ])))
    (yield_block (base_validate K LPParams self device_info) finish).

(** ** cpp.py *)

(** [CPP_TIMEBASE], a dict keyed by device family. *)
Definition CPP_TIMEBASE (f : DeviceFamily) : Q :=
  match f with
  | VMP3 => (40 # 1000000)%Q
  | SP300 => (44 # 1000000)%Q
  end.

Definition CPPParams : ParamsCls := {|
  cls_name := "CPPParams";
  _params_ :=
    TechniqueParams_params K ++
    [ scalar_param "record_every_dEr" "Record_every_dEr" (Some range_ge0);
      {| name := "rest_time_T"; param_id := Some "Rest_time_T";
         data_range :=
           Some (DeviceRange (fun device => range_time (CPP_TIMEBASE (family device))));
         create_field := true; create_property := None; default := None;
         to_json := None; from_json := None |};
      scalar_param "record_every_dTr" "Record_every_dTr" (Some range_ge0);
      scalar_param "vs_initial_scan" "vs_initial_scan" None;
      scalar_param "voltage_scan" "Voltage_scan" None;
      scalar_param "scan_rate" "Scan_Rate" (Some range_ge0);
      const_param "scan_number" "Scan_number" (VInt 1);
      scalar_param "I_pitting" "I_pitting" (Some range_ge0);
      scalar_param "t_b" "t_b" (Some range_ge0);
      scalar_param "record_every_dE" "Record_every_dE" (Some range_ge0);
      scalar_param "average_over_dE" "Average_over_dE" None;
      scalar_param "begin_measuring_I" "Begin_measuring_I" (Some range_0_1);
      scalar_param "end_measuring_I" "End_measuring_I" (Some range_0_1);
      scalar_param "record_every_dT" "Record_every_dT" (Some range_ge0) ]
|}.

(** The generator expression over [range(3)] in [CPPParams.validate]. *)
Definition CPP_index_tests (self : Attrs) (idx : nat) : Res (list (option ValidationError)) :=
  vs <- getattr CPPParams self "vs_initial_scan" ;;
  a <- py_getitem vs idx ;;
  vo <- getattr CPPParams self "voltage_scan" ;;
  b <- py_getitem vo idx ;;
  sr <- getattr CPPParams self "scan_rate" ;;
  c <- py_getitem sr idx ;;
  Ok [ validate_type K a (indexed_name "vs_initial_scan" idx) TBool;
       validate_type K b (indexed_name "voltage_scan" idx) TNumber;
       validate_type K c (indexed_name "scan_rate" idx) TNumber ].

(** [CPPParams.validate]. *)
Definition CPPParams_validate (self : Attrs) (device_info : DeviceInfo) : Outcome :=
  yield_block
    (record_every_dEr <- getattr CPPParams self "record_every_dEr" ;;
     rest_time_T <- getattr CPPParams self "rest_time_T" ;;
     record_every_dTr <- getattr CPPParams self "record_every_dTr" ;;
     vs <- getattr CPPParams self "vs_initial_scan" ;;
     vo <- getattr CPPParams self "voltage_scan" ;;
     sr <- getattr CPPParams self "scan_rate" ;;
     per_index <- map_res (CPP_index_tests self) (seq 0 3) ;;
     I_pitting <- getattr CPPParams self "I_pitting" ;;
     t_b <- getattr CPPParams self "t_b" ;;
     record_every_dE <- getattr CPPParams self "record_every_dE" ;;
     average_over_dE <- getattr CPPParams self "average_over_dE" ;;
     begin_measuring_I <- getattr CPPParams self "begin_measuring_I" ;;
     end_measuring_I <- getattr CPPParams self "end_measuring_I" ;;
     record_every_dT <- getattr CPPParams self "record_every_dT" ;;
     Ok (yield_errors
           ([ validate_type K record_every_dEr "record_every_dEr" TNumber;
              validate_type K rest_time_T "rest_time_T" TNumber;
              validate_type K record_every_dTr "record_every_dTr" TNumber;
              validate_len vs "vs_initial_scan" 3;
              validate_len vo "voltage_scan" 3;
              validate_len sr "scan_rate" 3 ]
            ++ List.concat per_index
            ++ [ validate_type K I_pitting "I_pitting" TNumber;
                 validate_type K t_b "t_b" TNumber;
                 validate_type K record_every_dE "record_every_dE" TNumber;
                 validate_type K average_over_dE "average_over_dE" TBool;
                 validate_type K begin_measuring_I "begin_measuring_I" TNumber;
                 validate_type K end_measuring_I "end_measuring_I" TNumber;
                 validate_type K record_every_dT "record_every_dT" TNumber ])))
    (yield_block (base_validate K CPPParams self device_info) finish).

(** ** Dispatch

    The parameter classes, and the dynamic dispatch of
    [params.validate(device_info)] on the class of the instance. *)
Inductive ParamsKind : Type := OCV | CV | CP | CA | PEIS | PZIR | LP | CPP.

Definition params_cls (k : ParamsKind) : ParamsCls :=
  match k with
  | OCV => OCVParams
  | CV => CVParams
  | CP => CPParams
  | CA => CAParams
  | PEIS => PEISParams
  | PZIR => PZIRParams
  | LP => LPParams
  | CPP => CPPParams
  end.

Definition validate (k : ParamsKind) (self : Attrs) (device_info : DeviceInfo) : Outcome :=
  match k with
  | OCV => OCVParams_validate self device_info
  | CV => CVParams_validate self device_info
  | CP => CPParams_validate self device_info
  | CA => CAParams_validate self device_info
  | PEIS => PEISParams_validate self device_info
  | PZIR => PZIRParams_validate self device_info
  | LP => LPParams_validate self device_info
  | CPP => CPPParams_validate self device_info
  end.

End WithEnums.

(** An enum table with the members the sources name
    ([E_RANGE.E_RANGE_AUTO], [I_RANGE.I_RANGE_AUTO], [BANDWIDTH.BW_KEEP])
    and a few more, with integer values so that members can be ordered as
    [Channel._check_limits] requires.  Used for concrete runs only. *)
Definition demo_members : list (string * list (string * Z)) :=
  [ ("E_RANGE", [("E_RANGE_AUTO", 3%Z)]);
    ("I_RANGE", [("I_RANGE_100pA", 0%Z); ("I_RANGE_10mA", 8%Z);
                 ("I_RANGE_1A", 10%Z); ("I_RANGE_AUTO", 12%Z)]);
    ("BANDWIDTH", [("BW_KEEP", (-1)%Z); ("BW_9", 9%Z)]) ].

Definition demo_enums : EnumTable := {|
  enum_member := fun c m =>
    match dict_get demo_members c with
    | Some ms => match dict_get ms m with Some _ => true | None => false end
    | None => false
    end;
  enum_int := fun c m =>
    match dict_get demo_members c with
    | Some ms => dict_get ms m
    | None => None
    end
|}.

Definition sp300 : DeviceInfo := {| family := SP300; num_channels := 4 |}.

End Techniques.

(* ====================================================================== *)
(** * What validation is required to establish                             *)
(* ====================================================================== *)

(** The constraints a parameter class declares, stated without reference to
    the validators: a type constraint per checked parameter (on the value,
    or on each element of an array-valued parameter), the range constraint
    of each parameter that carries a [data_range], and the rules a
    technique adds on top. *)
Module ValidationSpec.

Import Params Techniques.

(** A type constraint bears on the value itself, on every element of an
    array-valued parameter, or on the [n] entries of an array of declared
    length [n]. *)
Inductive Shape : Type := Scalar | Elementwise | Entries (n : nat).

Record TypeConstraint : Type := {
  tc_name : string;
  tc_type : PyType;
  tc_shape : Shape
}.

Definition opt_add (a b : option nat) : option nat :=
  match a, b with
  | Some x, Some y => Some (x + y)
  | _, _ => None
  end.

Definition sum_all (l : list (option nat)) : option nat :=
  fold_right opt_add (Some 0) l.

Definition count_bad (ok : PyVal -> bool) (xs : list PyVal) : nat :=
  List.length (filter (fun x => negb (ok x)) xs).

(** The type constraints on the three common hardware parameters. *)
Definition common_constraints : list TypeConstraint :=
  [ {| tc_name := "E_range"; tc_type := TEnumCls "E_RANGE"; tc_shape := Scalar |};
    {| tc_name := "I_range"; tc_type := TEnumCls "I_RANGE"; tc_shape := Scalar |};
    {| tc_name := "bandwidth"; tc_type := TEnumCls "BANDWIDTH"; tc_shape := Scalar |} ].

(** The type constraints each technique adds. *)
Definition own_constraints (k : ParamsKind) : list TypeConstraint :=
  match k with
  | OCV =>
      [ {| tc_name := "rest_time_T"; tc_type := TNumber; tc_shape := Scalar |};
        {| tc_name := "record_every_dT"; tc_type := TNumber; tc_shape := Scalar |};
        {| tc_name := "record_every_dE"; tc_type := TNumber; tc_shape := Scalar |} ]
  | CV =>
      [ {| tc_name := "vs_initial"; tc_type := TBool; tc_shape := Elementwise |};
        {| tc_name := "voltage_step"; tc_type := TNumber; tc_shape := Elementwise |};
        {| tc_name := "scan_rate"; tc_type := TNumber; tc_shape := Elementwise |};
        {| tc_name := "record_every_dE"; tc_type := TNumber; tc_shape := Scalar |};
        {| tc_name := "average_over_dE"; tc_type := TBool; tc_shape := Scalar |};
        {| tc_name := "n_cycles"; tc_type := TNumber; tc_shape := Scalar |};
        {| tc_name := "begin_measuring_i"; tc_type := TNumber; tc_shape := Scalar |};
        {| tc_name := "end_measuring_i"; tc_type := TNumber; tc_shape := Scalar |} ]
  | CP =>
      [ {| tc_name := "record_every_dT"; tc_type := TNumber; tc_shape := Scalar |};
        {| tc_name := "record_every_dE"; tc_type := TNumber; tc_shape := Scalar |};
        {| tc_name := "n_cycles"; tc_type := TInt; tc_shape := Scalar |};
        {| tc_name := "current_step"; tc_type := TNumber; tc_shape := Elementwise |};
        {| tc_name := "vs_initial"; tc_type := TBool; tc_shape := Elementwise |};
        {| tc_name := "duration_step"; tc_type := TNumber; tc_shape := Elementwise |} ]
  | CA =>
      [ {| tc_name := "record_every_dT"; tc_type := TNumber; tc_shape := Scalar |};
        {| tc_name := "record_every_dI"; tc_type := TNumber; tc_shape := Scalar |};
        {| tc_name := "n_cycles"; tc_type := TInt; tc_shape := Scalar |};
        {| tc_name := "voltage_step"; tc_type := TNumber; tc_shape := Elementwise |};
        {| tc_name := "vs_initial"; tc_type := TBool; tc_shape := Elementwise |};
        {| tc_name := "duration_step"; tc_type := TNumber; tc_shape := Elementwise |} ]
  | PEIS =>
      [ {| tc_name := "vs_initial"; tc_type := TBool; tc_shape := Scalar |};
        {| tc_name := "initial_voltage_step"; tc_type := TNumber; tc_shape := Scalar |};
        {| tc_name := "duration_step"; tc_type := TNumber; tc_shape := Scalar |};
        {| tc_name := "record_every_dT"; tc_type := TNumber; tc_shape := Scalar |};
        {| tc_name := "record_every_dI"; tc_type := TNumber; tc_shape := Scalar |};
        {| tc_name := "final_frequency"; tc_type := TNumber; tc_shape := Scalar |};
        {| tc_name := "initial_frequency"; tc_type := TNumber; tc_shape := Scalar |};
        {| tc_name := "sweep"; tc_type := TEnumCls "SweepMode"; tc_shape := Scalar |};
        {| tc_name := "amplitude_voltage"; tc_type := TNumber; tc_shape := Scalar |};
        {| tc_name := "frequency_number"; tc_type := TInt; tc_shape := Scalar |};
        {| tc_name := "average_n_times"; tc_type := TInt; tc_shape := Scalar |};
        {| tc_name := "correction"; tc_type := TBool; tc_shape := Scalar |};
        {| tc_name := "wait_for_steady"; tc_type := TNumber; tc_shape := Scalar |} ]
  | PZIR =>
      [ {| tc_name := "frequency"; tc_type := TNumber; tc_shape := Scalar |};
        {| tc_name := "amplitude_voltage"; tc_type := TNumber; tc_shape := Scalar |};
        {| tc_name := "average_n_times"; tc_type := TInt; tc_shape := Scalar |};
        {| tc_name := "wait_for_steady"; tc_type := TNumber; tc_shape := Scalar |};
        {| tc_name := "rcomp_level"; tc_type := TNumber; tc_shape := Scalar |};
        {| tc_name := "rcmp_mode"; tc_type := TEnumCls "RcmpMode"; tc_shape := Scalar |} ]
  | LP =>
      [ {| tc_name := "record_every_dEr"; tc_type := TNumber; tc_shape := Scalar |};
        {| tc_name := "rest_time_T"; tc_type := TNumber; tc_shape := Scalar |};
        {| tc_name := "record_every_dTr"; tc_type := TNumber; tc_shape := Scalar |};
        {| tc_name := "vs_initial_scan"; tc_type := TBool; tc_shape := Elementwise |};
        {| tc_name := "voltage_scan"; tc_type := TNumber; tc_shape := Elementwise |};
        {| tc_name := "scan_rate"; tc_type := TNumber; tc_shape := Elementwise |};
        {| tc_name := "record_every_dE"; tc_type := TNumber; tc_shape := Scalar |};
        {| tc_name := "average_over_dE"; tc_type := TBool; tc_shape := Scalar |};
        {| tc_name := "begin_measuring_I"; tc_type := TNumber; tc_shape := Scalar |};
        {| tc_name := "end_measuring_I"; tc_type := TNumber; tc_shape := Scalar |} ]
  | CPP =>
      [ {| tc_name := "record_every_dEr"; tc_type := TNumber; tc_shape := Scalar |};
        {| tc_name := "rest_time_T"; tc_type := TNumber; tc_shape := Scalar |};
        {| tc_name := "record_every_dTr"; tc_type := TNumber; tc_shape := Scalar |};
        {| tc_name := "vs_initial_scan"; tc_type := TBool; tc_shape := Entries 3 |};
        {| tc_name := "voltage_scan"; tc_type := TNumber; tc_shape := Entries 3 |};
        {| tc_name := "scan_rate"; tc_type := TNumber; tc_shape := Entries 3 |};
        {| tc_name := "I_pitting"; tc_type := TNumber; tc_shape := Scalar |};
        {| tc_name := "t_b"; tc_type := TNumber; tc_shape := Scalar |};
        {| tc_name := "record_every_dE"; tc_type := TNumber; tc_shape := Scalar |};
        {| tc_name := "average_over_dE"; tc_type := TBool; tc_shape := Scalar |};
        {| tc_name := "begin_measuring_I"; tc_type := TNumber; tc_shape := Scalar |};
        {| tc_name := "end_measuring_I"; tc_type := TNumber; tc_shape := Scalar |};
        {| tc_name := "record_every_dT"; tc_type := TNumber; tc_shape := Scalar |} ]
  end.

(** The entries [0 .. n-1] of an array; [None] when the value cannot be
    indexed by position or is shorter. *)
Definition entries (n : nat) (v : PyVal) : option (list PyVal) :=
  match py_seq v with
  | Some xs => if Nat.leb n (List.length xs) then Some (firstn n xs) else None
  | None => None
  end.

(** The number of errors a list of tests yields. *)
Definition viol (t : option ValidationError) : nat :=
  match t with None => 0 | Some _ => 1 end.

Definition nerr (ts : list (option ValidationError)) : nat :=
  List.length (yield_errors ts).

(** A block of the validator agrees with a violation count: when it
    completes it yields as many errors as there are violations, and it
    raises only when something is violated. *)
Definition agrees {A : Type} (size : A -> nat) (block : Res A) (n : option nat) : Prop :=
  match block with
  | Ok x => n = Some (size x)
  | Raise _ => n <> Some 0
  end.

(** A whole validator agrees with a violation count. *)
Definition outcome_agrees (o : Outcome) (n : option nat) : Prop :=
  match raised o with
  | None => n = Some (List.length (yielded o))
  | Some _ => n <> Some 0
  end.

Section WithEnums.

Variable K : EnumTable.

(** A value lies in a range when it is a number on the right side of each
    bound that is present.  A value that is not a number satisfies only
    absent bounds. *)
Definition lower_ok (r : DataRange) (v : PyVal) : bool :=
  match min_value r with
  | None => true
  | Some m =>
      match as_number K v with
      | Some q => if min_strict r then Qlt_bool m q else Qle_bool m q
      | None => false
      end
  end.

Definition upper_ok (r : DataRange) (v : PyVal) : bool :=
  match max_value r with
  | None => true
  | Some m =>
      match as_number K v with
      | Some q => if max_strict r then Qlt_bool q m else Qle_bool q m
      | None => false
      end
  end.

Definition in_range (r : DataRange) (v : PyVal) : bool :=
  lower_ok r v && upper_ok r v.

(** The number of scalar fields of one type constraint that are violated;
    [None] when the parameter has no value to check. *)
Definition type_violations (cls : ParamsCls) (self : Attrs) (c : TypeConstraint)
  : option nat :=
  match getattr cls self (tc_name c) with
  | Raise _ => None
  | Ok v =>
      match tc_shape c with
      | Scalar => Some (if isinstance K v (tc_type c) then 0 else 1)
      | Elementwise =>
          match py_iter v with
          | Some xs => Some (count_bad (fun x => isinstance K x (tc_type c)) xs)
          | None => None
          end
      | Entries n =>
          match entries n v with
          | Some xs => Some (count_bad (fun x => isinstance K x (tc_type c)) xs)
          | None => None
          end
      end
  end.

(** The number of scalar fields of one parameter that violate its range,
    for the device at hand. *)
Definition range_violations (cls : ParamsCls) (self : Attrs) (device_info : DeviceInfo)
           (p : ParameterDesc) : option nat :=
  match get_data_range p device_info with
  | None => Some 0
  | Some r =>
      match get_value cls self (name p) with
      | Raise _ => None
      | Ok v =>
          match py_iter v with
          | None => Some (if in_range r v then 0 else 1)
          | Some xs => Some (count_bad (in_range r) xs)
          end
      end
  end.

(** An array-valued field of declared length [n] has exactly [n]
    entries. *)
Definition length_violations (cls : ParamsCls) (self : Attrs) (n : nat) (nm : string)
  : option nat :=
  match getattr cls self nm with
  | Ok v => Some (if match py_len v with Some l => Nat.eqb l n | None => false end
                  then 0 else 1)
  | Raise _ => None
  end.

(** Rules beyond type and range: chrono-potentiometry forbids the automatic
    current range; the three scan arrays of cyclic potentiodynamic
    polarization have three entries each. *)
Definition rule_violations (k : ParamsKind) (self : Attrs) : option nat :=
  match k with
  | CP =>
      match getattr (params_cls K CP) self "I_range" with
      | Ok i => Some (if py_eq K i (VEnum "I_RANGE" "I_RANGE_AUTO") then 1 else 0)
      | Raise _ => None
      end
  | CPP =>
      sum_all (map (length_violations (params_cls K CPP) self 3)
                   ["vs_initial_scan"; "voltage_scan"; "scan_rate"])
  | _ => Some 0
  end.

Definition own_violations (k : ParamsKind) (self : Attrs) : option nat :=
  sum_all (map (type_violations (params_cls K k) self) (own_constraints k)).

Definition base_violations (cls : ParamsCls) (self : Attrs) (device_info : DeviceInfo)
  : option nat :=
  opt_add (sum_all (map (type_violations cls self) common_constraints))
          (sum_all (map (range_violations cls self device_info) (parameters cls))).

(** The violated type and range constraints of the declared parameters. *)
Definition declared_violations (k : ParamsKind) (self : Attrs) (device_info : DeviceInfo)
  : option nat :=
  opt_add (own_violations k self)
          (base_violations (params_cls K k) self device_info).

(** All violations: the technique rules and the declared constraints. *)
Definition violations (k : ParamsKind) (self : Attrs) (device_info : DeviceInfo)
  : option nat :=
  opt_add (rule_violations k self) (declared_violations k self device_info).

(** A valid instance: [list(params.validate(device_info))] is empty. *)
Definition valid (k : ParamsKind) (self : Attrs) (device_info : DeviceInfo) : Prop :=
  list_of (validate K k self device_info) = Ok [].

(** An instance built by the dataclass constructor holds exactly the
    fields of its class, in order. *)
Definition constructed (cls : ParamsCls) (self : Attrs) : Prop :=
  map fst self = map name (fields cls).

(** The step sequence of a chrono-potentiometry or chrono-amperometry
    instance is a list (and not another kind of sequence). *)
Definition steps_listed (k : ParamsKind) (self : Attrs) : Prop :=
  match k with
  | CP | CA => exists xs, dict_get self "steps" = Some (VList xs)
  | _ => True
  end.

End WithEnums.

End ValidationSpec.

(* ====================================================================== *)
(** * Concrete parameter sets                                              *)
(* ====================================================================== *)

Module ParamExamples.

Import Params Techniques.

Definition common_auto : Attrs :=
  [ ("E_range", VEnum "E_RANGE" "E_RANGE_AUTO");
    ("I_range", VEnum "I_RANGE" "I_RANGE_AUTO");
    ("bandwidth", VEnum "BANDWIDTH" "BW_KEEP") ].

Definition common_10mA : Attrs :=
  [ ("E_range", VEnum "E_RANGE" "E_RANGE_AUTO");
    ("I_range", VEnum "I_RANGE" "I_RANGE_10mA");
    ("bandwidth", VEnum "BANDWIDTH" "BW_KEEP") ].

(** [OCVParams(rest_time_T=5, record_every_dE=0.01, record_every_dT=1)]. *)
Definition ocv_ok : Attrs :=
  common_auto ++
  [ ("rest_time_T", VInt 5);
    ("record_every_dE", VFloat (1 # 100));
    ("record_every_dT", VInt 1) ].

(** [OCVParams(rest_time_T=5, record_every_dE=0.01, record_every_dT=-1)]. *)
Definition ocv_negative_dT : Attrs :=
  common_auto ++
  [ ("rest_time_T", VInt 5);
    ("record_every_dE", VFloat (1 # 100));
    ("record_every_dT", VInt (-1)) ].

(** [OCVParams(rest_time_T=-1, record_every_dE=0.01, record_every_dT="1")]:
    a number that arrived as text, next to a value that is out of range. *)
Definition ocv_text_dT : Attrs :=
  common_auto ++
  [ ("rest_time_T", VInt (-1));
    ("record_every_dE", VFloat (1 # 100));
    ("record_every_dT", VStr "1") ].

Definition cv_step (voltage scan_rate : Q) (vs_initial : bool) : PyVal :=
  VStep CVStep (VFloat voltage) (VFloat scan_rate) (VBool vs_initial).

(** A cyclic voltammetry parameter set. *)
Definition cv_ok : Attrs :=
  common_auto ++
  [ ("record_every_dE", VFloat (1 # 100));
    ("average_over_dE", VBool true);
    ("n_cycles", VInt 2);
    ("begin_measuring_i", VFloat (1 # 2));
    ("end_measuring_i", VInt 1);
    ("Ei", cv_step 0 20 false);
    ("E1", cv_step 1 20 false);
    ("E2", cv_step (-1) 20 false);
    ("Ef", cv_step 0 20 false) ].

Definition cp_step (current duration : Q) (vs_initial : bool) : PyVal :=
  VStep CPStep (VFloat current) (VFloat duration) (VBool vs_initial).

Definition cp_fields (steps : PyVal) : Attrs :=
  [ ("record_every_dT", VFloat (1 # 10));
    ("record_every_dE", VFloat (1 # 100));
    ("n_cycles", VInt 0);
    ("steps", steps) ].

(** A chrono-potentiometry parameter set that keeps the default
    [I_range=I_RANGE.I_RANGE_AUTO]; every value has its declared type and
    lies in its range. *)
Definition cp_auto : Attrs :=
  common_auto ++ cp_fields (VList [cp_step (1 # 1000) 2 false]).

(** The same with a fixed current range: a valid parameter set. *)
Definition cp_ok : Attrs :=
  common_10mA ++ cp_fields (VList [cp_step (1 # 1000) 2 false]).

(** ... and with the steps given as a tuple, [steps=(CPStep(...),)]. *)
Definition cp_tuple : Attrs :=
  common_10mA ++ cp_fields (VTuple [cp_step (1 # 1000) 2 false]).

Definition ca_step (voltage duration : Q) (vs_initial : bool) : PyVal :=
  VStep CAStep (VFloat voltage) (VFloat duration) (VBool vs_initial).

(** A chrono-amperometry parameter set. *)
Definition ca_ok : Attrs :=
  common_auto ++
  [ ("record_every_dT", VFloat (1 # 10));
    ("record_every_dI", VFloat (1 # 1000));
    ("n_cycles", VInt 0);
    ("steps", VList [ca_step (1 # 2) 10 false; ca_step 0 5 false]) ].

(** An impedance spectroscopy parameter set. *)
Definition peis_ok : Attrs :=
  common_auto ++
  [ ("vs_initial", VBool false);
    ("initial_voltage_step", VFloat 0);
    ("duration_step", VFloat 1);
    ("record_every_dT", VFloat (1 # 10));
    ("record_every_dI", VFloat (1 # 1000));
    ("final_frequency", VFloat 1);
    ("initial_frequency", VFloat 100000);
    ("sweep", VEnum "SweepMode" "Logarithmic");
    ("amplitude_voltage", VFloat (1 # 100));
    ("frequency_number", VInt 50);
    ("average_n_times", VInt 2);
    ("correction", VBool false);
    ("wait_for_steady", VFloat (1 # 10)) ].

(** An IR determination parameter set. *)
Definition pzir_ok : Attrs :=
  common_auto ++
  [ ("frequency", VFloat 100000);
    ("amplitude_voltage", VFloat (1 # 100));
    ("average_n_times", VInt 4);
    ("wait_for_steady", VFloat (1 # 10));
    ("rcomp_level", VFloat 85);
    ("rcmp_mode", VEnum "RcmpMode" "Software") ].

Definition lp_step (voltage_scan scan_rate : Q) (vs_initial_scan : bool) : PyVal :=
  VStep LPStep (VFloat voltage_scan) (VFloat scan_rate) (VBool vs_initial_scan).

(** A linear polarization parameter set. *)
Definition lp_ok : Attrs :=
  common_auto ++
  [ ("record_every_dEr", VFloat (1 # 100));
    ("rest_time_T", VFloat 1);
    ("record_every_dTr", VFloat (1 # 10));
    ("Ei", lp_step (-1 # 40) 1 true);
    ("El", lp_step (1 # 40) 1 true);
    ("record_every_dE", VFloat (1 # 1000));
    ("average_over_dE", VBool true);
    ("begin_measuring_I", VFloat (1 # 2));
    ("end_measuring_I", VInt 1) ].

Definition cpp_fields (voltage_scan : PyVal) : Attrs :=
  [ ("record_every_dEr", VFloat (1 # 100));
    ("rest_time_T", VFloat 1);
    ("record_every_dTr", VFloat (1 # 10));
    ("vs_initial_scan", VTuple [VBool true; VBool true; VBool true]);
    ("voltage_scan", voltage_scan);
    ("scan_rate", VTuple [VFloat 1; VFloat 1; VFloat 1]);
    ("I_pitting", VFloat (1 # 1000));
    ("t_b", VFloat 10);
    ("record_every_dE", VFloat (1 # 1000));
    ("average_over_dE", VBool true);
    ("begin_measuring_I", VFloat (1 # 2));
    ("end_measuring_I", VInt 1);
    ("record_every_dT", VFloat (1 # 10)) ].

(** A cyclic potentiodynamic polarization parameter set. *)
Definition cpp_ok : Attrs :=
  common_auto ++ cpp_fields (VTuple [VFloat (-1 # 4); VFloat 1; VFloat (-1 # 4)]).

(** The same with four voltages: every entry is a number. *)
Definition cpp_four_voltages : Attrs :=
  common_auto ++
  cpp_fields (VTuple [VFloat (-1 # 4); VFloat 1; VFloat (-1 # 4); VFloat 0]).

(** ... and with two voltages only. *)
Definition cpp_two_voltages : Attrs :=
  common_auto ++ cpp_fields (VTuple [VFloat (-1 # 4); VFloat 1]).

End ParamExamples.

(* ====================================================================== *)
(** * The instrument driver, as far as the channel code observes it        *)
(* ====================================================================== *)

Module Driver.

Import Params Techniques.

(** [PROG_STATE] of [kbio.types]: the sources name [STOP], [RUN] and
    [PAUSE]; any further member is [PROG_OTHER]. *)
Inductive PROG_STATE : Type := STOP | RUN | PAUSE | PROG_OTHER (code : Z).

(** [TECH_ID] of [kbio.tech]: [NONE] and the identifiers of the modelled
    techniques; any further member is [TECH_OTHER]. *)
Inductive TECH_ID : Type :=
| TECH_NONE | TECH_OCV | TECH_CV | TECH_CP | TECH_OTHER (code : Z).

Definition PROG_STATE_eqb (a b : PROG_STATE) : bool :=
  match a, b with
  | STOP, STOP | RUN, RUN | PAUSE, PAUSE => true
  | PROG_OTHER x, PROG_OTHER y => Z.eqb x y
  | _, _ => false
  end.

Definition TECH_ID_eqb (a b : TECH_ID) : bool :=
  match a, b with
  | TECH_NONE, TECH_NONE | TECH_OCV, TECH_OCV
  | TECH_CV, TECH_CV | TECH_CP, TECH_CP => true
  | TECH_OTHER x, TECH_OTHER y => Z.eqb x y
  | _, _ => false
  end.

(** [ChannelInfo] of deviceinfo.py: the fields the channel code reads.
    [firmware_is_kernel] is [firmware == FIRMWARE.KERNEL]. *)
Record ChannelInfo : Type := {
  state : PROG_STATE;
  firmware_is_kernel : bool;
  max_I_range : PyVal;
  min_I_range : PyVal;
  max_bandwidth : PyVal
}.

(** [BLData] of channel.py, flattened to what its properties return:
    [prog_state], [tech_index], [tech_id], [start_time], the time base and
    the row buffer with its dimensions. *)
Record BLData : Type := {
  prog_state : PROG_STATE;
  tech_index : Z;
  tech_id : TECH_ID;
  start_time : Q;
  TimeBase : Q;
  NbRows : nat;
  NbCols : nat;
  data_record : list Z
}.

(** The state of a generator object created by [Channel._get_data]. *)
Inductive GenState : Type := GenCreated | GenSuspended | GenClosed.

(** Calls into the driver. *)
Inductive ApiCall : Type :=
| IsChannelPlugged
| GetChannelInfo
| LoadTechnique (ecc_file : string) (first last : bool)
| StartChannel
| StopChannel
| GetData.

(** Warnings written to the channel log by the runner. *)
Inductive Warning : Type :=
| InvalidTechniqueIndex (tech_idx : Z)
| TechniqueIdMismatch (got expected : TECH_ID).

(** The [Channel] object: the current data generator and runner, by
    reference. *)
Record Channel : Type := {
  _gen : option nat;
  _runner : option nat
}.

(** Everything that is shared and mutable: the instrument as seen through
    the driver, the generator objects, the channel object, the log. *)
Record World : Type := {
  device_info : DeviceInfo;
  plugged : bool;
  info : ChannelInfo;
  frames : list (Res BLData);
  gens : list GenState;
  chan : Channel;
  next_runner : nat;
  clock : Z;
  trace : list ApiCall;
  warnings : list Warning
}.

(** Computations on the world that may raise; the world as left by a
    computation that raises is kept. *)
Definition M (A : Type) : Type := World -> Res A * World.

Definition ret {A : Type} (a : A) : M A := fun w => (Ok a, w).

Definition raise {A : Type} (e : PyExn) : M A := fun w => (Raise e, w).

Definition bindM {A B : Type} (m : M A) (k : A -> M B) : M B :=
  fun w =>
    match m w with
    | (Ok a, w') => k a w'
    | (Raise e, w') => (Raise e, w')
    end.

(** [try: m except <handled>: pass]. *)
Definition except_pass (handled : PyExn -> bool) (m : M unit) : M unit :=
  fun w =>
    match m w with
    | (Ok a, w') => (Ok a, w')
    | (Raise e, w') => if handled e then (Ok tt, w') else (Raise e, w')
    end.

Definition lift {A : Type} (r : Res A) : M A := fun w => (r, w).

Definition called (c : ApiCall) (w : World) : World :=
  {| device_info := device_info w; plugged := plugged w; info := info w;
     frames := frames w; gens := gens w; chan := chan w;
     next_runner := next_runner w; clock := clock w;
     trace := trace w ++ [c]; warnings := warnings w |}.

Definition with_info (i : ChannelInfo) (w : World) : World :=
  {| device_info := device_info w; plugged := plugged w; info := i;
     frames := frames w; gens := gens w; chan := chan w;
     next_runner := next_runner w; clock := clock w;
     trace := trace w; warnings := warnings w |}.

Definition with_frames (f : list (Res BLData)) (w : World) : World :=
  {| device_info := device_info w; plugged := plugged w; info := info w;
     frames := f; gens := gens w; chan := chan w;
     next_runner := next_runner w; clock := clock w;
     trace := trace w; warnings := warnings w |}.

Definition with_gens (g : list GenState) (w : World) : World :=
  {| device_info := device_info w; plugged := plugged w; info := info w;
     frames := frames w; gens := g; chan := chan w;
     next_runner := next_runner w; clock := clock w;
     trace := trace w; warnings := warnings w |}.

Definition with_chan (c : Channel) (w : World) : World :=
  {| device_info := device_info w; plugged := plugged w; info := info w;
     frames := frames w; gens := gens w; chan := c;
     next_runner := next_runner w; clock := clock w;
     trace := trace w; warnings := warnings w |}.

Definition with_next_runner (n : nat) (w : World) : World :=
  {| device_info := device_info w; plugged := plugged w; info := info w;
     frames := frames w; gens := gens w; chan := chan w;
     next_runner := n; clock := clock w;
     trace := trace w; warnings := warnings w |}.

Definition warn (x : Warning) (w : World) : World :=
  {| device_info := device_info w; plugged := plugged w; info := info w;
     frames := frames w; gens := gens w; chan := chan w;
     next_runner := next_runner w; clock := clock w;
     trace := trace w; warnings := warnings w ++ [x] |}.

Definition with_state (s : PROG_STATE) (i : ChannelInfo) : ChannelInfo :=
  {| state := s; firmware_is_kernel := firmware_is_kernel i;
     max_I_range := max_I_range i; min_I_range := min_I_range i;
     max_bandwidth := max_bandwidth i |}.

(** Modelled from the spec: the driver ([kbio.api.KBIO_api]) is an external
    collaborator whose code is not in the sources.  The spec gives its
    interface ([channel.load], [channel.start], [channel.poll_frame],
    [channel.stop], [channel.get_info]): a query reports the present
    status, [start] and [stop] switch the channel to running and stopped,
    [load] accepts a technique, and polling delivers the next raw frame or
    fails.  The frames the instrument will deliver are the script
    [frames]; when the script is used up a poll reports the present state
    without data. *)
Definition api_IsChannelPlugged : M bool :=
  fun w => (Ok (plugged w), called IsChannelPlugged w).

Definition api_GetChannelInfo : M ChannelInfo :=
  fun w => (Ok (info w), called GetChannelInfo w).

Definition api_LoadTechnique (ecc_file : string) (first last : bool) : M unit :=
  fun w => (Ok tt, called (LoadTechnique ecc_file first last) w).

Definition api_StartChannel : M unit :=
  fun w => (Ok tt, called StartChannel (with_info (with_state RUN (info w)) w)).

Definition api_StopChannel : M unit :=
  fun w => (Ok tt, called StopChannel (with_info (with_state STOP (info w)) w)).

Definition idle_frame (w : World) : BLData :=
  {| prog_state := state (info w); tech_index := 0; tech_id := TECH_NONE;
     start_time := 0%Q; TimeBase := 0%Q; NbRows := 0; NbCols := 0;
     data_record := [] |}.

Definition api_GetData : M BLData :=
  fun w =>
    match frames w with
    | [] => (Ok (idle_frame w), called GetData w)
    | f :: rest => (f, called GetData (with_frames rest w))
    end.

(** ** Generator objects of [Channel._get_data]

    The body is [while True: yield BLData(GetData(...))]: it has
    no handler, so an exception raised inside it (by the driver, or thrown
    in with [throw]) ends the generator and propagates to the caller. *)
Definition gen_state (w : World) (g : nat) : GenState :=
  nth g (gens w) GenClosed.

Fixpoint list_set {A : Type} (l : list A) (i : nat) (x : A) : list A :=
  match l, i with
  | [], _ => []
  | _ :: tl, O => x :: tl
  | y :: tl, S j => y :: list_set tl j x
  end.

Definition set_gen (g : nat) (s : GenState) : M unit :=
  fun w => (Ok tt, with_gens (list_set (gens w) g s) w).

(** A [StopIteration] that escapes the body of a generator reaches the
    caller as [RuntimeError] (PEP 479). *)
Definition escaping (e : PyExn) : PyExn :=
  match e with
  | StopIteration => RuntimeError "generator raised StopIteration"
  | _ => e
  end.

(** [next(gen)]. *)
Definition gen_next (g : nat) : M BLData :=
  fun w =>
    match gen_state w g with
    | GenClosed => (Raise StopIteration, w)
    | GenCreated | GenSuspended =>
        match api_GetData w with
        | (Ok d, w') => (Ok d, snd (set_gen g GenSuspended w'))
        | (Raise e, w') => (Raise (escaping e), snd (set_gen g GenClosed w'))
        end
    end.

(** [gen.throw(exc)]: raised at the point where the generator is paused
    (or at its start, or after its end); never caught by the body. *)
Definition gen_throw (g : nat) (exc : PyExn) : M unit :=
  fun w => (Raise exc, snd (set_gen g GenClosed w)).

(** [gen.close()]. *)
Definition gen_close (g : nat) : M unit := set_gen g GenClosed.

(** A new generator object. *)
Definition new_gen : M nat :=
  fun w => (Ok (List.length (gens w)), with_gens (gens w ++ [GenCreated]) w).

End Driver.

(* ====================================================================== *)
(** * The technique classes: result records and [unpack_data]              *)
(* ====================================================================== *)

Module TechniqueClasses.

Import Params Techniques Driver.

(** The result records [OCVData], [CVData] and [CPData]. *)
Inductive TechData : Type :=
| OCVData (time total_time Ewe : Q) (Ece : option Q)
| CVData (time total_time : Q) (Ec : option Q) (I_avg Ewe_avg : Q) (cycle : Z)
| CPData (time total_time Ewe I_ : Q) (cycle : Z).

(** [BLData.iter_data]: the row slices
    [data_record[offset:offset+row_len]]; [range] with step 0 raises. *)
Definition iter_data (d : BLData) : Res (list (list Z)) :=
  match NbCols d with
  | O => match NbRows d with
         | O => Raise (ValueError "range() arg 3 must not be zero")
         | S _ => Raise (ValueError "range() arg 3 must not be zero")
         end
  | S _ =>
      Ok (map (fun k => firstn (NbCols d) (skipn (k * NbCols d) (data_record d)))
              (seq 0 (NbRows d)))
  end.

(** [BLData.convert_time]. *)
Definition convert_time (d : BLData) (t_high t_low : Z) : Q :=
  (TimeBase d * inject_Z (Z.shiftl t_high 32 + t_low))%Q.

Section WithConversion.

(** [BioLogic.extract_float], the driver's [ConvertNumericIntoSingle], is
    not in the sources: the conversion is an argument of the unpacking
    functions. *)
Variable extract_float : Z -> Q.

(** One row of [OCVTechnique.unpack_data]. *)
Definition OCV_unpack_row (dev : DeviceInfo) (d : BLData) (data_row : list Z) : Res TechData :=
  match data_row with
  | t_high :: t_low :: row =>
      let time := convert_time d t_high t_low in
      let total_time := (time + start_time d)%Q in
      match nth_error row 0 with
      | None => Raise IndexError
      | Some ewe =>
          match family dev with
          | SP300 =>
              match nth_error row 1 with
              | None => Raise IndexError
              | Some ece =>
                  Ok (OCVData time total_time (extract_float ewe) (Some (extract_float ece)))
              end
          | VMP3 => Ok (OCVData time total_time (extract_float ewe) None)
          end
      end
  | _ => Raise (ValueError "not enough values to unpack")
  end.

(** One row of [CVTechnique.unpack_data]. *)
Definition CV_unpack_row (dev : DeviceInfo) (d : BLData) (data_row : list Z) : Res TechData :=
  match data_row with
  | t_high :: t_low :: row =>
      let time := convert_time d t_high t_low in
      let total_time := (time + start_time d)%Q in
      match family dev, row with
      | VMP3, [Ec; I_avg; Ewe_avg; cycle] =>
          Ok (CVData time total_time (Some (extract_float Ec))
                     (extract_float I_avg) (extract_float Ewe_avg) cycle)
      | SP300, [I_avg; Ewe_avg; cycle] =>
          Ok (CVData time total_time None
                     (extract_float I_avg) (extract_float Ewe_avg) cycle)
      | _, _ => Raise (ValueError "wrong number of values to unpack")
      end
  | _ => Raise (ValueError "not enough values to unpack")
  end.

(** One row of [CPTechnique.unpack_data]. *)
Definition CP_unpack_row (d : BLData) (data_row : list Z) : Res TechData :=
  match data_row with
  | [t_high; t_low; Ewe; I_; cycle] =>
      let time := convert_time d t_high t_low in
      let total_time := (time + start_time d)%Q in
      Ok (CPData time total_time (extract_float Ewe) (extract_float I_) cycle)
  | _ => Raise (ValueError "wrong number of values to unpack")
  end.

(** A generator that yields one record per row: the records produced
    before the first failing row, and the exception of that row if any. *)
Fixpoint unpack_rows (f : list Z -> Res TechData) (rows : list (list Z))
  : list TechData * option PyExn :=
  match rows with
  | [] => ([], None)
  | row :: rest =>
      match f row with
      | Raise e => ([], Some e)
      | Ok rec =>
          let '(recs, e) := unpack_rows f rest in
          (rec :: recs, e)
      end
  end.

(** [OCVTechnique.unpack_data], [CVTechnique.unpack_data] and
    [CPTechnique.unpack_data]. *)
Definition OCV_unpack_data (dev : DeviceInfo) (d : BLData) : list TechData * option PyExn :=
  match iter_data d with
  | Raise e => ([], Some e)
  | Ok rows => unpack_rows (OCV_unpack_row dev d) rows
  end.

Definition CV_unpack_data (dev : DeviceInfo) (d : BLData) : list TechData * option PyExn :=
  match iter_data d with
  | Raise e => ([], Some e)
  | Ok rows => unpack_rows (CV_unpack_row dev d) rows
  end.

Definition CP_unpack_data (dev : DeviceInfo) (d : BLData) : list TechData * option PyExn :=
  match iter_data d with
  | Raise e => ([], Some e)
  | Ok rows => unpack_rows (CP_unpack_row d) rows
  end.

End WithConversion.

(** What a subclass of [Technique] declares: its [tech_id], its parameter
    class, its [ecc_path] mapping and its [unpack_data] method.  The channel
    and the runner only use a technique through these four; the classes
    for OCV, CV and CP are spelled out below. *)
Record TechniqueClass : Type := {
  cls_tech_id : TECH_ID;
  cls_params : ParamsKind;
  cls_ecc_path : DeviceFamily -> option string;
  cls_unpack_data : (Z -> Q) -> DeviceInfo -> BLData -> list TechData * option PyExn
}.

Definition OCVTechnique : TechniqueClass := {|
  cls_tech_id := TECH_OCV;
  cls_params := OCV;
  cls_ecc_path := fun f => match f with VMP3 => Some "ocv.ecc" | SP300 => Some "ocv4.ecc" end;
  cls_unpack_data := OCV_unpack_data
|}.

Definition CVTechnique : TechniqueClass := {|
  cls_tech_id := TECH_CV;
  cls_params := CV;
  cls_ecc_path := fun f => match f with VMP3 => Some "cv.ecc" | SP300 => Some "cv4.ecc" end;
  cls_unpack_data := CV_unpack_data
|}.

Definition CPTechnique : TechniqueClass := {|
  cls_tech_id := TECH_CP;
  cls_params := CP;
  cls_ecc_path := fun f => match f with VMP3 => Some "cp.ecc" | SP300 => Some "cp4.ecc" end;
  cls_unpack_data := CP_unpack_data
|}.

End TechniqueClasses.

Declare Scope m_scope.
Delimit Scope m_scope with M.
Notation "x <~ m ;; k" := (Driver.bindM m (fun x => k))
  (at level 100, m at next level, right associativity) : m_scope.
Notation "m ;;; k" := (Driver.bindM m (fun _ => k))
  (at level 100, right associativity) : m_scope.

(* ====================================================================== *)
(** * biologic/technique.py, biologic/channel.py                           *)
(* ====================================================================== *)

Module Chan.

Import Params Techniques Driver TechniqueClasses.

Open Scope m_scope.

(** A [Technique] object: the subclass it is an instance of, and its
    [param_values], an instance of some parameter class (the constructor
    stores what it is given). *)
Record Technique : Type := {
  tech_class : TechniqueClass;
  params_kind : ParamsKind;
  param_values : Attrs
}.

(** The class attribute [tech_id]. *)
Definition tech_id_of (t : Technique) : TECH_ID := cls_tech_id (tech_class t).

(** [Technique.is_device_supported]: [device.family in self.ecc_path]. *)
Definition is_device_supported (t : Technique) (device : DeviceInfo) : bool :=
  match cls_ecc_path (tech_class t) (family device) with
  | Some _ => true
  | None => false
  end.

(** [Technique.get_ecc]. *)
Definition get_ecc (t : Technique) (device : DeviceInfo) : Res string :=
  match cls_ecc_path (tech_class t) (family device) with
  | Some path => Ok path
  | None => Raise (ValueError "technique does not support device family")
  end.

(** [TechniqueRunner] of runner.py: the fields of the object. *)
Record TechniqueRunner : Type := {
  runner_id : nat;
  _techs : list Technique;
  runner_gen : nat;
  _last_state : option PROG_STATE;
  _error : option PyExn;
  runner_start_time : Z;
  stop_time : option Z
}.

Section WithDriver.

Variable K : EnumTable.

(** [Technique.pack_parameters]: the conversion to the native parameter
    list is done by [kbio.tech.make_ecc_parms], which is not in the
    sources; it is a parameter, and it may raise. *)
Variable EccParams : Type.
Variable pack_parameters : DeviceInfo -> Technique -> Res EccParams.

(** [Technique.validate]. *)
Definition Technique_validate (t : Technique) (device : DeviceInfo) : Outcome :=
  validate K (params_kind t) (param_values t) device.

Definition set_chan_gen (g : option nat) : M unit :=
  fun w => (Ok tt, with_chan {| _gen := g; _runner := _runner (chan w) |} w).

Definition set_chan_runner (r : option nat) : M unit :=
  fun w => (Ok tt, with_chan {| _gen := _gen (chan w); _runner := r |} w).

Definition get_chan : M Channel := fun w => (Ok (chan w), w).

(** [Channel.get_info]. *)
Definition get_info : M ChannelInfo := api_GetChannelInfo.

(** [Channel.is_plugged]. *)
Definition is_plugged : M bool := api_IsChannelPlugged.

(** [Channel._close_gen]. *)
Definition _close_gen : M unit :=
  c <~ get_chan ;;
  match _gen c with
  | None => ret tt
  | Some g =>
      except_pass (fun e => match e with StopIteration => true | _ => false end)
                  (gen_throw g ChannelStopped) ;;;
      except_pass (fun e => match e with ChannelStopped => true | _ => false end)
                  (gen_close g) ;;;
      set_chan_gen None
  end.

(** [Channel.stop].  (The body runs under [self._lock]; one thread is
    modelled.) *)
Definition stop : M unit :=
  i <~ get_info ;;
  if PROG_STATE_eqb (state i) STOP then ret tt
  else
    _close_gen ;;;
    api_StopChannel ;;;
    set_chan_gen None ;;;
    set_chan_runner None.

(** [Channel.is_active]. *)
Definition is_active (runner : TechniqueRunner) : M bool :=
  i <~ get_info ;;
  if PROG_STATE_eqb (state i) RUN then
    c <~ get_chan ;;
    ret (match _runner c with
         | Some r => Nat.eqb r (runner_id runner)
         | None => false
         end)
  else ret false.

(** [a < b] and [a > b] between enum members or numbers. *)
Definition py_lt (a b : PyVal) : Res bool :=
  match as_number K a, as_number K b with
  | Some x, Some y => Ok (Qlt_bool x y)
  | _, _ => Raise TypeError
  end.

(** [Channel._check_limits]. *)
Fixpoint check_tech_limits (i : ChannelInfo) (techs : list Technique) : Res unit :=
  match techs with
  | [] => Ok tt
  | tech :: rest =>
      let cls := params_cls K (params_kind tech) in
      (I_range <- getattr cls (param_values tech) "I_range" ;;
       above <- py_lt (max_I_range i) I_range ;;
       if above then Raise (ValueError "channel can't support I_range (max)")
       else
         below <- py_lt I_range (min_I_range i) ;;
         if below then Raise (ValueError "channel can't support I_range (min)")
         else
           bandwidth <- getattr cls (param_values tech) "bandwidth" ;;
           wide <- py_lt (max_bandwidth i) bandwidth ;;
           if wide then Raise (ValueError "channel can't support bandwidth")
           else check_tech_limits i rest)%res
  end.

Definition _check_limits (i : ChannelInfo) (techs : list Technique) : Res unit :=
  if negb (firmware_is_kernel i)
  then Raise (RuntimeError "kernel must be loaded before any techniques can run")
  else
    (inverted <- py_lt (max_I_range i) (min_I_range i) ;;
     if inverted then Raise (ValueError "invalid I_range limits")
     else check_tech_limits i techs)%res.

(** [Channel._load_technique]. *)
Definition _load_technique (tech : Technique) (first last : bool) : M unit :=
  fun w =>
    match list_of (Technique_validate tech (device_info w)) with
    | Raise e => (Raise e, w)
    | Ok errors =>
        if Nat.ltb 0 (List.length errors)
        then (Raise (ExceptionGroup "technique parameters failed validation" errors), w)
        else
          match pack_parameters (device_info w) tech with
          | Raise e => (Raise e, w)
          | Ok ecc_parms =>
              match get_ecc tech (device_info w) with
              | Raise e => (Raise e, w)
              | Ok ecc_file => api_LoadTechnique ecc_file first last w
              end
          end
    end.

(** [Channel._load_techniques]: [for idx, tech in enumerate(techs)]. *)
Fixpoint load_from (last_idx : Z) (idx : nat) (techs : list Technique) : M unit :=
  match techs with
  | [] => ret tt
  | tech :: rest =>
      _load_technique tech (Nat.eqb idx 0) (Z.eqb (Z.of_nat idx) last_idx) ;;;
      load_from last_idx (S idx) rest
  end.

Definition _load_techniques (techs : list Technique) : M unit :=
  load_from (Z.of_nat (List.length techs) - 1) 0 techs.

(** [TechniqueRunner.__init__]. *)
Definition new_runner (techs : list Technique) (g : nat) : M TechniqueRunner :=
  fun w =>
    (Ok {| runner_id := next_runner w; _techs := techs; runner_gen := g;
           _last_state := None; _error := None;
           runner_start_time := clock w; stop_time := None |},
     with_next_runner (S (next_runner w)) w).

(** A technique that passes validation and can be packed. *)
Definition loadable (dev : DeviceInfo) (t : Technique) : Prop :=
  list_of (Technique_validate t dev) = Ok []
  /\ is_ok (pack_parameters dev t) = true.

(** [Channel.run_techniques]. *)
Definition run_techniques (techs : list Technique) : M TechniqueRunner :=
  p <~ is_plugged ;;
  if negb p then raise (RuntimeError "channel is not connected")
  else
    i <~ get_info ;;
    if negb (PROG_STATE_eqb (state i) STOP) then raise (RuntimeError "channel is busy")
    else
      fun w =>
        if negb (forallb (fun tech => is_device_supported tech (device_info w)) techs)
        then (Raise (ValueError "device does not support technique"), w)
        else
          (lift (_check_limits i techs) ;;;
           _load_techniques techs ;;;
           api_StartChannel ;;;
           c <~ get_chan ;;
           match _gen c with
           | Some old => gen_close old
           | None => ret tt
           end ;;;
           g <~ new_gen ;;
           set_chan_gen (Some g) ;;;
           r <~ new_runner techs g ;;
           set_chan_runner (Some (runner_id r)) ;;;
           ret r) w.

End WithDriver.

(** The driver call that loads technique number [idx] of a sequence whose
    last index is [last_idx]. *)
Definition load_call (dev : DeviceInfo) (last_idx : Z) (idx : nat) (t : Technique)
  : ApiCall :=
  LoadTechnique
    (match cls_ecc_path (tech_class t) (family dev) with Some p => p | None => "" end)
    (Nat.eqb idx 0) (Z.eqb (Z.of_nat idx) last_idx).

Fixpoint load_calls (dev : DeviceInfo) (last_idx : Z) (idx : nat) (techs : list Technique)
  : list ApiCall :=
  match techs with
  | [] => []
  | t :: rest => load_call dev last_idx idx t :: load_calls dev last_idx (S idx) rest
  end.

(** The world after a series of driver calls that change nothing else. *)
Definition called_all (cs : list ApiCall) (w : World) : World :=
  fold_left (fun w' c => called c w') cs w.

End Chan.

(* ====================================================================== *)
(** * biologic/runner.py and the [unpack_data] methods                     *)
(* ====================================================================== *)

Module Runner.

Import Params Techniques Driver TechniqueClasses Chan.

Open Scope m_scope.

(** [RunState]. *)
Inductive RunState : Type :=
| Init | Running | Paused | Complete | Error | Unknown.

(** [RunState.value]. *)
Definition RunState_value (s : RunState) : string :=
  match s with
  | Init => "INIT"
  | Running => "RUNNING"
  | Paused => "PAUSED"
  | Complete => "COMPLETE"
  | Error => "ERROR"
  | Unknown => "UNKNOWN"
  end.

(** What the runner yields: [IndexData(tech_index, data)] or one of the
    signals [TechniqueRunner.Paused] and [TechniqueRunner.DataWait]. *)
Inductive Item : Type :=
| IndexData (tech_index : Z) (data : TechData)
| SigPaused
| SigDataWait.

(** [TechniqueRunner.state]. *)
Definition runner_state (r : TechniqueRunner) : RunState :=
  match _error r with
  | Some _ => Error
  | None =>
      match _last_state r with
      | None => Init
      | Some RUN => Running
      | Some PAUSE => Paused
      | Some STOP => Complete
      | Some (PROG_OTHER _) => Unknown
      end
  end.

(** [TechniqueRunner.exception]. *)
Definition exception (r : TechniqueRunner) : option PyExn := _error r.

(** The [status] field of [TechniqueRunner.get_metadata]. *)
Definition metadata_status (r : TechniqueRunner) : string :=
  RunState_value (runner_state r).

(** [seq[idx]] on a Python sequence: a negative index counts from the end. *)
Definition py_index {A : Type} (l : list A) (idx : Z) : option A :=
  let n := Z.of_nat (List.length l) in
  if (0 <=? idx)%Z then nth_error l (Z.to_nat idx)
  else if (- n <=? idx)%Z then nth_error l (Z.to_nat (n + idx))
  else None.

Section WithDriver.

(** [BioLogic.extract_float]: the driver's [ConvertNumericIntoSingle]. *)
Variable extract_float : Z -> Q.

(** [tech.unpack_data(bl, data)]. *)
Definition unpack_data (tech : Technique) (dev : DeviceInfo) (d : BLData)
  : list TechData * option PyExn :=
  cls_unpack_data (tech_class tech) extract_float dev d.

(** [TechniqueRunner.stop]. *)
Definition runner_stop (r : TechniqueRunner) : M unit :=
  active <~ is_active r ;;
  if active then Chan.stop else ret tt.

Definition set_last_state (s : PROG_STATE) (r : TechniqueRunner) : TechniqueRunner :=
  {| runner_id := runner_id r; _techs := _techs r; runner_gen := runner_gen r;
     _last_state := Some s; _error := _error r;
     runner_start_time := runner_start_time r; stop_time := stop_time r |}.

Definition set_error (e : PyExn) (r : TechniqueRunner) : TechniqueRunner :=
  {| runner_id := runner_id r; _techs := _techs r; runner_gen := runner_gen r;
     _last_state := _last_state r; _error := Some e;
     runner_start_time := runner_start_time r; stop_time := stop_time r |}.

Definition set_stop_time (t : Z) (r : TechniqueRunner) : TechniqueRunner :=
  {| runner_id := runner_id r; _techs := _techs r; runner_gen := runner_gen r;
     _last_state := _last_state r; _error := _error r;
     runner_start_time := runner_start_time r; stop_time := Some t |}.

(** What one turn of the [while True] loop of [_iter_data] does. *)
Inductive Turn : Type :=
| Continue (yielded : list Item)
| Break
| Throw (yielded : list Item) (e : PyExn).

(** One turn: [next(self._gen)] and the treatment of the frame. *)
Definition turn (r : TechniqueRunner) (w : World) : Turn * TechniqueRunner * World :=
  match gen_next (runner_gen r) w with
  | (Raise e, w1) => (Throw [] e, r, w1)
  | (Ok data, w1) =>
      let r1 := set_last_state (prog_state data) r in
      if negb (TECH_ID_eqb (tech_id data) TECH_NONE) then
        let tech_idx := tech_index data in
        match py_index (_techs r1) tech_idx with
        | None => (Continue [], r1, warn (InvalidTechniqueIndex tech_idx) w1)
        | Some tech =>
            if negb (TECH_ID_eqb (tech_id data) (tech_id_of tech)) then
              (Continue [], r1,
               warn (TechniqueIdMismatch (tech_id data) (tech_id_of tech)) w1)
            else
              match unpack_data tech (device_info w1) data with
              | (recs, None) => (Continue (map (IndexData tech_idx) recs), r1, w1)
              | (recs, Some e) => (Throw (map (IndexData tech_idx) recs) e, r1, w1)
              end
        end
      else if PROG_STATE_eqb (prog_state data) STOP then (Break, r1, w1)
      else if PROG_STATE_eqb (prog_state data) PAUSE then (Continue [SigPaused], r1, w1)
      else (Continue [SigDataWait], r1, w1)
  end.

(** How the consumption of the runner ended. *)
Inductive Ending : Type :=
| Finished
| Raised (e : PyExn)
| StillRunning.

Record Run : Type := {
  items : list Item;
  ending : Ending;
  runner : TechniqueRunner;
  world : World
}.

(** The [finally] clause: the stop time is recorded and the generator
    closed. *)
Definition finally (r : TechniqueRunner) (w : World) : TechniqueRunner * World :=
  (set_stop_time (clock w) r, snd (gen_close (runner_gen r) w)).

(** The [except BaseException] clause: the error is stored, [self.stop()]
    is called, and the error is raised again; an exception raised by
    [self.stop()] takes its place. *)
Definition on_error (e : PyExn) (r : TechniqueRunner) (w : World)
  : PyExn * TechniqueRunner * World :=
  let r1 := set_error e r in
  match runner_stop r1 w with
  | (Ok _, w1) => (e, r1, w1)
  | (Raise e', w1) => (e', r1, w1)
  end.

Definition prepend (xs : list Item) (run : Run) : Run :=
  {| items := xs ++ items run; ending := ending run;
     runner := runner run; world := world run |}.

(** [TechniqueRunner._iter_data], consumed to its end by a [for] loop that
    does nothing else with the channel; [fuel] bounds the number of
    frames pulled.  [_iter_data] is itself a generator, so what it raises
    reaches the consumer through [escaping]. *)
Fixpoint _iter_data (fuel : nat) (r : TechniqueRunner) (w : World) : Run :=
  match fuel with
  | O => {| items := []; ending := StillRunning; runner := r; world := w |}
  | S fuel' =>
      match turn r w with
      | (Continue xs, r1, w1) => prepend xs (_iter_data fuel' r1 w1)
      | (Break, r1, w1) =>
          let '(r2, w2) := finally r1 w1 in
          {| items := []; ending := Finished; runner := r2; world := w2 |}
      | (Throw xs e, r1, w1) =>
          let '(e', r2, w2) := on_error e r1 w1 in
          let '(r3, w3) := finally r2 w2 in
          {| items := xs; ending := Raised (escaping e'); runner := r3; world := w3 |}
      end
  end.

End WithDriver.

End Runner.

(* ====================================================================== *)
(** * Concrete channels, techniques and frames                             *)
(* ====================================================================== *)

Module RunExamples.

Import Params Techniques ParamExamples Driver TechniqueClasses Chan Runner.

Definition tech_ocv_ok : Technique :=
  {| tech_class := OCVTechnique; params_kind := OCV; param_values := ocv_ok |}.

Definition tech_ocv_negative_dT : Technique :=
  {| tech_class := OCVTechnique; params_kind := OCV; param_values := ocv_negative_dT |}.

(** A packing function that accepts everything. *)
Definition pack_any (d : DeviceInfo) (t : Technique) : Res unit := Ok tt.

(** A conversion of raw values for concrete runs. *)
Definition float_of_raw (z : Z) : Q := inject_Z z.

Definition info_stopped : ChannelInfo :=
  {| state := STOP; firmware_is_kernel := true;
     max_I_range := VEnum "I_RANGE" "I_RANGE_AUTO";
     min_I_range := VEnum "I_RANGE" "I_RANGE_100pA";
     max_bandwidth := VEnum "BANDWIDTH" "BW_9" |}.

(** A connected, stopped channel on which nothing has run yet. *)
Definition world0 : World :=
  {| device_info := sp300; plugged := true; info := info_stopped;
     frames := []; gens := []; chan := {| _gen := None; _runner := None |};
     next_runner := 0; clock := 1000%Z; trace := []; warnings := [] |}.

(** The channel after [run_techniques([OCVTechnique(ocv_ok)])]. *)
Definition world_running : World :=
  snd (run_techniques demo_enums pack_any [tech_ocv_ok] world0).

(** The runner object of that run. *)
Definition runner0 : TechniqueRunner :=
  {| runner_id := 0; _techs := [tech_ocv_ok]; runner_gen := 0;
     _last_state := None; _error := None;
     runner_start_time := 1000%Z; stop_time := None |}.

(** The same channel once the instrument reports [PAUSE] and the next
    poll of the driver fails. *)
Definition world_paused_failing : World :=
  with_frames [Raise (DriverError (-1))]
              (with_info (with_state PAUSE (info world_running)) world_running).

(** A frame of the open-circuit technique with one row
    ([t_high], [t_low], [Ewe], [Ece]) that reports technique index [-1]. *)
Definition frame_index_minus_one : BLData :=
  {| prog_state := RUN; tech_index := (-1)%Z; tech_id := TECH_OCV;
     start_time := 0%Q; TimeBase := (20 # 1000000)%Q;
     NbRows := 1; NbCols := 4; data_record := [0; 50000; 7; 9]%Z |}.

Definition world_frame_minus_one : World :=
  with_frames [Ok frame_index_minus_one] world_running.

End RunExamples.

(* ====================================================================== *)
(** * The wire framing of biologic_host.py and biologic_client.py          *)
(* ====================================================================== *)

(** [send_msg], [recv_exact] and [recv_msg] are the same in the host and in
    the client. *)
Module Wire.

Definition byte_of_N (n : N) : byte :=
  match Byte.of_N (n mod 256) with
  | Some b => b
  | None => Byte.x00
  end.

(** [struct.pack("!I", n)]: four bytes, most significant first;
    [struct.error] when [n] does not fit. *)
Definition pack_I (n : N) : Res (list byte) :=
  if (n <? 2 ^ 32)%N
  then Ok [ byte_of_N (n / 2 ^ 24); byte_of_N (n / 2 ^ 16);
            byte_of_N (n / 2 ^ 8); byte_of_N n ]
  else Raise StructError.

(** [struct.unpack("!I", header)]. *)
Definition unpack_I (header : list byte) : Res N :=
  match header with
  | [b3; b2; b1; b0] =>
      Ok (Byte.to_N b3 * 2 ^ 24 + Byte.to_N b2 * 2 ^ 16
          + Byte.to_N b1 * 2 ^ 8 + Byte.to_N b0)%N
  | _ => Raise StructError
  end.

(** The receiving end of a connection: the bytes that will still arrive
    before the peer closes, and how the transport cuts them into chunks
    (each entry [k] allows a chunk of at most [k+1] bytes; without an entry
    a [recv] is served in full). *)
Record Sock : Type := {
  pending : list byte;
  chunking : list nat
}.

(** [sock.recv(bufsize)]: at least one byte and at most [bufsize] while
    bytes are pending, the empty string once the peer has closed. *)
Definition recv (sock : Sock) (bufsize : nat) : list byte * Sock :=
  match pending sock with
  | [] => ([], sock)
  | _ =>
      let c := Nat.min bufsize
                       (match chunking sock with [] => bufsize | k :: _ => S k end) in
      (firstn c (pending sock),
       {| pending := skipn c (pending sock); chunking := tl (chunking sock) |})
  end.

(** The result of [recv_exact]: the bytes, or [None]; [OutOfFuel] marks a
    loop that was cut off by the bound of the model. *)
Inductive Received : Type :=
| Got (buf : list byte)
| ConnClosed
| OutOfFuel.

(** The loop of [recv_exact]. *)
Fixpoint recv_exact_loop (fuel : nat) (sock : Sock) (n : nat) (buf : list byte)
  : Received * Sock :=
  if Nat.ltb (List.length buf) n then
    match fuel with
    | O => (OutOfFuel, sock)
    | S fuel' =>
        let '(chunk, sock') := recv sock (n - List.length buf) in
        match chunk with
        | [] => (ConnClosed, sock')
        | _ => recv_exact_loop fuel' sock' n (buf ++ chunk)
        end
    end
  else (Got buf, sock).

(** [recv_exact(sock, n)]: every turn of the loop adds a byte, so [n] turns
    are enough. *)
Definition recv_exact (sock : Sock) (n : nat) : Received * Sock :=
  recv_exact_loop n sock n [].

(** The byte stream ends before a complete header, or before the body the
    header announces. *)
Definition ends_early (stream : list byte) : Prop :=
  List.length stream < 4
  \/ exists n, unpack_I (firstn 4 stream) = Ok n
               /\ List.length (skipn 4 stream) < N.to_nat n.

Section WithPickle.

(** [pickle.dumps] and [pickle.loads] on the message objects. *)
Variable Obj : Type.
Variable dumps : Obj -> list byte.
Variable loads : list byte -> Res Obj.

(** [send_msg(sock, obj)]: the bytes handed to [sock.sendall]. *)
Definition send_msg (obj : Obj) : Res (list byte) :=
  let data := dumps obj in
  header <- pack_I (N.of_nat (List.length data)) ;;
  Ok (header ++ data).

(** The result of [recv_msg]. *)
Inductive Incoming : Type :=
| Message (obj : Obj)
| NoMessage                  (* [None] *)
| Failed (e : PyExn)
| Unfinished.

(** [recv_msg(sock)]. *)
Definition recv_msg (sock : Sock) : Incoming * Sock :=
  match recv_exact sock 4 with
  | (ConnClosed, s) => (NoMessage, s)
  | (OutOfFuel, s) => (Unfinished, s)
  | (Got header, s) =>
      match unpack_I header with
      | Raise e => (Failed e, s)
      | Ok length =>
          match recv_exact s (N.to_nat length) with
          | (ConnClosed, s') => (NoMessage, s')
          | (OutOfFuel, s') => (Unfinished, s')
          | (Got payload, s') =>
              match loads payload with
              | Ok obj => (Message obj, s')
              | Raise e => (Failed e, s')
              end
          end
      end
  end.

End WithPickle.

(** A serializer for concrete runs: a message is its own body. *)
Definition dumps_raw (o : list byte) : list byte := o.
Definition loads_raw (bs : list byte) : Res (list byte) := Ok bs.

(** A serializer whose output is 4 GiB long. *)
Definition dumps_huge (o : unit) : list byte := repeat Byte.x00 (2 ^ 32).

End Wire.

(* ====================================================================== *)
(** * The job worker of biologic_host.py                                   *)
(* ====================================================================== *)

Module Host.

Import Chan.

Definition MAX_CHANNELS : nat := 4.

(** [channel_locks]: one lock per channel number in
    [range(1, MAX_CHANNELS + 1)]; only the keys matter here. *)
Definition channel_locks : list Z := map Z.of_nat (seq 1 MAX_CHANNELS).

(** [channel_id in channel_locks]. *)
Definition has_lock (channel_id : Z) : bool :=
  existsb (Z.eqb channel_id) channel_locks.

(** The job dictionary sent by a client; a key may be missing. *)
Record Job : Type := {
  job_usb_port : option string;
  job_channel : option PyVal;
  job_techniques : option (list Technique)
}.

(** Messages sent to the client. *)
Inductive Reply (Payload : Type) : Type :=
| ReplyData (channel : Z) (payload : Payload)
| ReplyDone (channel : Z)
| ReplyError (error : PyExn).

Arguments ReplyData {Payload} channel payload.
Arguments ReplyDone {Payload} channel.
Arguments ReplyError {Payload} error.

(** What the worker does to the instrument. *)
Inductive DeviceOp : Type :=
| OpClose (usb_port : option string)
| OpConnect (usb_port : string)
| OpGetChannel (channel : Z)
| OpRunTechniques (channel : Z) (techniques : list Technique).

Definition str_of_Z (z : Z) : string :=
  if (z <? 0)%Z then ("-" ++ str_of_nat (Z.to_nat (- z)))%string
  else str_of_nat (Z.to_nat z).

Section WithDevice.

(** The connection object returned by [biologic.connect], the records a
    run streams, and the instrument behind them.  [connect] may fail;
    [run] is [channel.run_techniques] together with the consumption of the
    runner: the records produced, and the exception that ended the run if
    any. *)
Variable Conn : Type.
Variable Payload : Type.
Variable connect : string -> Res Conn.
Variable get_channel : Conn -> Z -> Res unit.
Variable run : Conn -> Z -> list Technique -> list Payload * option PyExn.

(** [int(x)] on a string, where it is defined. *)
Variable int_of_str : string -> option Z.

(** The module globals [biologic] and [current_usb_port], the operations
    performed on the instrument, and the client connection: what was sent,
    whether sending still works, whether the socket was closed. *)
Record HostState : Type := {
  biologic : option Conn;
  current_usb_port : option string;
  device_ops : list DeviceOp;
  sent : list (Reply Payload);
  client_gone : bool;
  client_sock_closed : bool
}.

Definition op (o : DeviceOp) (h : HostState) : HostState :=
  {| biologic := biologic h; current_usb_port := current_usb_port h;
     device_ops := device_ops h ++ [o]; sent := sent h;
     client_gone := client_gone h; client_sock_closed := client_sock_closed h |}.

Definition set_connection (c : Conn) (port : string) (h : HostState) : HostState :=
  {| biologic := Some c; current_usb_port := Some port;
     device_ops := device_ops h; sent := sent h;
     client_gone := client_gone h; client_sock_closed := client_sock_closed h |}.

Definition close_client (h : HostState) : HostState :=
  {| biologic := biologic h; current_usb_port := current_usb_port h;
     device_ops := device_ops h; sent := sent h;
     client_gone := client_gone h; client_sock_closed := true |}.

(** [send_msg(client_sock, msg)]: fails when the client is gone. *)
Definition send (m : Reply Payload) (h : HostState) : Res unit * HostState :=
  if client_gone h then (Raise (RuntimeError "send failed"), h)
  else (Ok tt,
        {| biologic := biologic h; current_usb_port := current_usb_port h;
           device_ops := device_ops h; sent := sent h ++ [m];
           client_gone := client_gone h;
           client_sock_closed := client_sock_closed h |}).

(** [int(job["channel"])]. *)
Definition py_int (v : PyVal) : Res Z :=
  match v with
  | VBool b => Ok (if b then 1 else 0)%Z
  | VInt n => Ok n
  | VFloat q => Ok (Z.quot (Qnum q) (Zpos (Qden q)))
  | VStr s =>
      match int_of_str s with
      | Some n => Ok n
      | None => Raise (ValueError "invalid literal for int()")
      end
  | _ => Raise TypeError
  end.

(** How the [try] block of [handle_client_job] ends. *)
Inductive Exit : Type :=
| Returned           (* a [return] inside the block *)
| Completed          (* the block ran to its end *)
| Excepted (e : PyExn).

(** The loop [for data_temp in runner: send_msg(...)]: a failing send
    returns from the worker. *)
Fixpoint stream (channel_id : Z) (records : list Payload) (h : HostState)
  : bool * HostState :=
  match records with
  | [] => (true, h)
  | data_temp :: rest =>
      match send (ReplyData channel_id data_temp) h with
      | (Ok _, h') => stream channel_id rest h'
      | (Raise _, h') => (false, h')
      end
  end.

(** The body of the [try] block, from the job on. *)
Definition job_body (job : Job) (h : HostState) : Exit * HostState :=
  let usb_port := match job_usb_port job with Some p => p | None => "USB0" end in
  match job_channel job with
  | None => (Excepted (KeyError "channel"), h)
  | Some ch =>
      match py_int ch with
      | Raise e => (Excepted e, h)
      | Ok channel_id =>
          match job_techniques job with
          | None => (Excepted (KeyError "techniques"), h)
          | Some techniques =>
              if negb (has_lock channel_id)
              then (Excepted (ValueError ("Invalid channel " ++ str_of_Z channel_id)%string), h)
              else
                (* with biologic_lock *)
                let reconnect :=
                  match biologic h, current_usb_port h with
                  | Some _, Some p => negb (String.eqb usb_port p)
                  | _, _ => true
                  end in
                let connected : Res Conn * HostState :=
                  if reconnect then
                    let h1 := match biologic h with
                              | Some _ => op (OpClose (current_usb_port h)) h
                              | None => h
                              end in
                    match connect usb_port with
                    | Raise e => (Raise e, op (OpConnect usb_port) h1)
                    | Ok c => (Ok c, set_connection c usb_port (op (OpConnect usb_port) h1))
                    end
                  else
                    match biologic h with
                    | Some c => (Ok c, h)
                    | None => (Raise AttributeError, h)
                    end in
                match connected with
                | (Raise e, h2) => (Excepted e, h2)
                | (Ok c, h2) =>
                    (* with chan_lock *)
                    let h3 := op (OpGetChannel channel_id) h2 in
                    match get_channel c channel_id with
                    | Raise e => (Excepted e, h3)
                    | Ok _ =>
                        let h4 := op (OpRunTechniques channel_id techniques) h3 in
                        let '(records, failure) := run c channel_id techniques in
                        match stream channel_id records h4 with
                        | (false, h5) => (Returned, h5)
                        | (true, h5) =>
                            match failure with
                            | Some e => (Excepted e, h5)
                            | None =>
                                (Completed, snd (send (ReplyDone channel_id) h5))
                            end
                        end
                    end
                end
          end
      end
  end.

(** [handle_client_job(client_sock)], given what [recv_msg] delivered:
    nothing for a client that closed, otherwise the job; any exception is
    reported to the client, and the client socket is closed at the end. *)
Definition handle_client_job (received : Res (option Job)) (h : HostState) : HostState :=
  let '(exit, h1) :=
    match received with
    | Raise e => (Excepted e, h)
    | Ok None => (Returned, h)
    | Ok (Some job) => job_body job h
    end in
  let h2 := match exit with
            | Excepted e => snd (send (ReplyError e) h1)
            | _ => h1
            end in
  close_client h2.

End WithDevice.

(** A job for channel 5 of a four-channel instrument, and an idle host,
    with stand-ins for the instrument that accept everything. *)
Definition job_channel_5 : Job :=
  {| job_usb_port := Some "USB0"; job_channel := Some (VInt 5);
     job_techniques := Some [] |}.

Definition connect_any (port : string) : Res unit := Ok tt.
Definition get_channel_any (c : unit) (n : Z) : Res unit := Ok tt.
Definition run_nothing (c : unit) (n : Z) (techs : list Technique)
  : list unit * option PyExn := ([], None).
Definition no_int_of_str (s : string) : option Z := None.

Definition host_idle : HostState unit unit :=
  {| biologic := None; current_usb_port := None; device_ops := [];
     sent := []; client_gone := false; client_sock_closed := false |}.

End Host.

(* ====================================================================== *)
(** * Facts about parameter validation                                     *)
(* ====================================================================== *)

Module ParamsFacts.

Import Params Techniques ValidationSpec.

(** ** Order on rationals, as booleans *)

Lemma Qle_bool_false_lt (a b : Q) : Qle_bool a b = false -> (b < a)%Q.
Proof.
  intros H. apply Qnot_le_lt. intros Hle.
  apply Qle_bool_iff in Hle. congruence.
Qed.

Lemma Qle_bool_split (a b : Q) :
  Qle_bool a b = Qlt_bool a b || Qeq_bool a b.
Proof.
  unfold Qlt_bool.
  destruct (Qle_bool a b) eqn:Hab, (Qle_bool b a) eqn:Hba,
           (Qeq_bool a b) eqn:He; simpl; try reflexivity.
  - apply Qle_bool_iff in Hab, Hba.
    assert (Heq : (a == b)%Q) by (apply Qle_antisym; assumption).
    apply Qeq_bool_iff in Heq. congruence.
  - apply Qeq_bool_iff in He.
    assert (Hle : (a <= b)%Q) by (rewrite He; apply Qle_refl).
    apply Qle_bool_iff in Hle. congruence.
  - apply Qle_bool_false_lt in Hab, Hba.
    exfalso. apply (Qlt_irrefl a). eapply Qlt_trans; eassumption.
  - apply Qle_bool_false_lt in Hab, Hba.
    exfalso. apply (Qlt_irrefl a). eapply Qlt_trans; eassumption.
Qed.

Lemma Qeq_bool_sym (a b : Q) : Qeq_bool a b = Qeq_bool b a.
Proof.
  destruct (Qeq_bool a b) eqn:H1, (Qeq_bool b a) eqn:H2; try reflexivity.
  - apply Qeq_bool_iff in H1. symmetry in H1. apply Qeq_bool_iff in H1. congruence.
  - apply Qeq_bool_iff in H2. symmetry in H2. apply Qeq_bool_iff in H2. congruence.
Qed.

Section WithEnums.

Variable K : EnumTable.

(** ** DataRange against the order-theoretic reading *)

Lemma compare_lower_bound_spec (r : DataRange) (v : PyVal) :
  match _compare_lower_bound K r v with
  | Ok z => (z <=? 0)%Z = lower_ok K r v
  | Raise _ => lower_ok K r v = false
  end.
Proof.
  unfold _compare_lower_bound, lower_ok, num_lt_val, num_eq_val.
  destruct (min_value r) as [m|].
  - destruct (as_number K v) as [q|] eqn:Hq.
    + assert (Hv : v <> VNone) by (intros ->; discriminate).
      rewrite (Qle_bool_split m q).
      destruct v; try congruence; simpl;
        destruct (Qlt_bool m q), (min_strict r), (Qeq_bool m q); reflexivity.
    + destruct v; simpl in *; try reflexivity; try discriminate.
  - destruct v; reflexivity.
Qed.

Lemma compare_upper_bound_spec (r : DataRange) (v : PyVal) :
  match _compare_upper_bound K r v with
  | Ok z => (z <=? 0)%Z = upper_ok K r v
  | Raise _ => upper_ok K r v = false
  end.
Proof.
  unfold _compare_upper_bound, upper_ok, val_lt_num, num_eq_val.
  destruct (max_value r) as [m|].
  - destruct (as_number K v) as [q|] eqn:Hq.
    + assert (Hv : v <> VNone) by (intros ->; discriminate).
      rewrite (Qle_bool_split q m), (Qeq_bool_sym q m).
      destruct v; try congruence; simpl;
        destruct (Qlt_bool q m), (max_strict r), (Qeq_bool m q); reflexivity.
    + destruct v; simpl in *; try reflexivity; try discriminate.
  - destruct v; reflexivity.
Qed.

(** [value in data_range] computes membership whenever it returns, and it
    raises only on values that are outside. *)
Lemma contains_spec (r : DataRange) (v : PyVal) :
  match contains K r v with
  | Ok b => b = in_range K r v
  | Raise _ => in_range K r v = false
  end.
Proof.
  unfold contains, in_range.
  pose proof (compare_lower_bound_spec r v) as Hlo.
  pose proof (compare_upper_bound_spec r v) as Hhi.
  destruct (_compare_lower_bound K r v) as [lo|e]; simpl.
  - rewrite <- Hlo. destruct (lo <=? 0)%Z; simpl.
    + destruct (_compare_upper_bound K r v) as [hi|e]; simpl; congruence.
    + reflexivity.
  - rewrite Hlo. reflexivity.
Qed.

Lemma validate_data_range_spec (v : PyVal) (n : string) (r : DataRange) :
  match validate_data_range K v n r with
  | Ok t => viol t = if in_range K r v then 0 else 1
  | Raise _ => in_range K r v = false
  end.
Proof.
  unfold validate_data_range.
  pose proof (contains_spec r v) as H.
  destruct (contains K r v) as [b|e]; simpl; [|assumption].
  subst b. destruct (in_range K r v); reflexivity.
Qed.

Lemma validate_type_viol (v : PyVal) (n : string) (t : PyType) :
  viol (validate_type K v n t) = if isinstance K v t then 0 else 1.
Proof. unfold validate_type. destruct (isinstance K v t); reflexivity. Qed.

(** ** Counting yielded errors *)

Lemma nerr_cons (t : option ValidationError) (ts : list (option ValidationError)) :
  nerr (t :: ts) = viol t + nerr ts.
Proof. unfold nerr. destruct t; reflexivity. Qed.

Lemma nerr_app (a b : list (option ValidationError)) :
  nerr (a ++ b) = nerr a + nerr b.
Proof.
  induction a as [|t a IH]; [reflexivity|].
  simpl app. rewrite !nerr_cons, IH. lia.
Qed.

Lemma opt_add_zero (a b : option nat) :
  opt_add a b = Some 0 <-> a = Some 0 /\ b = Some 0.
Proof.
  destruct a as [x|], b as [y|]; simpl; split;
    try (intros [H1 H2]; discriminate); try discriminate.
  - intros H. injection H as H. split; f_equal; lia.
  - intros [H1 H2]. injection H1 as ->. injection H2 as ->. reflexivity.
Qed.

Lemma sum_all_app (l1 l2 : list (option nat)) :
  sum_all (l1 ++ l2) = opt_add (sum_all l1) (sum_all l2).
Proof.
  induction l1 as [|a l1 IH]; simpl.
  - destruct (sum_all l2); reflexivity.
  - rewrite IH. destruct a, (sum_all l1), (sum_all l2); simpl; f_equal; lia.
Qed.

(** Two blocks in sequence agree with the sum of their counts. *)
Lemma agrees_seq {A B : Type} (sa : A -> nat) (sb : B -> nat)
      (x : Res A) (y : Res B) (n m : option nat) :
  agrees sa x n -> agrees sb y m ->
  agrees (fun ab => sa (fst ab) + sb (snd ab))
         (a <- x ;; b <- y ;; Ok (a, b)) (opt_add n m).
Proof.
  unfold agrees. destruct x as [a|e]; cbn [bind].
  - intros ->. destruct y as [b|e]; cbn [bind fst snd].
    + intros ->. reflexivity.
    + intros H Hc. apply opt_add_zero in Hc. tauto.
  - intros H _ Hc. apply opt_add_zero in Hc. tauto.
Qed.

(** ** The range tests of one parameter *)

Lemma range_elems_agrees (r : DataRange) (n : string) (xs : list PyVal) (i : nat) :
  agrees nerr
    (map_res (fun ie => validate_data_range K (snd ie) (indexed_name n (fst ie)) r)
             (enumerate_from i xs))
    (Some (count_bad (in_range K r) xs)).
Proof.
  revert i. induction xs as [|x xs IH]; intros i; simpl.
  - reflexivity.
  - pose proof (validate_data_range_spec x (indexed_name n i) r) as Hx.
    unfold count_bad in *. simpl filter.
    destruct (validate_data_range K x (indexed_name n i) r) as [t|e]; simpl.
    + specialize (IH (S i)).
      destruct (map_res _ (enumerate_from (S i) xs)) as [ts|e]; simpl in *.
      * injection IH as IH. rewrite nerr_cons, Hx, <- IH.
        destruct (in_range K r x); reflexivity.
      * intros Hc. apply IH. injection Hc as Hc. f_equal.
        destruct (in_range K r x); simpl in Hc; lia.
    + rewrite Hx. simpl. discriminate.
Qed.

Lemma range_tests_agrees (cls : ParamsCls) (self : Attrs) (dev : DeviceInfo)
      (p : ParameterDesc) :
  agrees nerr (range_tests K cls self dev p) (range_violations K cls self dev p).
Proof.
  unfold range_tests, range_violations.
  destruct (get_data_range p dev) as [r|]; [|reflexivity].
  destruct (get_value cls self (name p)) as [v|e]; simpl; [|discriminate].
  destruct (py_iter v) as [xs|].
  - apply range_elems_agrees.
  - pose proof (validate_data_range_spec v (name p) r) as Hv.
    destruct (validate_data_range K v (name p) r) as [t|e]; simpl.
    + rewrite nerr_cons, Hv. unfold nerr. simpl.
      destruct (in_range K r v); reflexivity.
    + rewrite Hv. discriminate.
Qed.

Lemma map_res_agrees {A : Type} (f : A -> Res (list (option ValidationError)))
      (g : A -> option nat) :
  (forall a, agrees nerr (f a) (g a)) ->
  forall l, agrees (fun tss => nerr (List.concat tss)) (map_res f l) (sum_all (map g l)).
Proof.
  intros Hfg. induction l as [|a l IH]; simpl.
  - reflexivity.
  - specialize (Hfg a). unfold agrees in *.
    destruct (f a) as [ts|e].
    + destruct (map_res f l) as [tss|e].
      * rewrite Hfg, IH. simpl. rewrite nerr_app. reflexivity.
      * intros Hc. apply opt_add_zero in Hc. tauto.
    + intros Hc. apply opt_add_zero in Hc. tauto.
Qed.

(** ** The inherited validator *)

Lemma scalar_type_agrees (cls : ParamsCls) (self : Attrs) (c : TypeConstraint) :
  tc_shape c = Scalar ->
  agrees (fun v => viol (validate_type K v (tc_name c) (tc_type c)))
         (getattr cls self (tc_name c)) (type_violations K cls self c).
Proof.
  intros Hs. unfold agrees, type_violations. rewrite Hs.
  destruct (getattr cls self (tc_name c)); [|discriminate].
  rewrite validate_type_viol. reflexivity.
Qed.

Lemma base_validate_agrees (cls : ParamsCls) (self : Attrs) (dev : DeviceInfo) :
  agrees (@List.length ValidationError)
         (base_validate K cls self dev) (base_violations K cls self dev).
Proof.
  unfold base_validate, base_violations, common_constraints, type_violations.
  pose proof (map_res_agrees _ _ (range_tests_agrees cls self dev) (parameters cls)) as Hr.
  unfold agrees in *.
  cbn [map sum_all fold_right tc_name tc_type tc_shape].
  destruct (getattr cls self "E_range") as [e|x]; cbn [bind opt_add];
    [|discriminate].
  destruct (getattr cls self "I_range") as [i|x]; cbn [bind opt_add];
    [|discriminate].
  destruct (getattr cls self "bandwidth") as [b|x]; cbn [bind opt_add];
    [|discriminate].
  destruct (map_res (range_tests K cls self dev) (parameters cls)) as [tss|x];
    cbn [bind].
  - rewrite Hr. cbn [opt_add]. f_equal.
    change (List.length (yield_errors ?l)) with (nerr l).
    rewrite nerr_app, !nerr_cons, !validate_type_viol.
    change (nerr []) with 0. lia.
  - intros Hc.
    destruct (sum_all (map (range_violations K cls self dev) (parameters cls)))
      as [y|]; [|discriminate].
    injection Hc as Hc. apply Hr. f_equal. lia.
Qed.

(** ** Composition of generator blocks *)

Lemma opt_add_0_r (a : option nat) : opt_add a (Some 0) = a.
Proof. destruct a; simpl; [f_equal; lia | reflexivity]. Qed.

Lemma opt_add_0_l (a : option nat) : opt_add (Some 0) a = a.
Proof. destruct a; reflexivity. Qed.

Lemma finish_agrees : outcome_agrees finish (Some 0).
Proof. reflexivity. Qed.

Lemma yield_block_agrees (block : Res (list ValidationError)) (rest : Outcome)
      (n m : option nat) :
  agrees (@List.length ValidationError) block n ->
  outcome_agrees rest m ->
  outcome_agrees (yield_block block rest) (opt_add n m).
Proof.
  unfold agrees, outcome_agrees, yield_block.
  destruct block as [errs|e]; simpl.
  - intros ->. destruct (raised rest).
    + intros H Hc. apply opt_add_zero in Hc. tauto.
    + intros ->. simpl. rewrite length_app. reflexivity.
  - intros H _ Hc. apply opt_add_zero in Hc. tauto.
Qed.

Lemma count_bad_cons (ok : PyVal -> bool) (x : PyVal) (xs : list PyVal) :
  count_bad ok (x :: xs) = (if ok x then 0 else 1) + count_bad ok xs.
Proof. unfold count_bad. simpl. destruct (ok x); reflexivity. Qed.

Lemma enumerate_tests_count (n : string) (t : PyType) (xs : list PyVal) (i : nat) :
  nerr (map (fun io => validate_type K (snd io) (indexed_name n (fst io)) t)
            (enumerate_from i xs))
  = count_bad (fun x => isinstance K x t) xs.
Proof.
  revert i. induction xs as [|x xs IH]; intros i.
  - reflexivity.
  - simpl map. rewrite nerr_cons, count_bad_cons, IH, validate_type_viol.
    reflexivity.
Qed.

Lemma enumerate_type_tests_agrees (cls : ParamsCls) (self : Attrs) (c : TypeConstraint) :
  tc_shape c = Elementwise ->
  agrees nerr
         (v <- getattr cls self (tc_name c) ;;
          enumerate_type_tests K v (tc_name c) (tc_type c))
         (type_violations K cls self c).
Proof.
  intros Hs. unfold agrees, type_violations, enumerate_type_tests. rewrite Hs.
  destruct (getattr cls self (tc_name c)) as [v|e]; cbn [bind]; [|discriminate].
  destruct (py_iter v) as [xs|]; [|discriminate].
  unfold enumerate. rewrite enumerate_tests_count. reflexivity.
Qed.

(** ** The validators of the techniques *)

Lemma opt_add_None_r (a : option nat) : opt_add a None = None.
Proof. destruct a; reflexivity. Qed.

Ltac raise_case :=
  cbn [bind opt_add]; rewrite ?opt_add_None_r; try discriminate.

Lemma OCV_validate_agrees (self : Attrs) (dev : DeviceInfo) :
  outcome_agrees (OCVParams_validate K self dev) (violations K OCV self dev).
Proof.
  unfold violations, declared_violations, rule_violations, OCVParams_validate.
  rewrite opt_add_0_l.
  rewrite <- (opt_add_0_r (base_violations K (params_cls K OCV) self dev)).
  apply yield_block_agrees;
    [| apply yield_block_agrees; [apply base_validate_agrees | apply finish_agrees]].
  unfold own_violations, own_constraints, type_violations, agrees.
  cbn [params_cls map sum_all fold_right tc_name tc_type tc_shape].
  destruct (getattr (OCVParams K) self "rest_time_T") as [a|x]; raise_case.
  destruct (getattr (OCVParams K) self "record_every_dT") as [b|x]; raise_case.
  destruct (getattr (OCVParams K) self "record_every_dE") as [c|x]; raise_case.
  f_equal. change (List.length (yield_errors ?l)) with (nerr l).
  rewrite !nerr_cons, !validate_type_viol. change (nerr []) with 0. lia.
Qed.

Lemma CP_validate_agrees (self : Attrs) (dev : DeviceInfo) :
  outcome_agrees (CPParams_validate K self dev) (violations K CP self dev).
Proof.
  unfold violations, declared_violations, rule_violations, CPParams_validate.
  cbn [params_cls].
  destruct (getattr (CPParams K) self "I_range") as [i|x];
    [|unfold outcome_agrees; cbn; discriminate].
  rewrite <- (opt_add_0_r (base_violations K (CPParams K) self dev)).
  apply yield_block_agrees.
  { unfold agrees. destruct (py_eq K i (VEnum "I_RANGE" "I_RANGE_AUTO")); reflexivity. }
  apply yield_block_agrees;
    [| apply yield_block_agrees; [apply base_validate_agrees | apply finish_agrees]].
  unfold own_violations, own_constraints, type_violations, agrees, enumerate_type_tests.
  cbn [params_cls map sum_all fold_right tc_name tc_type tc_shape].
  destruct (getattr (CPParams K) self "record_every_dT") as [a|x]; raise_case.
  destruct (getattr (CPParams K) self "record_every_dE") as [b|x]; raise_case.
  destruct (getattr (CPParams K) self "n_cycles") as [c|x]; raise_case.
  destruct (getattr (CPParams K) self "current_step") as [cs|x]; raise_case.
  destruct (py_iter cs) as [cur|]; raise_case.
  destruct (getattr (CPParams K) self "vs_initial") as [vs|x]; raise_case.
  destruct (py_iter vs) as [vsl|]; raise_case.
  destruct (getattr (CPParams K) self "duration_step") as [ds|x]; raise_case.
  destruct (py_iter ds) as [dur|]; raise_case.
  f_equal. change (List.length (yield_errors ?l)) with (nerr l).
  unfold enumerate.
  rewrite !nerr_app, !nerr_cons, !enumerate_tests_count, !validate_type_viol.
  change (nerr []) with 0. lia.
Qed.

(** The derived arrays of [CVParams] always have five entries. *)
Lemma CV_projection_shape (attr : string) (self : Attrs) (v : PyVal) :
  CV_projection attr self = Ok v ->
  exists a b c d e, v = VList [a; b; c; d; e].
Proof.
  unfold CV_projection, CV_step_sequence.
  destruct (self_field self "Ei") as [ei|]; cbn [bind]; [|discriminate].
  destruct (self_field self "E1") as [e1|]; cbn [bind]; [|discriminate].
  destruct (self_field self "E2") as [e2|]; cbn [bind]; [|discriminate].
  destruct (self_field self "Ef") as [ef|]; cbn [bind]; [|discriminate].
  cbn [map_res].
  destruct (obj_attr ei attr) as [a|]; [|discriminate].
  destruct (obj_attr e1 attr) as [b|]; [|discriminate].
  destruct (obj_attr e2 attr) as [c|]; [|discriminate].
  destruct (obj_attr ef attr) as [e|]; [|discriminate].
  intros H. injection H as <-. eauto 6.
Qed.

Lemma CV_getattr_vs_initial (self : Attrs) :
  getattr (CVParams K) self "vs_initial" = CV_projection "vs_initial" self.
Proof. reflexivity. Qed.

Lemma CV_getattr_voltage_step (self : Attrs) :
  getattr (CVParams K) self "voltage_step" = CV_projection "voltage" self.
Proof. reflexivity. Qed.

Lemma CV_getattr_scan_rate (self : Attrs) :
  getattr (CVParams K) self "scan_rate" = CV_projection "scan_rate" self.
Proof. reflexivity. Qed.

Lemma CV_per_index (self : Attrs) (a1 a2 a3 a4 a5 b1 b2 b3 b4 b5 c1 c2 c3 c4 c5 : PyVal) :
  getattr (CVParams K) self "vs_initial" = Ok (VList [a1; a2; a3; a4; a5]) ->
  getattr (CVParams K) self "voltage_step" = Ok (VList [b1; b2; b3; b4; b5]) ->
  getattr (CVParams K) self "scan_rate" = Ok (VList [c1; c2; c3; c4; c5]) ->
  map_res (CV_index_tests K self) (seq 0 5) =
  Ok (map (fun iabc =>
             [ validate_type K (fst (fst (snd iabc))) (indexed_name "vs_initial" (fst iabc)) TBool;
               validate_type K (snd (fst (snd iabc))) (indexed_name "voltage_step" (fst iabc)) TNumber;
               validate_type K (snd (snd iabc)) (indexed_name "scan_rate" (fst iabc)) TNumber ])
          [ (0, (a1, b1, c1)); (1, (a2, b2, c2)); (2, (a3, b3, c3));
            (3, (a4, b4, c4)); (4, (a5, b5, c5)) ]).
Proof.
  intros H1 H2 H3. unfold CV_index_tests. cbn [seq map_res].
  rewrite H1, H2, H3. reflexivity.
Qed.

Lemma CV_validate_agrees (self : Attrs) (dev : DeviceInfo) :
  outcome_agrees (CVParams_validate K self dev) (violations K CV self dev).
Proof.
  unfold violations, declared_violations, rule_violations, CVParams_validate.
  rewrite opt_add_0_l.
  rewrite <- (opt_add_0_r (base_violations K (params_cls K CV) self dev)).
  apply yield_block_agrees;
    [| apply yield_block_agrees; [apply base_validate_agrees | apply finish_agrees]].
  unfold own_violations, own_constraints, type_violations, agrees.
  cbn [params_cls map sum_all fold_right tc_name tc_type tc_shape].
  destruct (getattr (CVParams K) self "vs_initial") as [vs|x] eqn:Hvs; raise_case.
  destruct (getattr (CVParams K) self "voltage_step") as [vo|x] eqn:Hvo; raise_case.
  destruct (getattr (CVParams K) self "scan_rate") as [sr|x] eqn:Hsr; raise_case.
  pose proof Hvs as Hvs'. pose proof Hvo as Hvo'. pose proof Hsr as Hsr'.
  rewrite CV_getattr_vs_initial in Hvs'. rewrite CV_getattr_voltage_step in Hvo'.
  rewrite CV_getattr_scan_rate in Hsr'.
  apply CV_projection_shape in Hvs', Hvo', Hsr'.
  destruct Hvs' as (a1 & a2 & a3 & a4 & a5 & ->).
  destruct Hvo' as (b1 & b2 & b3 & b4 & b5 & ->).
  destruct Hsr' as (c1 & c2 & c3 & c4 & c5 & ->).
  rewrite (CV_per_index _ Hvs Hvo Hsr). cbn [bind py_iter].
  destruct (getattr (CVParams K) self "record_every_dE") as [d1|x]; raise_case.
  destruct (getattr (CVParams K) self "average_over_dE") as [d2|x]; raise_case.
  destruct (getattr (CVParams K) self "n_cycles") as [d3|x]; raise_case.
  destruct (getattr (CVParams K) self "begin_measuring_i") as [d4|x]; raise_case.
  destruct (getattr (CVParams K) self "end_measuring_i") as [d5|x]; raise_case.
  f_equal. change (List.length (yield_errors ?l)) with (nerr l).
  cbn [map List.concat app fst snd].
  rewrite !nerr_cons, !validate_type_viol, !count_bad_cons.
  change (nerr []) with 0. change (count_bad _ []) with 0.
  change (viol (validate_len (VList [_; _; _; _; _]) _ 5)) with 0.
  lia.
Qed.

Ltac next_attr cls self nm :=
  let v := fresh "v" in
  let x := fresh "x" in
  destruct (getattr cls self nm) as [v|x]; raise_case.

Ltac count_scalars :=
  f_equal; change (List.length (yield_errors ?l)) with (nerr l);
  rewrite !nerr_cons, !validate_type_viol; change (nerr []) with 0; lia.

Lemma CA_validate_agrees (self : Attrs) (dev : DeviceInfo) :
  outcome_agrees (CAParams_validate K self dev) (violations K CA self dev).
Proof.
  unfold violations, declared_violations, rule_violations, CAParams_validate.
  rewrite opt_add_0_l.
  rewrite <- (opt_add_0_r (base_violations K (params_cls K CA) self dev)).
  apply yield_block_agrees;
    [| apply yield_block_agrees; [apply base_validate_agrees | apply finish_agrees]].
  unfold own_violations, own_constraints, type_violations, agrees, enumerate_type_tests.
  cbn [params_cls map sum_all fold_right tc_name tc_type tc_shape].
  next_attr (CAParams K) self "record_every_dT".
  next_attr (CAParams K) self "record_every_dI".
  next_attr (CAParams K) self "n_cycles".
  destruct (getattr (CAParams K) self "voltage_step") as [vo|x]; raise_case.
  destruct (py_iter vo) as [vol|]; raise_case.
  destruct (getattr (CAParams K) self "vs_initial") as [vs|x]; raise_case.
  destruct (py_iter vs) as [vsl|]; raise_case.
  destruct (getattr (CAParams K) self "duration_step") as [ds|x]; raise_case.
  destruct (py_iter ds) as [dur|]; raise_case.
  f_equal. change (List.length (yield_errors ?l)) with (nerr l).
  unfold enumerate.
  rewrite !nerr_app, !nerr_cons, !enumerate_tests_count, !validate_type_viol.
  change (nerr []) with 0. lia.
Qed.

Lemma PEIS_validate_agrees (self : Attrs) (dev : DeviceInfo) :
  outcome_agrees (PEISParams_validate K self dev) (violations K PEIS self dev).
Proof.
  unfold violations, declared_violations, rule_violations, PEISParams_validate.
  rewrite opt_add_0_l.
  rewrite <- (opt_add_0_r (base_violations K (params_cls K PEIS) self dev)).
  apply yield_block_agrees;
    [| apply yield_block_agrees; [apply base_validate_agrees | apply finish_agrees]].
  unfold own_violations, own_constraints, type_violations, agrees.
  cbn [params_cls map sum_all fold_right tc_name tc_type tc_shape].
  next_attr (PEISParams K) self "vs_initial".
  next_attr (PEISParams K) self "initial_voltage_step".
  next_attr (PEISParams K) self "duration_step".
  next_attr (PEISParams K) self "record_every_dT".
  next_attr (PEISParams K) self "record_every_dI".
  next_attr (PEISParams K) self "final_frequency".
  next_attr (PEISParams K) self "initial_frequency".
  next_attr (PEISParams K) self "sweep".
  next_attr (PEISParams K) self "amplitude_voltage".
  next_attr (PEISParams K) self "frequency_number".
  next_attr (PEISParams K) self "average_n_times".
  next_attr (PEISParams K) self "correction".
  next_attr (PEISParams K) self "wait_for_steady".
  count_scalars.
Qed.

Lemma PZIR_validate_agrees (self : Attrs) (dev : DeviceInfo) :
  outcome_agrees (PZIRParams_validate K self dev) (violations K PZIR self dev).
Proof.
  unfold violations, declared_violations, rule_violations, PZIRParams_validate.
  rewrite opt_add_0_l.
  rewrite <- (opt_add_0_r (base_violations K (params_cls K PZIR) self dev)).
  apply yield_block_agrees;
    [| apply yield_block_agrees; [apply base_validate_agrees | apply finish_agrees]].
  unfold own_violations, own_constraints, type_violations, agrees.
  cbn [params_cls map sum_all fold_right tc_name tc_type tc_shape].
  next_attr (PZIRParams K) self "frequency".
  next_attr (PZIRParams K) self "amplitude_voltage".
  next_attr (PZIRParams K) self "average_n_times".
  next_attr (PZIRParams K) self "wait_for_steady".
  next_attr (PZIRParams K) self "rcomp_level".
  next_attr (PZIRParams K) self "rcmp_mode".
  count_scalars.
Qed.

(** The derived arrays of [LPParams] always have two entries. *)
Lemma LP_projection_shape (attr : string) (self : Attrs) (v : PyVal) :
  LP_projection attr self = Ok v ->
  exists a b, v = VList [a; b].
Proof.
  unfold LP_projection, LP_step_sequence.
  destruct (self_field self "Ei") as [ei|]; cbn [bind]; [|discriminate].
  destruct (self_field self "El") as [el|]; cbn [bind]; [|discriminate].
  cbn [map_res].
  destruct (obj_attr ei attr) as [a|]; [|discriminate].
  destruct (obj_attr el attr) as [b|]; [|discriminate].
  intros H. injection H as <-. eauto.
Qed.

Lemma LP_getattr_vs_initial_scan (self : Attrs) :
  getattr (LPParams K) self "vs_initial_scan" = LP_projection "vs_initial_scan" self.
Proof. reflexivity. Qed.

Lemma LP_getattr_voltage_scan (self : Attrs) :
  getattr (LPParams K) self "voltage_scan" = LP_projection "voltage_scan" self.
Proof. reflexivity. Qed.

Lemma LP_getattr_scan_rate (self : Attrs) :
  getattr (LPParams K) self "scan_rate" = LP_projection "scan_rate" self.
Proof. reflexivity. Qed.

Lemma LP_per_index (self : Attrs) (a1 a2 b1 b2 c1 c2 : PyVal) :
  getattr (LPParams K) self "vs_initial_scan" = Ok (VList [a1; a2]) ->
  getattr (LPParams K) self "voltage_scan" = Ok (VList [b1; b2]) ->
  getattr (LPParams K) self "scan_rate" = Ok (VList [c1; c2]) ->
  map_res (LP_index_tests K self) (seq 0 2) =
  Ok (map (fun iabc =>
             [ validate_type K (fst (fst (snd iabc))) (indexed_name "vs_initial_scan" (fst iabc)) TBool;
               validate_type K (snd (fst (snd iabc))) (indexed_name "voltage_scan" (fst iabc)) TNumber;
               validate_type K (snd (snd iabc)) (indexed_name "scan_rate" (fst iabc)) TNumber ])
          [ (0, (a1, b1, c1)); (1, (a2, b2, c2)) ]).
Proof.
  intros H1 H2 H3. unfold LP_index_tests. cbn [seq map_res].
  rewrite H1, H2, H3. reflexivity.
Qed.

Lemma LP_validate_agrees (self : Attrs) (dev : DeviceInfo) :
  outcome_agrees (LPParams_validate K self dev) (violations K LP self dev).
Proof.
  unfold violations, declared_violations, rule_violations, LPParams_validate.
  rewrite opt_add_0_l.
  rewrite <- (opt_add_0_r (base_violations K (params_cls K LP) self dev)).
  apply yield_block_agrees;
    [| apply yield_block_agrees; [apply base_validate_agrees | apply finish_agrees]].
  unfold own_violations, own_constraints, type_violations, agrees.
  cbn [params_cls map sum_all fold_right tc_name tc_type tc_shape].
  next_attr (LPParams K) self "record_every_dEr".
  next_attr (LPParams K) self "rest_time_T".
  next_attr (LPParams K) self "record_every_dTr".
  destruct (getattr (LPParams K) self "vs_initial_scan") as [vs|x] eqn:Hvs; raise_case.
  destruct (getattr (LPParams K) self "voltage_scan") as [vo|x] eqn:Hvo; raise_case.
  destruct (getattr (LPParams K) self "scan_rate") as [sr|x] eqn:Hsr; raise_case.
  pose proof Hvs as Hvs'. pose proof Hvo as Hvo'. pose proof Hsr as Hsr'.
  rewrite LP_getattr_vs_initial_scan in Hvs'. rewrite LP_getattr_voltage_scan in Hvo'.
  rewrite LP_getattr_scan_rate in Hsr'.
  apply LP_projection_shape in Hvs', Hvo', Hsr'.
  destruct Hvs' as (a1 & a2 & ->).
  destruct Hvo' as (b1 & b2 & ->).
  destruct Hsr' as (c1 & c2 & ->).
  rewrite (LP_per_index _ Hvs Hvo Hsr). cbn [bind py_iter].
  next_attr (LPParams K) self "record_every_dE".
  next_attr (LPParams K) self "average_over_dE".
  next_attr (LPParams K) self "begin_measuring_I".
  next_attr (LPParams K) self "end_measuring_I".
  f_equal. change (List.length (yield_errors ?l)) with (nerr l).
  cbn [map List.concat app fst snd].
  rewrite !nerr_cons, !validate_type_viol, !count_bad_cons.
  change (nerr []) with 0. change (count_bad _ []) with 0.
  change (viol (validate_len (VList [_; _]) _ 2)) with 0.
  lia.
Qed.

(** ** Arrays of declared length *)

Lemma py_getitem_seq (v : PyVal) (i : nat) :
  match py_seq v with
  | Some xs =>
      py_getitem v i = match nth_error xs i with
                       | Some x => Ok x
                       | None => Raise IndexError
                       end
  | None => exists e, py_getitem v i = Raise e
  end.
Proof.
  destruct v; cbn [py_seq py_getitem]; eauto.
  rewrite nth_error_map.
  destruct (nth_error (list_ascii_of_string s) i); reflexivity.
Qed.

Lemma getitem_raise_entries (v : PyVal) (i n : nat) (e : PyExn) :
  py_getitem v i = Raise e -> i < n -> entries n v = None.
Proof.
  intros H Hi. unfold entries. pose proof (py_getitem_seq v i) as Hs.
  destruct (py_seq v) as [xs|]; [|reflexivity].
  rewrite Hs in H. destruct (nth_error xs i) eqn:Hn; [discriminate|].
  apply nth_error_None in Hn.
  destruct (Nat.leb n (List.length xs)) eqn:Hl; [|reflexivity].
  apply Nat.leb_le in Hl. lia.
Qed.

Lemma getitem_ok_entries3 (v a b c : PyVal) :
  py_getitem v 0 = Ok a -> py_getitem v 1 = Ok b -> py_getitem v 2 = Ok c ->
  entries 3 v = Some [a; b; c].
Proof.
  intros H0 H1 H2. unfold entries.
  pose proof (py_getitem_seq v 0) as G0.
  pose proof (py_getitem_seq v 1) as G1.
  pose proof (py_getitem_seq v 2) as G2.
  destruct (py_seq v) as [xs|].
  - rewrite G0 in H0. rewrite G1 in H1. rewrite G2 in H2.
    destruct xs as [|x0 [|x1 [|x2 xs]]]; cbn in *; try discriminate.
    congruence.
  - destruct G0 as [e G0]. congruence.
Qed.

Lemma length_list_ascii (s : string) :
  List.length (list_ascii_of_string s) = String.length s.
Proof. induction s; simpl; congruence. Qed.

Lemma validate_len_viol (v : PyVal) (nm : string) (n : nat) :
  viol (validate_len v nm n)
  = if match py_len v with Some l => Nat.eqb l n | None => false end then 0 else 1.
Proof.
  unfold validate_len.
  destruct (py_len v) as [l|]; [|reflexivity].
  destruct (Nat.eqb l n); reflexivity.
Qed.

Lemma opt_add_assoc (a b c : option nat) :
  opt_add a (opt_add b c) = opt_add (opt_add a b) c.
Proof. destruct a, b, c; simpl; try reflexivity. f_equal. lia. Qed.

Ltac index_raise H :=
  rewrite (getitem_raise_entries _ H) by lia; raise_case.

Lemma CPP_validate_agrees (self : Attrs) (dev : DeviceInfo) :
  outcome_agrees (CPPParams_validate K self dev) (violations K CPP self dev).
Proof.
  unfold violations, declared_violations, CPPParams_validate.
  rewrite opt_add_assoc.
  rewrite <- (opt_add_0_r (base_violations K (params_cls K CPP) self dev)).
  apply yield_block_agrees;
    [| apply yield_block_agrees; [apply base_validate_agrees | apply finish_agrees]].
  unfold rule_violations, length_violations, own_violations, own_constraints,
    type_violations, agrees.
  cbn [params_cls map sum_all fold_right tc_name tc_type tc_shape].
  next_attr (CPPParams K) self "record_every_dEr".
  next_attr (CPPParams K) self "rest_time_T".
  next_attr (CPPParams K) self "record_every_dTr".
  destruct (getattr (CPPParams K) self "vs_initial_scan") as [vs|x] eqn:Hvs; raise_case.
  destruct (getattr (CPPParams K) self "voltage_scan") as [vo|x] eqn:Hvo; raise_case.
  destruct (getattr (CPPParams K) self "scan_rate") as [sr|x] eqn:Hsr; raise_case.
  unfold CPP_index_tests. cbn [seq map_res]. rewrite Hvs, Hvo, Hsr. cbn [bind].
  destruct (py_getitem vs 0) as [a0|x] eqn:A0; [cbn [bind] | index_raise A0].
  destruct (py_getitem vo 0) as [b0|x] eqn:B0; [cbn [bind] | index_raise B0].
  destruct (py_getitem sr 0) as [c0|x] eqn:C0; [cbn [bind] | index_raise C0].
  destruct (py_getitem vs 1) as [a1|x] eqn:A1; [cbn [bind] | index_raise A1].
  destruct (py_getitem vo 1) as [b1|x] eqn:B1; [cbn [bind] | index_raise B1].
  destruct (py_getitem sr 1) as [c1|x] eqn:C1; [cbn [bind] | index_raise C1].
  destruct (py_getitem vs 2) as [a2|x] eqn:A2; [cbn [bind] | index_raise A2].
  destruct (py_getitem vo 2) as [b2|x] eqn:B2; [cbn [bind] | index_raise B2].
  destruct (py_getitem sr 2) as [c2|x] eqn:C2; [cbn [bind] | index_raise C2].
  rewrite (getitem_ok_entries3 _ A0 A1 A2), (getitem_ok_entries3 _ B0 B1 B2),
    (getitem_ok_entries3 _ C0 C1 C2).
  next_attr (CPPParams K) self "I_pitting".
  next_attr (CPPParams K) self "t_b".
  next_attr (CPPParams K) self "record_every_dE".
  next_attr (CPPParams K) self "average_over_dE".
  next_attr (CPPParams K) self "begin_measuring_I".
  next_attr (CPPParams K) self "end_measuring_I".
  next_attr (CPPParams K) self "record_every_dT".
  f_equal. change (List.length (yield_errors ?l)) with (nerr l).
  cbn [List.concat app].
  rewrite !nerr_cons, !validate_type_viol, !validate_len_viol, !count_bad_cons.
  change (nerr []) with 0. change (count_bad _ []) with 0.
  lia.
Qed.

(** Every validator agrees with the declared constraints. *)
Lemma validate_agrees (k : ParamsKind) (self : Attrs) (dev : DeviceInfo) :
  outcome_agrees (validate K k self dev) (violations K k self dev).
Proof.
  destruct k;
    [ apply OCV_validate_agrees | apply CV_validate_agrees | apply CP_validate_agrees
    | apply CA_validate_agrees | apply PEIS_validate_agrees | apply PZIR_validate_agrees
    | apply LP_validate_agrees | apply CPP_validate_agrees ].
Qed.

End WithEnums.

Import ParamExamples.

(** ** Validation results *)

(** The example parameter sets pass validation. *)
Lemma example_parameter_sets_valid :
  Forall (fun ks => valid demo_enums (fst ks) (snd ks) sp300)
         [ (OCV, ocv_ok); (CV, cv_ok); (CP, cp_ok); (CA, ca_ok); (PEIS, peis_ok);
           (PZIR, pzir_ok); (LP, lp_ok); (CPP, cpp_ok) ].
Proof. repeat constructor; vm_compute; reflexivity. Qed.

(** C3 (as amended): for each of the eight parameter classes, [validate]
    yields nothing exactly when no declared type or range constraint and no
    technique rule (the current range of chrono-potentiometry, the array
    lengths of cyclic potentiodynamic polarization) is violated; and
    whenever it runs to completion it yields exactly one error per violated
    scalar field of each constraint (array-valued parameters counted per
    element), so never fewer errors than violations. *)
Theorem validate_reports_every_violation
        (K : EnumTable) (k : ParamsKind) (self : Attrs) (dev : DeviceInfo) :
  (list_of (validate K k self dev) = Ok [] <-> violations K k self dev = Some 0)
  /\ match list_of (validate K k self dev) with
     | Ok errs => violations K k self dev = Some (List.length errs)
     | Raise _ => True
     end.
Proof.
  pose proof (validate_agrees K k self dev) as H.
  unfold outcome_agrees, list_of in *.
  destruct (raised (validate K k self dev)) as [e|].
  - split; [split; [discriminate | intros Hc; contradiction] | exact I].
  - split; [|assumption]. rewrite H. split.
    + intros Hl. injection Hl as ->. reflexivity.
    + intros Hl. injection Hl as Hl.
      destruct (yielded (validate K k self dev)); [reflexivity | discriminate].
Qed.

(** C3 (as stated) fails: a chrono-potentiometry parameter set whose
    declared parameters all satisfy their type and range constraints still
    gets an error, because the technique forbids the automatic current
    range. *)
Lemma validate_rule_beyond_declared_constraints :
  declared_violations demo_enums CP cp_auto sp300 = Some 0
  /\ list_of (validate demo_enums CP cp_auto sp300) = Ok [I_auto_error]
  /\ ~ (list_of (validate demo_enums CP cp_auto sp300) = Ok []
        <-> declared_violations demo_enums CP cp_auto sp300 = Some 0).
Proof.
  assert (H1 : declared_violations demo_enums CP cp_auto sp300 = Some 0)
    by (vm_compute; reflexivity).
  assert (H2 : list_of (validate demo_enums CP cp_auto sp300) = Ok [I_auto_error])
    by (vm_compute; reflexivity).
  repeat split; try assumption.
  intros [_ Hback]. specialize (Hback H1). rewrite H2 in Hback. discriminate.
Qed.

(** A scan array that is too short makes [validate] raise as well: the
    entries are indexed while the list of tests is built, after the length
    test has been computed but before anything is yielded. *)
Lemma validate_raises_on_short_scan_array :
  validate demo_enums CPP cpp_two_voltages sp300
  = {| yielded := []; raised := Some IndexError |}.
Proof. vm_compute. reflexivity. Qed.

(** An array that is too long is reported once, as a length error; its
    entries all satisfy the type and range constraints. *)
Lemma validate_reports_long_scan_array :
  declared_violations demo_enums CPP cpp_four_voltages sp300 = Some 0
  /\ list_of (validate demo_enums CPP cpp_four_voltages sp300)
     = Ok [ {| param := "voltage_scan"; message := MsgExactLen 3 |} ].
Proof. split; vm_compute; reflexivity. Qed.

(** C4: on a parameter set whose [record_every_dT] is the text ["1"],
    consuming [validate] yields the type error and then raises [TypeError]
    from the range comparison; the out-of-range [rest_time_T] is never
    reported. *)
Theorem validate_raises_on_text_in_ranged_parameter
        (K : EnumTable) (dev : DeviceInfo) :
  validate K OCV ocv_text_dT dev =
    {| yielded := [ {| param := "record_every_dT";
                       message := MsgIncorrectType "Number" "str" |} ];
       raised := Some TypeError |}
  /\ list_of (validate K OCV ocv_text_dT dev) = Raise TypeError.
Proof. split; reflexivity. Qed.

(** ** The derived arrays of cyclic voltammetry *)

(** C8: on a [CVParams] instance whose fields [Ei], [E1], [E2], [Ef] hold
    four steps, each derived array ([vs_initial], [voltage_step],
    [scan_rate]) is the projection of the step sequence
    [(Ei, E1, E2, Ei, Ef)] onto the corresponding step attribute, and so
    has exactly 5 entries. *)
Theorem CV_derived_arrays
        (K : EnumTable) (self : Attrs) (Ei E1 E2 Ef : CVStepRec) :
  dict_get self "Ei" = Some (CVStep_obj Ei) ->
  dict_get self "E1" = Some (CVStep_obj E1) ->
  dict_get self "E2" = Some (CVStep_obj E2) ->
  dict_get self "Ef" = Some (CVStep_obj Ef) ->
  let steps := [Ei; E1; E2; Ei; Ef] in
  getattr (CVParams K) self "vs_initial" = Ok (VList (map vs_initial steps))
  /\ getattr (CVParams K) self "voltage_step" = Ok (VList (map voltage steps))
  /\ getattr (CVParams K) self "scan_rate" = Ok (VList (map scan_rate steps))
  /\ py_len (VList (map vs_initial steps)) = Some 5
  /\ py_len (VList (map voltage steps)) = Some 5
  /\ py_len (VList (map scan_rate steps)) = Some 5.
Proof.
  intros Hi H1 H2 Hf steps.
  rewrite CV_getattr_vs_initial, CV_getattr_voltage_step, CV_getattr_scan_rate.
  unfold CV_projection, CV_step_sequence, self_field.
  rewrite Hi, H1, H2, Hf.
  repeat split.
Qed.

Lemma CV_derived_arrays_witness :
  let Ei := {| voltage := VFloat 0; scan_rate := VFloat 20; vs_initial := VBool false |} in
  let E1 := {| voltage := VFloat 1; scan_rate := VFloat 20; vs_initial := VBool false |} in
  let E2 := {| voltage := VFloat (-1); scan_rate := VFloat 20; vs_initial := VBool false |} in
  let Ef := {| voltage := VFloat 0; scan_rate := VFloat 20; vs_initial := VBool false |} in
  let steps := [Ei; E1; E2; Ei; Ef] in
  getattr (CVParams demo_enums) cv_ok "vs_initial" = Ok (VList (map vs_initial steps))
  /\ getattr (CVParams demo_enums) cv_ok "voltage_step" = Ok (VList (map voltage steps))
  /\ getattr (CVParams demo_enums) cv_ok "scan_rate" = Ok (VList (map scan_rate steps))
  /\ py_len (VList (map vs_initial steps)) = Some 5
  /\ py_len (VList (map voltage steps)) = Some 5
  /\ py_len (VList (map scan_rate steps)) = Some 5.
Proof.
  intros Ei E1 E2 Ef.
  apply (@CV_derived_arrays demo_enums cv_ok Ei E1 E2 Ef); reflexivity.
Defined.

End ParamsFacts.

(* ====================================================================== *)
(** * Facts about the JSON conversions                                     *)
(* ====================================================================== *)

Module RoundTripFacts.

Import Params Techniques ValidationSpec ParamsFacts ParamExamples.

(** ** One step of the two loops *)

Lemma to_json_loop_skip (cls : ParamsCls) (self : Attrs) (p : ParameterDesc)
      (tl : list ParameterDesc) (json : Attrs) :
  create_field p = false ->
  to_json_loop cls self (p :: tl) json = to_json_loop cls self tl json.
Proof. intros H. cbn [to_json_loop]. rewrite H. reflexivity. Qed.

Lemma to_json_loop_field (cls : ParamsCls) (self : Attrs) (p : ParameterDesc)
      (tl : list ParameterDesc) (json : Attrs) (v v' : PyVal) :
  create_field p = true ->
  getattr cls self (name p) = Ok v ->
  match to_json p with Some f => f v | None => Ok v end = Ok v' ->
  v' <> VNone ->
  to_json_loop cls self (p :: tl) json
  = to_json_loop cls self tl (dict_set json (name p) v').
Proof.
  intros Hf Hg Hc Hn. cbn [to_json_loop]. rewrite Hf, Hg. cbn [negb].
  rewrite Hc. cbn [bind]. destruct v'; try reflexivity. congruence.
Qed.

Lemma from_json_loop_missing (json : Attrs) (p : ParameterDesc)
      (tl : list ParameterDesc) (kwargs : Attrs) :
  dict_get json (name p) = None ->
  from_json_loop json (p :: tl) kwargs = from_json_loop json tl kwargs.
Proof. intros H. cbn [from_json_loop]. rewrite H. reflexivity. Qed.

Lemma from_json_loop_found (json : Attrs) (p : ParameterDesc)
      (tl : list ParameterDesc) (kwargs : Attrs) (v v' : PyVal) :
  dict_get json (name p) = Some v ->
  match from_json p with Some f => f v | None => Ok v end = Ok v' ->
  from_json_loop json (p :: tl) kwargs
  = from_json_loop json tl (dict_set kwargs (name p) v').
Proof.
  intros Hg Hc. cbn [from_json_loop]. rewrite Hg.
  destruct (from_json p) as [f|].
  - rewrite Hc. reflexivity.
  - injection Hc as ->. reflexivity.
Qed.

Lemma sum_all_zero (l : list (option nat)) :
  sum_all l = Some 0 -> forall x, In x l -> x = Some 0.
Proof.
  induction l as [|a l IH]; simpl; intros H x Hx; [contradiction|].
  apply opt_add_zero in H. destruct H as [Ha Hl].
  destruct Hx as [<-|Hx]; [assumption | apply IH; assumption].
Qed.

Section WithEnums.

Variable K : EnumTable.

(** ** What validity says about the values *)

Lemma valid_violations (k : ParamsKind) (self : Attrs) (dev : DeviceInfo) :
  valid K k self dev -> violations K k self dev = Some 0.
Proof.
  intros Hv. unfold valid, list_of in Hv.
  pose proof (validate_agrees K k self dev) as H. unfold outcome_agrees in H.
  destruct (raised (validate K k self dev)); [discriminate|].
  injection Hv as Hv. rewrite Hv in H. exact H.
Qed.

Lemma valid_own_type (k : ParamsKind) (self : Attrs) (dev : DeviceInfo)
      (c : TypeConstraint) :
  valid K k self dev -> In c (own_constraints k) ->
  type_violations K (params_cls K k) self c = Some 0.
Proof.
  intros Hv Hin. apply valid_violations in Hv.
  unfold violations, declared_violations in Hv.
  apply opt_add_zero in Hv. destruct Hv as [_ Hv].
  apply opt_add_zero in Hv. destruct Hv as [Hown _].
  apply (sum_all_zero _ Hown). apply in_map. exact Hin.
Qed.

Lemma valid_common_type (k : ParamsKind) (self : Attrs) (dev : DeviceInfo)
      (c : TypeConstraint) :
  valid K k self dev -> In c common_constraints ->
  type_violations K (params_cls K k) self c = Some 0.
Proof.
  intros Hv Hin. apply valid_violations in Hv.
  unfold violations, declared_violations, base_violations in Hv.
  apply opt_add_zero in Hv. destruct Hv as [_ Hv].
  apply opt_add_zero in Hv. destruct Hv as [_ Hv].
  apply opt_add_zero in Hv. destruct Hv as [Hc _].
  apply (sum_all_zero _ Hc). apply in_map. exact Hin.
Qed.

Lemma scalar_ok (cls : ParamsCls) (self : Attrs) (n : string) (t : PyType) (v : PyVal) :
  type_violations K cls self {| tc_name := n; tc_type := t; tc_shape := Scalar |} = Some 0 ->
  getattr cls self n = Ok v ->
  isinstance K v t = true.
Proof.
  unfold type_violations. cbn [tc_name tc_type tc_shape]. intros H Hg.
  rewrite Hg in H. destruct (isinstance K v t); [reflexivity | discriminate].
Qed.

Lemma isinstance_enum (v : PyVal) (c : string) :
  isinstance K v (TEnumCls c) = true ->
  exists m, v = VEnum c m /\ is_member K c m = true.
Proof.
  destruct v; simpl; try discriminate.
  intros H. apply andb_true_iff in H. destruct H as [Hc Hm].
  apply String.eqb_eq in Hc. subst. eauto.
Qed.

Lemma isinstance_number_not_none (v : PyVal) (t : PyType) :
  isinstance K v t = true -> v <> VNone.
Proof. intros H ->. destruct t; discriminate. Qed.

(** The three common hardware parameters of a valid instance are members
    of their enum classes. *)
Lemma valid_common (k : ParamsKind) (self : Attrs) (dev : DeviceInfo) (e i b : PyVal) :
  valid K k self dev ->
  getattr (params_cls K k) self "E_range" = Ok e ->
  getattr (params_cls K k) self "I_range" = Ok i ->
  getattr (params_cls K k) self "bandwidth" = Ok b ->
  (exists m, e = VEnum "E_RANGE" m /\ is_member K "E_RANGE" m = true)
  /\ (exists m, i = VEnum "I_RANGE" m /\ is_member K "I_RANGE" m = true)
  /\ (exists m, b = VEnum "BANDWIDTH" m /\ is_member K "BANDWIDTH" m = true).
Proof.
  intros Hv He Hi Hb.
  repeat split; apply isinstance_enum;
    eapply scalar_ok; try eassumption;
    apply (valid_common_type Hv); simpl; tauto.
Qed.

Ltac enum_field Hm :=
  cbn [from_json E_range I_range bandwidth enum_param enum_getitem];
  rewrite Hm; reflexivity.

Ltac field_not_none Hv nm ty :=
  apply (@isinstance_number_not_none _ ty);
  eapply (@scalar_ok _ _ nm ty);
  [ eapply valid_own_type; [exact Hv | simpl; tauto] | reflexivity ].

(** ** OCV *)

Lemma OCV_roundtrip (self : Attrs) (dev : DeviceInfo) :
  constructed (OCVParams K) self ->
  valid K OCV self dev ->
  exists json,
    TechniqueParams_to_json (OCVParams K) self = Ok json
    /\ TechniqueParams_from_json (OCVParams K) json = Ok self.
Proof.
  intros Hc Hv. unfold constructed in Hc.
  change (map name (fields (OCVParams K)))
    with ["E_range"; "I_range"; "bandwidth"; "rest_time_T";
          "record_every_dE"; "record_every_dT"] in Hc.
  do 6 (destruct self as [|[? ?] self]; [discriminate|]).
  destruct self; [|discriminate].
  cbn [map fst] in Hc. injection Hc as -> -> -> -> -> ->.
  destruct (@valid_common OCV _ dev p p0 p1 Hv eq_refl eq_refl eq_refl)
    as ((m1 & -> & Hm1) & (m2 & -> & Hm2) & (m3 & -> & Hm3)).
  assert (H4 : p2 <> VNone) by field_not_none Hv "rest_time_T" TNumber.
  assert (H5 : p3 <> VNone) by field_not_none Hv "record_every_dE" TNumber.
  assert (H6 : p4 <> VNone) by field_not_none Hv "record_every_dT" TNumber.
  unfold TechniqueParams_to_json, TechniqueParams_from_json, parameters.
  cbn [_params_ OCVParams TechniqueParams_params app].
  eexists. split.
  - do 3 (erewrite to_json_loop_field; [| reflexivity | reflexivity | reflexivity | discriminate]).
    do 3 (erewrite to_json_loop_field; [| reflexivity | reflexivity | reflexivity | assumption]).
    reflexivity.
  - erewrite from_json_loop_found; [| reflexivity | enum_field Hm1].
    erewrite from_json_loop_found; [| reflexivity | enum_field Hm2].
    erewrite from_json_loop_found; [| reflexivity | enum_field Hm3].
    do 3 (erewrite from_json_loop_found; [| reflexivity | reflexivity]).
    reflexivity.
Qed.

(** ** Steps *)

Lemma map_res_ok_each {A B : Type} (f : A -> Res B) (l : list A) (ys : list B) :
  map_res f l = Ok ys -> Forall (fun x => exists y, f x = Ok y) l.
Proof.
  revert ys. induction l as [|x l IH]; intros ys H; [constructor|].
  simpl in H. destruct (f x) as [y|] eqn:Hx; [|discriminate].
  destruct (map_res f l) as [ys'|]; [|discriminate].
  constructor; [eauto | eapply IH; reflexivity].
Qed.

Lemma type_violations_has_value (cls : ParamsCls) (self : Attrs) (c : TypeConstraint) :
  type_violations K cls self c = Some 0 -> exists v, getattr cls self (tc_name c) = Ok v.
Proof.
  unfold type_violations.
  destruct (getattr cls self (tc_name c)); [eauto | discriminate].
Qed.

Lemma valid_own_value (k : ParamsKind) (self : Attrs) (dev : DeviceInfo)
      (c : TypeConstraint) :
  valid K k self dev -> In c (own_constraints k) ->
  exists v, getattr (params_cls K k) self (tc_name c) = Ok v.
Proof.
  intros Hv Hin. apply type_violations_has_value.
  eapply valid_own_type; eassumption.
Qed.

(** Only a [CVStep] has both a [voltage] and a [scan_rate]. *)
Lemma cvstep_of_attrs (v : PyVal) :
  (exists a, obj_attr v "voltage" = Ok a) ->
  (exists b, obj_attr v "scan_rate" = Ok b) ->
  exists x y z, v = VStep CVStep x y z.
Proof.
  destruct v; try (intros [? H]; discriminate).
  destruct cls; cbn; intros [? H1] [? H2]; try discriminate; eauto.
Qed.

(** Only a [CPStep] has a [current]. *)
Lemma cpstep_of_attr (v : PyVal) :
  (exists a, obj_attr v "current" = Ok a) ->
  exists x y z, v = VStep CPStep x y z.
Proof.
  destruct v; try (intros [? H]; discriminate).
  destruct cls; cbn; intros [? H1]; try discriminate; eauto.
Qed.

Lemma steps_roundtrip (c : StepClass) (xs : list PyVal) :
  Forall (fun v => exists x y z, v = VStep c x y z) xs ->
  exists js, map_res step_to_json xs = Ok js
             /\ map_res (step_from_json c) js = Ok xs
             /\ VList js <> VNone.
Proof.
  induction 1 as [|v xs (x & y & z & ->) _ (js & H1 & H2 & _)].
  - exists []. repeat split; discriminate.
  - exists (VDict [(fst (fst (step_fields c)), x); (snd (fst (step_fields c)), y);
                   (snd (step_fields c), z)] :: js).
    cbn [map_res]. rewrite H1, H2.
    destruct c; repeat split; discriminate.
Qed.

(** ** CV *)

Lemma CV_roundtrip (self : Attrs) (dev : DeviceInfo) :
  constructed (CVParams K) self ->
  valid K CV self dev ->
  exists json,
    TechniqueParams_to_json (CVParams K) self = Ok json
    /\ TechniqueParams_from_json (CVParams K) json = Ok self.
Proof.
  intros Hc Hv. unfold constructed in Hc.
  change (map name (fields (CVParams K)))
    with ["E_range"; "I_range"; "bandwidth"; "record_every_dE"; "average_over_dE";
          "n_cycles"; "begin_measuring_i"; "end_measuring_i";
          "Ei"; "E1"; "E2"; "Ef"] in Hc.
  do 12 (destruct self as [|[? ?] self]; [discriminate|]).
  destruct self; [|discriminate].
  cbn [map fst] in Hc. injection Hc as -> -> -> -> -> -> -> -> -> -> -> ->.
  destruct (@valid_common CV _ dev p p0 p1 Hv eq_refl eq_refl eq_refl)
    as ((m1 & -> & Hm1) & (m2 & -> & Hm2) & (m3 & -> & Hm3)).
  assert (H4 : p2 <> VNone) by field_not_none Hv "record_every_dE" TNumber.
  assert (H5 : p3 <> VNone) by field_not_none Hv "average_over_dE" TBool.
  assert (H6 : p4 <> VNone) by field_not_none Hv "n_cycles" TNumber.
  assert (H7 : p5 <> VNone) by field_not_none Hv "begin_measuring_i" TNumber.
  assert (H8 : p6 <> VNone) by field_not_none Hv "end_measuring_i" TNumber.
  assert (Hvolt : Forall (fun v => exists a, obj_attr v "voltage" = Ok a)
                         [p7; p8; p9; p7; p10]).
  { destruct (@valid_own_value CV _ dev
                {| tc_name := "voltage_step"; tc_type := TNumber; tc_shape := Elementwise |} Hv)
      as [v Hg]; [simpl; tauto|].
    change (CV_projection "voltage"
              [("E_range", VEnum "E_RANGE" m1); ("I_range", VEnum "I_RANGE" m2);
               ("bandwidth", VEnum "BANDWIDTH" m3); ("record_every_dE", p2);
               ("average_over_dE", p3); ("n_cycles", p4); ("begin_measuring_i", p5);
               ("end_measuring_i", p6); ("Ei", p7); ("E1", p8); ("E2", p9); ("Ef", p10)]
            = Ok v) in Hg.
    unfold CV_projection, CV_step_sequence in Hg. cbn [self_field dict_get String.eqb Ascii.eqb Bool.eqb bind] in Hg.
    destruct (map_res (fun step => obj_attr step "voltage") [p7; p8; p9; p7; p10])
      as [xs|] eqn:Hm; [|discriminate].
    eapply map_res_ok_each; eassumption. }
  assert (Hscan : Forall (fun v => exists a, obj_attr v "scan_rate" = Ok a)
                         [p7; p8; p9; p7; p10]).
  { destruct (@valid_own_value CV _ dev
                {| tc_name := "scan_rate"; tc_type := TNumber; tc_shape := Elementwise |} Hv)
      as [v Hg]; [simpl; tauto|].
    change (CV_projection "scan_rate"
              [("E_range", VEnum "E_RANGE" m1); ("I_range", VEnum "I_RANGE" m2);
               ("bandwidth", VEnum "BANDWIDTH" m3); ("record_every_dE", p2);
               ("average_over_dE", p3); ("n_cycles", p4); ("begin_measuring_i", p5);
               ("end_measuring_i", p6); ("Ei", p7); ("E1", p8); ("E2", p9); ("Ef", p10)]
            = Ok v) in Hg.
    unfold CV_projection, CV_step_sequence in Hg. cbn [self_field dict_get String.eqb Ascii.eqb Bool.eqb bind] in Hg.
    destruct (map_res (fun step => obj_attr step "scan_rate") [p7; p8; p9; p7; p10])
      as [xs|] eqn:Hm; [|discriminate].
    eapply map_res_ok_each; eassumption. }
  inversion Hvolt as [|? ? Hv7 Hvolt1]; subst.
  inversion Hvolt1 as [|? ? Hv8 Hvolt2]; subst.
  inversion Hvolt2 as [|? ? Hv9 Hvolt3]; subst.
  inversion Hvolt3 as [|? ? _ Hvolt4]; subst.
  inversion Hvolt4 as [|? ? Hv10 _]; subst.
  inversion Hscan as [|? ? Hs7 Hscan1]; subst.
  inversion Hscan1 as [|? ? Hs8 Hscan2]; subst.
  inversion Hscan2 as [|? ? Hs9 Hscan3]; subst.
  inversion Hscan3 as [|? ? _ Hscan4]; subst.
  inversion Hscan4 as [|? ? Hs10 _]; subst.
  destruct (@cvstep_of_attrs _ Hv7 Hs7) as (x7 & y7 & z7 & ->).
  destruct (@cvstep_of_attrs _ Hv8 Hs8) as (x8 & y8 & z8 & ->).
  destruct (@cvstep_of_attrs _ Hv9 Hs9) as (x9 & y9 & z9 & ->).
  destruct (@cvstep_of_attrs _ Hv10 Hs10) as (x10 & y10 & z10 & ->).
  unfold TechniqueParams_to_json, TechniqueParams_from_json, parameters.
  cbn [_params_ CVParams TechniqueParams_params app].
  eexists. split.
  - do 3 (erewrite to_json_loop_field; [| reflexivity | reflexivity | reflexivity | discriminate]).
    rewrite to_json_loop_skip by reflexivity.
    do 5 (erewrite to_json_loop_field; [| reflexivity | reflexivity | reflexivity | assumption]).
    do 4 (erewrite to_json_loop_field; [| reflexivity | reflexivity | reflexivity | discriminate]).
    do 3 (rewrite to_json_loop_skip by reflexivity).
    reflexivity.
  - erewrite from_json_loop_found; [| reflexivity | enum_field Hm1].
    erewrite from_json_loop_found; [| reflexivity | enum_field Hm2].
    erewrite from_json_loop_found; [| reflexivity | enum_field Hm3].
    rewrite from_json_loop_missing by reflexivity.
    do 9 (erewrite from_json_loop_found; [| reflexivity | reflexivity]).
    do 3 (rewrite from_json_loop_missing by reflexivity).
    reflexivity.
Qed.

(** ** CP *)

Lemma CP_roundtrip (self : Attrs) (dev : DeviceInfo) :
  constructed (CPParams K) self ->
  valid K CP self dev ->
  steps_listed CP self ->
  exists json,
    TechniqueParams_to_json (CPParams K) self = Ok json
    /\ TechniqueParams_from_json (CPParams K) json = Ok self.
Proof.
  intros Hc Hv [xs Hsteps]. unfold constructed in Hc.
  change (map name (fields (CPParams K)))
    with ["E_range"; "I_range"; "bandwidth"; "record_every_dT"; "record_every_dE";
          "n_cycles"; "steps"] in Hc.
  do 7 (destruct self as [|[? ?] self]; [discriminate|]).
  destruct self; [|discriminate].
  cbn [map fst] in Hc. injection Hc as -> -> -> -> -> -> ->.
  cbn in Hsteps. injection Hsteps as ->.
  destruct (@valid_common CP _ dev p p0 p1 Hv eq_refl eq_refl eq_refl)
    as ((m1 & -> & Hm1) & (m2 & -> & Hm2) & (m3 & -> & Hm3)).
  assert (H4 : p2 <> VNone) by field_not_none Hv "record_every_dT" TNumber.
  assert (H5 : p3 <> VNone) by field_not_none Hv "record_every_dE" TNumber.
  assert (H6 : p4 <> VNone) by field_not_none Hv "n_cycles" TInt.
  assert (Hcur : Forall (fun v => exists x y z, v = VStep CPStep x y z) xs).
  { destruct (@valid_own_value CP _ dev
                {| tc_name := "current_step"; tc_type := TNumber; tc_shape := Elementwise |} Hv)
      as [v Hg]; [simpl; tauto|].
    change (CP_projection "current"
              [("E_range", VEnum "E_RANGE" m1); ("I_range", VEnum "I_RANGE" m2);
               ("bandwidth", VEnum "BANDWIDTH" m3); ("record_every_dT", p2);
               ("record_every_dE", p3); ("n_cycles", p4); ("steps", VList xs)]
            = Ok v) in Hg.
    unfold CP_projection in Hg.
    cbn [self_field dict_get String.eqb Ascii.eqb Bool.eqb bind py_iter] in Hg.
    destruct (map_res (fun step => obj_attr step "current") xs) as [ys|] eqn:Hm;
      [|discriminate].
    apply map_res_ok_each in Hm.
    eapply Forall_impl; [|exact Hm]. intros a Ha. apply cpstep_of_attr. exact Ha. }
  destruct (steps_roundtrip Hcur) as (js & Hto & Hfrom & Hnn).
  unfold TechniqueParams_to_json, TechniqueParams_from_json, parameters.
  cbn [_params_ CPParams TechniqueParams_params app].
  eexists. split.
  - do 3 (erewrite to_json_loop_field; [| reflexivity | reflexivity | reflexivity | discriminate]).
    do 3 (erewrite to_json_loop_field; [| reflexivity | reflexivity | reflexivity | assumption]).
    erewrite to_json_loop_field;
      [| reflexivity | reflexivity
       | cbn [to_json]; unfold steps_to_json; cbn [py_iter]; rewrite Hto; reflexivity
       | exact Hnn].
    do 4 (rewrite to_json_loop_skip by reflexivity).
    reflexivity.
  - erewrite from_json_loop_found; [| reflexivity | enum_field Hm1].
    erewrite from_json_loop_found; [| reflexivity | enum_field Hm2].
    erewrite from_json_loop_found; [| reflexivity | enum_field Hm3].
    do 3 (erewrite from_json_loop_found; [| reflexivity | reflexivity]).
    erewrite from_json_loop_found;
      [| reflexivity
       | cbn [from_json]; unfold steps_from_json; cbn [py_iter]; rewrite Hfrom; reflexivity].
    do 4 (rewrite from_json_loop_missing by reflexivity).
    reflexivity.
Qed.

(** ** CA *)

(** Only a [CAStep] has both a [voltage] and a [duration]. *)
Lemma castep_of_attrs (v : PyVal) :
  (exists a, obj_attr v "voltage" = Ok a) ->
  (exists b, obj_attr v "duration" = Ok b) ->
  exists x y z, v = VStep CAStep x y z.
Proof.
  destruct v; try (intros [? H]; discriminate).
  destruct cls; cbn; intros [? H1] [? H2]; try discriminate; eauto.
Qed.

Lemma CA_steps_attr (self : Attrs) (dev : DeviceInfo) (xs : list PyVal)
      (nm attr : string) (t : PyType) :
  valid K CA self dev ->
  In {| tc_name := nm; tc_type := t; tc_shape := Elementwise |} (own_constraints CA) ->
  getattr (CAParams K) self nm = CA_projection attr self ->
  dict_get self "steps" = Some (VList xs) ->
  Forall (fun v => exists a, obj_attr v attr = Ok a) xs.
Proof.
  intros Hv Hin Hget Hs.
  destruct (@valid_own_value CA self dev _ Hv Hin) as [v Hg].
  cbn [params_cls tc_name] in Hg. rewrite Hget in Hg.
  unfold CA_projection, self_field in Hg. rewrite Hs in Hg.
  cbn [bind py_iter] in Hg.
  destruct (map_res (fun step => obj_attr step attr) xs) as [ys|] eqn:Hm;
    [|discriminate].
  eapply map_res_ok_each; eassumption.
Qed.

Lemma CA_roundtrip (self : Attrs) (dev : DeviceInfo) :
  constructed (CAParams K) self ->
  valid K CA self dev ->
  steps_listed CA self ->
  exists json,
    TechniqueParams_to_json (CAParams K) self = Ok json
    /\ TechniqueParams_from_json (CAParams K) json = Ok self.
Proof.
  intros Hc Hv [xs Hsteps]. unfold constructed in Hc.
  assert (Hvol : Forall (fun v => exists a, obj_attr v "voltage" = Ok a) xs).
  { eapply (@CA_steps_attr self dev xs "voltage_step" "voltage" TNumber);
      [exact Hv | simpl; tauto | reflexivity | exact Hsteps]. }
  assert (Hdur : Forall (fun v => exists a, obj_attr v "duration" = Ok a) xs).
  { eapply (@CA_steps_attr self dev xs "duration_step" "duration" TNumber);
      [exact Hv | simpl; tauto | reflexivity | exact Hsteps]. }
  assert (Hst : Forall (fun v => exists x y z, v = VStep CAStep x y z) xs).
  { rewrite Forall_forall in *. intros v Hin.
    apply castep_of_attrs; auto. }
  change (map name (fields (CAParams K)))
    with ["E_range"; "I_range"; "bandwidth"; "record_every_dT"; "record_every_dI";
          "n_cycles"; "steps"] in Hc.
  do 7 (destruct self as [|[? ?] self]; [discriminate|]).
  destruct self; [|discriminate].
  cbn [map fst] in Hc. injection Hc as -> -> -> -> -> -> ->.
  cbn in Hsteps. injection Hsteps as ->.
  destruct (@valid_common CA _ dev p p0 p1 Hv eq_refl eq_refl eq_refl)
    as ((m1 & -> & Hm1) & (m2 & -> & Hm2) & (m3 & -> & Hm3)).
  assert (H4 : p2 <> VNone) by field_not_none Hv "record_every_dT" TNumber.
  assert (H5 : p3 <> VNone) by field_not_none Hv "record_every_dI" TNumber.
  assert (H6 : p4 <> VNone) by field_not_none Hv "n_cycles" TInt.
  destruct (steps_roundtrip Hst) as (js & Hto & Hfrom & Hnn).
  unfold TechniqueParams_to_json, TechniqueParams_from_json, parameters.
  cbn [_params_ CAParams TechniqueParams_params app].
  eexists. split.
  - do 3 (erewrite to_json_loop_field; [| reflexivity | reflexivity | reflexivity | discriminate]).
    do 3 (erewrite to_json_loop_field; [| reflexivity | reflexivity | reflexivity | assumption]).
    erewrite to_json_loop_field;
      [| reflexivity | reflexivity
       | cbn [to_json]; unfold steps_to_json; cbn [py_iter]; rewrite Hto; reflexivity
       | exact Hnn].
    do 4 (rewrite to_json_loop_skip by reflexivity).
    reflexivity.
  - erewrite from_json_loop_found; [| reflexivity | enum_field Hm1].
    erewrite from_json_loop_found; [| reflexivity | enum_field Hm2].
    erewrite from_json_loop_found; [| reflexivity | enum_field Hm3].
    do 3 (erewrite from_json_loop_found; [| reflexivity | reflexivity]).
    erewrite from_json_loop_found;
      [| reflexivity
       | cbn [from_json]; unfold steps_from_json; cbn [py_iter]; rewrite Hfrom; reflexivity].
    do 4 (rewrite from_json_loop_missing by reflexivity).
    reflexivity.
Qed.

(** ** PEIS *)

Lemma PEIS_roundtrip (self : Attrs) (dev : DeviceInfo) :
  constructed (PEISParams K) self ->
  valid K PEIS self dev ->
  exists json,
    TechniqueParams_to_json (PEISParams K) self = Ok json
    /\ TechniqueParams_from_json (PEISParams K) json = Ok self.
Proof.
  intros Hc Hv. unfold constructed in Hc.
  change (map name (fields (PEISParams K)))
    with ["E_range"; "I_range"; "bandwidth"; "vs_initial"; "initial_voltage_step";
          "duration_step"; "record_every_dT"; "record_every_dI"; "final_frequency";
          "initial_frequency"; "sweep"; "amplitude_voltage"; "frequency_number";
          "average_n_times"; "correction"; "wait_for_steady"] in Hc.
  do 16 (destruct self as [|[? ?] self]; [discriminate|]).
  destruct self; [|discriminate].
  cbn [map fst] in Hc.
  injection Hc as -> -> -> -> -> -> -> -> -> -> -> -> -> -> -> ->.
  destruct (@valid_common PEIS _ dev p p0 p1 Hv eq_refl eq_refl eq_refl)
    as ((m1 & -> & Hm1) & (m2 & -> & Hm2) & (m3 & -> & Hm3)).
  assert (Hsw : exists m, p9 = VEnum "SweepMode" m /\ is_member K "SweepMode" m = true).
  { apply isinstance_enum. eapply (@scalar_ok _ _ "sweep");
      [ eapply valid_own_type; [exact Hv | simpl; tauto] | reflexivity ]. }
  destruct Hsw as (m4 & -> & Hm4).
  assert (H4 : p2 <> VNone) by field_not_none Hv "vs_initial" TBool.
  assert (H5 : p3 <> VNone) by field_not_none Hv "initial_voltage_step" TNumber.
  assert (H6 : p4 <> VNone) by field_not_none Hv "duration_step" TNumber.
  assert (H7 : p5 <> VNone) by field_not_none Hv "record_every_dT" TNumber.
  assert (H8 : p6 <> VNone) by field_not_none Hv "record_every_dI" TNumber.
  assert (H9 : p7 <> VNone) by field_not_none Hv "final_frequency" TNumber.
  assert (H10 : p8 <> VNone) by field_not_none Hv "initial_frequency" TNumber.
  assert (H11 : p10 <> VNone) by field_not_none Hv "amplitude_voltage" TNumber.
  assert (H12 : p11 <> VNone) by field_not_none Hv "frequency_number" TInt.
  assert (H13 : p12 <> VNone) by field_not_none Hv "average_n_times" TInt.
  assert (H14 : p13 <> VNone) by field_not_none Hv "correction" TBool.
  assert (H15 : p14 <> VNone) by field_not_none Hv "wait_for_steady" TNumber.
  unfold TechniqueParams_to_json, TechniqueParams_from_json, parameters.
  cbn [_params_ PEISParams TechniqueParams_params app].
  eexists. split.
  - do 3 (erewrite to_json_loop_field; [| reflexivity | reflexivity | reflexivity | discriminate]).
    erewrite to_json_loop_field; [| reflexivity | reflexivity | reflexivity | assumption].
    rewrite to_json_loop_skip by reflexivity.
    erewrite to_json_loop_field; [| reflexivity | reflexivity | reflexivity | assumption].
    rewrite to_json_loop_skip by reflexivity.
    erewrite to_json_loop_field; [| reflexivity | reflexivity | reflexivity | assumption].
    rewrite to_json_loop_skip by reflexivity.
    do 4 (erewrite to_json_loop_field; [| reflexivity | reflexivity | reflexivity | assumption]).
    erewrite to_json_loop_field; [| reflexivity | reflexivity | reflexivity | discriminate].
    do 5 (erewrite to_json_loop_field; [| reflexivity | reflexivity | reflexivity | assumption]).
    reflexivity.
  - erewrite from_json_loop_found; [| reflexivity | enum_field Hm1].
    erewrite from_json_loop_found; [| reflexivity | enum_field Hm2].
    erewrite from_json_loop_found; [| reflexivity | enum_field Hm3].
    erewrite from_json_loop_found; [| reflexivity | reflexivity].
    rewrite from_json_loop_missing by reflexivity.
    erewrite from_json_loop_found; [| reflexivity | reflexivity].
    rewrite from_json_loop_missing by reflexivity.
    erewrite from_json_loop_found; [| reflexivity | reflexivity].
    rewrite from_json_loop_missing by reflexivity.
    do 4 (erewrite from_json_loop_found; [| reflexivity | reflexivity]).
    erewrite from_json_loop_found; [| reflexivity | enum_field Hm4].
    do 5 (erewrite from_json_loop_found; [| reflexivity | reflexivity]).
    reflexivity.
Qed.

(** ** PZIR *)

Lemma PZIR_roundtrip (self : Attrs) (dev : DeviceInfo) :
  constructed (PZIRParams K) self ->
  valid K PZIR self dev ->
  exists json,
    TechniqueParams_to_json (PZIRParams K) self = Ok json
    /\ TechniqueParams_from_json (PZIRParams K) json = Ok self.
Proof.
  intros Hc Hv. unfold constructed in Hc.
  change (map name (fields (PZIRParams K)))
    with ["E_range"; "I_range"; "bandwidth"; "frequency"; "amplitude_voltage";
          "average_n_times"; "wait_for_steady"; "rcomp_level"; "rcmp_mode"] in Hc.
  do 9 (destruct self as [|[? ?] self]; [discriminate|]).
  destruct self; [|discriminate].
  cbn [map fst] in Hc.
  injection Hc as -> -> -> -> -> -> -> -> ->.
  destruct (@valid_common PZIR _ dev p p0 p1 Hv eq_refl eq_refl eq_refl)
    as ((m1 & -> & Hm1) & (m2 & -> & Hm2) & (m3 & -> & Hm3)).
  assert (Hrc : exists m, p7 = VEnum "RcmpMode" m /\ is_member K "RcmpMode" m = true).
  { apply isinstance_enum. eapply (@scalar_ok _ _ "rcmp_mode");
      [ eapply valid_own_type; [exact Hv | simpl; tauto] | reflexivity ]. }
  destruct Hrc as (m4 & -> & Hm4).
  assert (H4 : p2 <> VNone) by field_not_none Hv "frequency" TNumber.
  assert (H5 : p3 <> VNone) by field_not_none Hv "amplitude_voltage" TNumber.
  assert (H6 : p4 <> VNone) by field_not_none Hv "average_n_times" TInt.
  assert (H7 : p5 <> VNone) by field_not_none Hv "wait_for_steady" TNumber.
  assert (H8 : p6 <> VNone) by field_not_none Hv "rcomp_level" TNumber.
  unfold TechniqueParams_to_json, TechniqueParams_from_json, parameters.
  cbn [_params_ PZIRParams TechniqueParams_params app].
  eexists. split.
  - do 3 (erewrite to_json_loop_field; [| reflexivity | reflexivity | reflexivity | discriminate]).
    erewrite to_json_loop_field; [| reflexivity | reflexivity | reflexivity | assumption].
    do 2 (rewrite to_json_loop_skip by reflexivity).
    do 3 (erewrite to_json_loop_field; [| reflexivity | reflexivity | reflexivity | assumption]).
    rewrite to_json_loop_skip by reflexivity.
    erewrite to_json_loop_field; [| reflexivity | reflexivity | reflexivity | assumption].
    erewrite to_json_loop_field; [| reflexivity | reflexivity | reflexivity | discriminate].
    reflexivity.
  - erewrite from_json_loop_found; [| reflexivity | enum_field Hm1].
    erewrite from_json_loop_found; [| reflexivity | enum_field Hm2].
    erewrite from_json_loop_found; [| reflexivity | enum_field Hm3].
    erewrite from_json_loop_found; [| reflexivity | reflexivity].
    do 2 (rewrite from_json_loop_missing by reflexivity).
    do 3 (erewrite from_json_loop_found; [| reflexivity | reflexivity]).
    rewrite from_json_loop_missing by reflexivity.
    erewrite from_json_loop_found; [| reflexivity | reflexivity].
    erewrite from_json_loop_found; [| reflexivity | enum_field Hm4].
    reflexivity.
Qed.

(** ** LP *)

(** Only an [LPStep] has a [voltage_scan]. *)
Lemma lpstep_of_attr (v : PyVal) :
  (exists a, obj_attr v "voltage_scan" = Ok a) ->
  exists x y z, v = VStep LPStep x y z.
Proof.
  destruct v; try (intros [? H]; discriminate).
  destruct cls; cbn; intros [? H1]; try discriminate; eauto.
Qed.

Lemma LP_roundtrip (self : Attrs) (dev : DeviceInfo) :
  constructed (LPParams K) self ->
  valid K LP self dev ->
  exists json,
    TechniqueParams_to_json (LPParams K) self = Ok json
    /\ TechniqueParams_from_json (LPParams K) json = Ok self.
Proof.
  intros Hc Hv. unfold constructed in Hc.
  change (map name (fields (LPParams K)))
    with ["E_range"; "I_range"; "bandwidth"; "record_every_dEr"; "rest_time_T";
          "record_every_dTr"; "Ei"; "El"; "record_every_dE"; "average_over_dE";
          "begin_measuring_I"; "end_measuring_I"] in Hc.
  do 12 (destruct self as [|[? ?] self]; [discriminate|]).
  destruct self; [|discriminate].
  cbn [map fst] in Hc. injection Hc as -> -> -> -> -> -> -> -> -> -> -> ->.
  destruct (@valid_common LP _ dev p p0 p1 Hv eq_refl eq_refl eq_refl)
    as ((m1 & -> & Hm1) & (m2 & -> & Hm2) & (m3 & -> & Hm3)).
  assert (H4 : p2 <> VNone) by field_not_none Hv "record_every_dEr" TNumber.
  assert (H5 : p3 <> VNone) by field_not_none Hv "rest_time_T" TNumber.
  assert (H6 : p4 <> VNone) by field_not_none Hv "record_every_dTr" TNumber.
  assert (H7 : p7 <> VNone) by field_not_none Hv "record_every_dE" TNumber.
  assert (H8 : p8 <> VNone) by field_not_none Hv "average_over_dE" TBool.
  assert (H9 : p9 <> VNone) by field_not_none Hv "begin_measuring_I" TNumber.
  assert (H10 : p10 <> VNone) by field_not_none Hv "end_measuring_I" TNumber.
  assert (Hvolt : Forall (fun v => exists a, obj_attr v "voltage_scan" = Ok a) [p5; p6]).
  { destruct (@valid_own_value LP _ dev
                {| tc_name := "voltage_scan"; tc_type := TNumber; tc_shape := Elementwise |} Hv)
      as [v Hg]; [simpl; tauto|].
    cbn [params_cls tc_name] in Hg. rewrite LP_getattr_voltage_scan in Hg.
    unfold LP_projection, LP_step_sequence in Hg.
    cbn [self_field dict_get String.eqb Ascii.eqb Bool.eqb bind] in Hg.
    destruct (map_res (fun step => obj_attr step "voltage_scan") [p5; p6])
      as [xs|] eqn:Hm; [|discriminate].
    eapply map_res_ok_each; eassumption. }
  inversion Hvolt as [|? ? Hv5 Hvolt1]; subst.
  inversion Hvolt1 as [|? ? Hv6 _]; subst.
  destruct (@lpstep_of_attr _ Hv5) as (x5 & y5 & z5 & ->).
  destruct (@lpstep_of_attr _ Hv6) as (x6 & y6 & z6 & ->).
  unfold TechniqueParams_to_json, TechniqueParams_from_json, parameters.
  cbn [_params_ LPParams TechniqueParams_params app].
  eexists. split.
  - do 3 (erewrite to_json_loop_field; [| reflexivity | reflexivity | reflexivity | discriminate]).
    do 3 (erewrite to_json_loop_field; [| reflexivity | reflexivity | reflexivity | assumption]).
    do 3 (rewrite to_json_loop_skip by reflexivity).
    do 2 (erewrite to_json_loop_field; [| reflexivity | reflexivity | reflexivity | discriminate]).
    rewrite to_json_loop_skip by reflexivity.
    do 4 (erewrite to_json_loop_field; [| reflexivity | reflexivity | reflexivity | assumption]).
    do 3 (rewrite to_json_loop_skip by reflexivity).
    reflexivity.
  - erewrite from_json_loop_found; [| reflexivity | enum_field Hm1].
    erewrite from_json_loop_found; [| reflexivity | enum_field Hm2].
    erewrite from_json_loop_found; [| reflexivity | enum_field Hm3].
    do 3 (erewrite from_json_loop_found; [| reflexivity | reflexivity]).
    do 3 (rewrite from_json_loop_missing by reflexivity).
    do 2 (erewrite from_json_loop_found; [| reflexivity | reflexivity]).
    rewrite from_json_loop_missing by reflexivity.
    do 4 (erewrite from_json_loop_found; [| reflexivity | reflexivity]).
    do 3 (rewrite from_json_loop_missing by reflexivity).
    reflexivity.
Qed.

(** ** CPP *)

Lemma entries_ok (cls : ParamsCls) (self : Attrs) (nm : string) (t : PyType)
      (n : nat) (v : PyVal) :
  type_violations K cls self {| tc_name := nm; tc_type := t; tc_shape := Entries n |}
  = Some 0 ->
  getattr cls self nm = Ok v ->
  v <> VNone.
Proof.
  unfold type_violations. cbn [tc_name tc_type tc_shape]. intros H Hg.
  rewrite Hg in H. intros ->. discriminate.
Qed.

Ltac array_not_none Hv nm ty :=
  eapply (@entries_ok _ _ nm ty 3);
  [ eapply valid_own_type; [exact Hv | simpl; tauto] | reflexivity ].

Lemma CPP_roundtrip (self : Attrs) (dev : DeviceInfo) :
  constructed (CPPParams K) self ->
  valid K CPP self dev ->
  exists json,
    TechniqueParams_to_json (CPPParams K) self = Ok json
    /\ TechniqueParams_from_json (CPPParams K) json = Ok self.
Proof.
  intros Hc Hv. unfold constructed in Hc.
  change (map name (fields (CPPParams K)))
    with ["E_range"; "I_range"; "bandwidth"; "record_every_dEr"; "rest_time_T";
          "record_every_dTr"; "vs_initial_scan"; "voltage_scan"; "scan_rate";
          "I_pitting"; "t_b"; "record_every_dE"; "average_over_dE";
          "begin_measuring_I"; "end_measuring_I"; "record_every_dT"] in Hc.
  do 16 (destruct self as [|[? ?] self]; [discriminate|]).
  destruct self; [|discriminate].
  cbn [map fst] in Hc.
  injection Hc as -> -> -> -> -> -> -> -> -> -> -> -> -> -> -> ->.
  destruct (@valid_common CPP _ dev p p0 p1 Hv eq_refl eq_refl eq_refl)
    as ((m1 & -> & Hm1) & (m2 & -> & Hm2) & (m3 & -> & Hm3)).
  assert (H4 : p2 <> VNone) by field_not_none Hv "record_every_dEr" TNumber.
  assert (H5 : p3 <> VNone) by field_not_none Hv "rest_time_T" TNumber.
  assert (H6 : p4 <> VNone) by field_not_none Hv "record_every_dTr" TNumber.
  assert (H7 : p5 <> VNone) by array_not_none Hv "vs_initial_scan" TBool.
  assert (H8 : p6 <> VNone) by array_not_none Hv "voltage_scan" TNumber.
  assert (H9 : p7 <> VNone) by array_not_none Hv "scan_rate" TNumber.
  assert (H10 : p8 <> VNone) by field_not_none Hv "I_pitting" TNumber.
  assert (H11 : p9 <> VNone) by field_not_none Hv "t_b" TNumber.
  assert (H12 : p10 <> VNone) by field_not_none Hv "record_every_dE" TNumber.
  assert (H13 : p11 <> VNone) by field_not_none Hv "average_over_dE" TBool.
  assert (H14 : p12 <> VNone) by field_not_none Hv "begin_measuring_I" TNumber.
  assert (H15 : p13 <> VNone) by field_not_none Hv "end_measuring_I" TNumber.
  assert (H16 : p14 <> VNone) by field_not_none Hv "record_every_dT" TNumber.
  unfold TechniqueParams_to_json, TechniqueParams_from_json, parameters.
  cbn [_params_ CPPParams TechniqueParams_params app].
  eexists. split.
  - do 3 (erewrite to_json_loop_field; [| reflexivity | reflexivity | reflexivity | discriminate]).
    do 6 (erewrite to_json_loop_field; [| reflexivity | reflexivity | reflexivity | assumption]).
    rewrite to_json_loop_skip by reflexivity.
    do 7 (erewrite to_json_loop_field; [| reflexivity | reflexivity | reflexivity | assumption]).
    reflexivity.
  - erewrite from_json_loop_found; [| reflexivity | enum_field Hm1].
    erewrite from_json_loop_found; [| reflexivity | enum_field Hm2].
    erewrite from_json_loop_found; [| reflexivity | enum_field Hm3].
    do 6 (erewrite from_json_loop_found; [| reflexivity | reflexivity]).
    rewrite from_json_loop_missing by reflexivity.
    do 7 (erewrite from_json_loop_found; [| reflexivity | reflexivity]).
    reflexivity.
Qed.

End WithEnums.

(** ** The round trip *)

(** C2 (as amended): for every instance of one of the eight parameter
    classes that was built by the constructor and passes validation, and
    whose step sequence (chrono-potentiometry, chrono-amperometry) is a list,
    [from_json(to_json(params))] returns an instance with the same field
    values, on which every derived ([create_field=False]) parameter
    evaluates as on [params]. *)
Theorem from_json_to_json_roundtrip
        (K : EnumTable) (k : ParamsKind) (self : Attrs) (dev : DeviceInfo) :
  constructed (params_cls K k) self ->
  valid K k self dev ->
  steps_listed k self ->
  exists json self',
    TechniqueParams_to_json (params_cls K k) self = Ok json
    /\ TechniqueParams_from_json (params_cls K k) json = Ok self'
    /\ self' = self
    /\ forall p, In p (parameters (params_cls K k)) -> create_field p = false ->
                 get_value (params_cls K k) self' (name p)
                 = get_value (params_cls K k) self (name p).
Proof.
  intros Hc Hv Hs.
  assert (H : exists json,
             TechniqueParams_to_json (params_cls K k) self = Ok json
             /\ TechniqueParams_from_json (params_cls K k) json = Ok self).
  { destruct k; cbn [params_cls] in *.
    - eapply OCV_roundtrip; eassumption.
    - eapply CV_roundtrip; eassumption.
    - eapply CP_roundtrip; eassumption.
    - eapply CA_roundtrip; eassumption.
    - eapply PEIS_roundtrip; eassumption.
    - eapply PZIR_roundtrip; eassumption.
    - eapply LP_roundtrip; eassumption.
    - eapply CPP_roundtrip; eassumption. }
  destruct H as (json & H1 & H2).
  exists json, self. repeat split; assumption || reflexivity.
Qed.

Import ParamExamples.

Lemma from_json_to_json_roundtrip_witness :
  exists json self',
    TechniqueParams_to_json (params_cls demo_enums CV) cv_ok = Ok json
    /\ TechniqueParams_from_json (params_cls demo_enums CV) json = Ok self'
    /\ self' = cv_ok
    /\ forall p, In p (parameters (params_cls demo_enums CV)) -> create_field p = false ->
                 get_value (params_cls demo_enums CV) self' (name p)
                 = get_value (params_cls demo_enums CV) cv_ok (name p).
Proof.
  apply (@from_json_to_json_roundtrip demo_enums CV cv_ok sp300).
  - reflexivity.
  - vm_compute. reflexivity.
  - exact I.
Defined.

(** C2 (as stated) fails: a valid chrono-potentiometry instance whose steps
    are a tuple comes back with a list of steps, and a list never equals a
    tuple. *)
Lemma roundtrip_changes_tuple_steps :
  constructed (params_cls demo_enums CP) cp_tuple
  /\ valid demo_enums CP cp_tuple sp300
  /\ exists json self',
       TechniqueParams_to_json (params_cls demo_enums CP) cp_tuple = Ok json
       /\ TechniqueParams_from_json (params_cls demo_enums CP) json = Ok self'
       /\ instance_eq demo_enums (params_cls demo_enums CP) self' cp_tuple = false
       /\ self' <> cp_tuple.
Proof.
  split; [reflexivity|]. split; [vm_compute; reflexivity|].
  eexists. eexists. split; [vm_compute; reflexivity|].
  split; [vm_compute; reflexivity|].
  split; [vm_compute; reflexivity|].
  discriminate.
Qed.

End RoundTripFacts.

(* ====================================================================== *)
(** * Facts about the channel                                              *)
(* ====================================================================== *)

Module ChanFacts.

Import Params Techniques ParamExamples Driver TechniqueClasses Chan Runner RunExamples.

Lemma trace_called_all (cs : list ApiCall) (w : World) :
  trace (called_all cs w) = trace w ++ cs.
Proof.
  revert w. induction cs as [|c cs IH]; intros w; simpl.
  - rewrite app_nil_r. reflexivity.
  - unfold called_all in IH. rewrite IH. simpl. rewrite <- app_assoc. reflexivity.
Qed.

Lemma called_all_app (cs ds : list ApiCall) (w : World) :
  called_all (cs ++ ds) w = called_all ds (called_all cs w).
Proof. unfold called_all. apply fold_left_app. Qed.

Lemma device_info_called_all (cs : list ApiCall) (w : World) :
  device_info (called_all cs w) = device_info w.
Proof.
  revert w. induction cs as [|c cs IH]; intros w; simpl; [reflexivity|].
  unfold called_all in IH. rewrite IH. reflexivity.
Qed.

Section WithDriver.

Variable K : EnumTable.
Variable EccParams : Type.
Variable pack_parameters : DeviceInfo -> Technique -> Res EccParams.

Lemma load_technique_ok (t : Technique) (first last : bool) (w : World) :
  loadable K pack_parameters (device_info w) t ->
  is_device_supported t (device_info w) = true ->
  _load_technique K pack_parameters t first last w
  = (Ok tt, called (LoadTechnique
                      (match cls_ecc_path (tech_class t) (family (device_info w)) with
                       | Some p => p | None => "" end) first last) w).
Proof.
  intros [Hv Hp] Hs. unfold _load_technique. rewrite Hv. cbn [List.length Nat.ltb Nat.leb].
  destruct (pack_parameters (device_info w) t); [|discriminate].
  unfold get_ecc. unfold is_device_supported in Hs.
  destruct (cls_ecc_path (tech_class t) (family (device_info w))); [reflexivity | discriminate].
Qed.

Lemma load_technique_invalid (t : Technique) (first last : bool) (w : World)
      (errs : list ValidationError) :
  list_of (Technique_validate K t (device_info w)) = Ok errs ->
  errs <> [] ->
  _load_technique K pack_parameters t first last w
  = (Raise (ExceptionGroup "technique parameters failed validation" errs), w).
Proof.
  intros Hv Hne. unfold _load_technique. rewrite Hv.
  destruct errs; [congruence | reflexivity].
Qed.

(** Loading proceeds technique by technique and stops at the first one
    whose validation reports errors. *)
Lemma load_from_stops_at_first_invalid
      (last_idx : Z) (pre : list Technique) (t : Technique) (post : list Technique)
      (errs : list ValidationError) :
  forall (idx : nat) (w : World),
  Forall (loadable K pack_parameters (device_info w)) pre ->
  forallb (fun tech => is_device_supported tech (device_info w)) pre = true ->
  list_of (Technique_validate K t (device_info w)) = Ok errs ->
  errs <> [] ->
  load_from K pack_parameters last_idx idx (pre ++ t :: post) w
  = (Raise (ExceptionGroup "technique parameters failed validation" errs),
     called_all (load_calls (device_info w) last_idx idx pre) w).
Proof.
  induction pre as [|p pre IH]; intros idx w Hpre Hsup Hv Hne.
  - simpl. unfold bindM. rewrite (@load_technique_invalid t _ _ w errs Hv Hne). reflexivity.
  - inversion Hpre as [|? ? Hp Hrest]; subst.
    cbn [forallb] in Hsup. apply andb_true_iff in Hsup. destruct Hsup as [Hs Hsup].
    simpl app. cbn [load_from]. unfold bindM.
    rewrite (@load_technique_ok p _ _ w Hp Hs).
    rewrite IH; [reflexivity | exact Hrest | exact Hsup | exact Hv | exact Hne].
Qed.

End WithDriver.

(** C1 (as amended): [run_techniques] validates each technique immediately
    before loading it.  When the techniques before position [length pre]
    pass validation and the technique [t] at that position does not, the
    call fails with one [ExceptionGroup] that carries all validation errors
    of [t] (each naming its parameter); the driver has by then received the
    two status queries and one load call for each technique of [pre], and
    nothing else: [t] and the techniques after it are neither loaded nor
    validated, and the channel is not started.  (The channel is plugged and
    stopped, the device family is supported by every technique and the
    limits check passes: these are tested before the first load.) *)
Theorem run_techniques_validates_before_each_load
        (K : EnumTable) (EccParams : Type)
        (pack_parameters : DeviceInfo -> Technique -> Res EccParams)
        (pre : list Technique) (t : Technique) (post : list Technique)
        (errs : list ValidationError) (w : World) :
  plugged w = true ->
  state (info w) = STOP ->
  forallb (fun tech => is_device_supported tech (device_info w)) (pre ++ t :: post) = true ->
  _check_limits K (info w) (pre ++ t :: post) = Ok tt ->
  Forall (loadable K pack_parameters (device_info w)) pre ->
  list_of (Technique_validate K t (device_info w)) = Ok errs ->
  errs <> [] ->
  run_techniques K pack_parameters (pre ++ t :: post) w
  = (Raise (ExceptionGroup "technique parameters failed validation" errs),
     called_all ([IsChannelPlugged; GetChannelInfo]
                 ++ load_calls (device_info w)
                               (Z.of_nat (List.length (pre ++ t :: post)) - 1) 0 pre)
                w).
Proof.
  intros Hplug Hstop Hsup Hlim Hpre Hv Hne.
  unfold run_techniques, is_plugged, get_info, bindM, api_IsChannelPlugged,
    api_GetChannelInfo.
  rewrite Hplug. cbn [negb].
  change (info (called IsChannelPlugged w)) with (info w).
  rewrite Hstop. cbn [PROG_STATE_eqb negb].
  change (device_info (called GetChannelInfo (called IsChannelPlugged w)))
    with (device_info w).
  rewrite Hsup. cbn [negb].
  unfold lift. rewrite Hlim.
  unfold _load_techniques.
  rewrite forallb_app in Hsup. apply andb_true_iff in Hsup. destruct Hsup as [Hsup _].
  rewrite (@load_from_stops_at_first_invalid K EccParams pack_parameters _ pre t post errs 0
             (called GetChannelInfo (called IsChannelPlugged w)) Hpre Hsup Hv Hne).
  reflexivity.
Qed.

Lemma run_techniques_validates_before_each_load_witness :
  run_techniques demo_enums pack_any ([tech_ocv_ok] ++ tech_ocv_negative_dT :: []) world0
  = (Raise (ExceptionGroup "technique parameters failed validation"
              [ {| param := "record_every_dT"; message := MsgNotInRange range_ge0 |} ]),
     called_all ([IsChannelPlugged; GetChannelInfo]
                 ++ load_calls (device_info world0)
                               (Z.of_nat (List.length ([tech_ocv_ok] ++ tech_ocv_negative_dT :: [])) - 1)
                               0 [tech_ocv_ok])
                world0).
Proof.
  apply (@run_techniques_validates_before_each_load
           demo_enums unit pack_any [tech_ocv_ok] tech_ocv_negative_dT []).
  - reflexivity.
  - reflexivity.
  - reflexivity.
  - vm_compute. reflexivity.
  - constructor; [|constructor]. split; vm_compute; reflexivity.
  - vm_compute. reflexivity.
  - discriminate.
Defined.

(** C1 (as stated) fails: with a valid technique followed by one that
    fails validation, the first technique has been loaded into the
    hardware when the failure is reported. *)
Lemma load_issued_before_validation_failure :
  list_of (Technique_validate demo_enums tech_ocv_negative_dT sp300)
  = Ok [ {| param := "record_every_dT"; message := MsgNotInRange range_ge0 |} ]
  /\ trace (snd (run_techniques demo_enums pack_any
                                [tech_ocv_ok; tech_ocv_negative_dT] world0))
     = [IsChannelPlugged; GetChannelInfo; LoadTechnique "ocv4.ecc" true false]
  /\ ~ (forall c, In c (trace (snd (run_techniques demo_enums pack_any
                                      [tech_ocv_ok; tech_ocv_negative_dT] world0)))
                  -> match c with LoadTechnique _ _ _ => False | _ => True end).
Proof.
  split; [vm_compute; reflexivity|].
  split; [vm_compute; reflexivity|].
  intros H. apply (H (LoadTechnique "ocv4.ecc" true false)).
  vm_compute. tauto.
Qed.

(** ** Channel.stop *)

(** A channel that reports [STOP] is left alone: only the status query is
    made. *)
Lemma stop_when_stopped (w : World) :
  state (info w) = STOP ->
  Chan.stop w = (Ok tt, called GetChannelInfo w).
Proof.
  intros H. unfold Chan.stop, get_info, bindM, api_GetChannelInfo.
  rewrite H. reflexivity.
Qed.

(** With no data generator, [stop] sends the stop command and clears the
    runner. *)
Lemma stop_without_generator (w : World) :
  state (info w) <> STOP ->
  _gen (chan w) = None ->
  exists w',
    Chan.stop w = (Ok tt, w')
    /\ trace w' = trace w ++ [GetChannelInfo; StopChannel]
    /\ state (info w') = STOP
    /\ chan w' = {| _gen := None; _runner := None |}.
Proof.
  intros Hs Hg. unfold Chan.stop, get_info, bindM, api_GetChannelInfo.
  destruct (state (info w)) eqn:E; try congruence;
    cbn [PROG_STATE_eqb]; unfold _close_gen, bindM, get_chan;
    cbn [chan called]; rewrite Hg; cbn;
    (eexists; split; [reflexivity|]); cbn; rewrite <- app_assoc; auto.
Qed.

Lemma nth_list_set_closed (l : list GenState) (g : nat) :
  nth g (list_set l g GenClosed) GenClosed = GenClosed.
Proof.
  revert g. induction l as [|x l IH]; intros [|g]; simpl; auto.
Qed.

(** With a data generator, throwing [ChannelStopped] into it comes back to
    [stop] itself: the stop command is not sent and nothing is cleared. *)
Lemma stop_with_generator_raises (w : World) (g : nat) :
  state (info w) <> STOP ->
  _gen (chan w) = Some g ->
  exists w',
    Chan.stop w = (Raise ChannelStopped, w')
    /\ trace w' = trace w ++ [GetChannelInfo]
    /\ info w' = info w
    /\ chan w' = chan w
    /\ gen_state w' g = GenClosed.
Proof.
  intros Hs Hg. unfold Chan.stop, get_info, bindM, api_GetChannelInfo.
  destruct (state (info w)) eqn:E; try congruence;
    cbn [PROG_STATE_eqb]; unfold _close_gen, bindM, get_chan;
    cbn [chan called]; rewrite Hg; cbn;
    (eexists; split; [reflexivity|]); cbn; repeat split;
    apply nth_list_set_closed.
Qed.

(** C5: on the channel as [run_techniques] leaves it (instrument running,
    generator and runner set), [stop()] raises [ChannelStopped] to its own
    caller after the status query: no stop command reaches the driver, the
    instrument keeps running and the runner reference stays; a second
    [stop()] does the same. *)
Theorem stop_on_running_channel_raises :
  fst (Chan.stop world_running) = Raise ChannelStopped
  /\ trace (snd (Chan.stop world_running)) = trace world_running ++ [GetChannelInfo]
  /\ ~ In StopChannel (trace (snd (Chan.stop world_running)))
  /\ state (info (snd (Chan.stop world_running))) = RUN
  /\ chan (snd (Chan.stop world_running)) = {| _gen := Some 0; _runner := Some 0 |}
  /\ fst (Chan.stop (snd (Chan.stop world_running))) = Raise ChannelStopped
  /\ ~ In StopChannel (trace (snd (Chan.stop (snd (Chan.stop world_running))))).
Proof.
  repeat split; try (vm_compute; reflexivity);
    vm_compute; intros H; repeat (destruct H as [H|H]; [discriminate|]); exact H.
Qed.

End ChanFacts.

(* ====================================================================== *)
(** * Facts about the technique runner                                     *)
(* ====================================================================== *)

Module RunnerFacts.

Import Params Techniques ParamExamples Driver TechniqueClasses Chan Runner RunExamples.

(** ** Indexing the technique list *)

Lemma py_index_none_iff {A : Type} (l : list A) (idx : Z) :
  py_index l idx = None
  <-> (Z.of_nat (List.length l) <= idx \/ idx < - Z.of_nat (List.length l))%Z.
Proof.
  unfold py_index.
  destruct (0 <=? idx)%Z eqn:H0.
  - apply Z.leb_le in H0. rewrite nth_error_None. lia.
  - apply Z.leb_gt in H0.
    destruct (- Z.of_nat (List.length l) <=? idx)%Z eqn:H1.
    + apply Z.leb_le in H1. rewrite nth_error_None. lia.
    + apply Z.leb_gt in H1. split; [intros _; lia | reflexivity].
Qed.

Section WithDriver.

Variable extract_float : Z -> Q.

(** ** One turn of the loop *)

(** A frame whose technique index is not an index of the technique list
    is logged and skipped. *)
Lemma turn_skips_invalid_index (r : TechniqueRunner) (w w1 : World) (d : BLData) :
  gen_next (runner_gen r) w = (Ok d, w1) ->
  tech_id d <> TECH_NONE ->
  (Z.of_nat (List.length (_techs r)) <= tech_index d
   \/ tech_index d < - Z.of_nat (List.length (_techs r)))%Z ->
  turn extract_float r w
  = (Continue [], set_last_state (prog_state d) r,
     warn (InvalidTechniqueIndex (tech_index d)) w1).
Proof.
  intros Hn Hid Hidx. unfold turn. rewrite Hn.
  assert (Hne : TECH_ID_eqb (tech_id d) TECH_NONE = false)
    by (destruct (tech_id d); try reflexivity; congruence).
  rewrite Hne. cbn [negb _techs set_last_state].
  apply py_index_none_iff in Hidx. rewrite Hidx. reflexivity.
Qed.

(** A frame whose technique identifier differs from the technique at its
    index is logged and skipped. *)
Lemma turn_skips_id_mismatch (r : TechniqueRunner) (w w1 : World) (d : BLData)
      (tech : Technique) :
  gen_next (runner_gen r) w = (Ok d, w1) ->
  tech_id d <> TECH_NONE ->
  py_index (_techs r) (tech_index d) = Some tech ->
  TECH_ID_eqb (tech_id d) (tech_id_of tech) = false ->
  turn extract_float r w
  = (Continue [], set_last_state (prog_state d) r,
     warn (TechniqueIdMismatch (tech_id d) (tech_id_of tech)) w1).
Proof.
  intros Hn Hid Hidx Hmis. unfold turn. rewrite Hn.
  assert (Hne : TECH_ID_eqb (tech_id d) TECH_NONE = false)
    by (destruct (tech_id d); try reflexivity; congruence).
  rewrite Hne. cbn [negb _techs set_last_state].
  rewrite Hidx, Hmis. reflexivity.
Qed.

(** A turn that continues is followed by the rest of the run. *)
Lemma iter_data_continue (fuel : nat) (r r1 : TechniqueRunner) (w w1 : World)
      (xs : list Item) :
  turn extract_float r w = (Continue xs, r1, w1) ->
  _iter_data extract_float (S fuel) r w
  = prepend xs (_iter_data extract_float fuel r1 w1).
Proof. intros H. cbn [_iter_data]. rewrite H. reflexivity. Qed.

(** C7: a frame that reports technique index [-1] for a runner with one
    technique is not skipped: Python's indexing takes [-1] as the last
    technique, the identifiers agree, and the frame's row is unpacked and
    yielded as [IndexData(-1, ...)]; nothing is logged. *)
Theorem negative_index_frame_is_unpacked :
  fst (fst (turn extract_float runner0 world_frame_minus_one))
  = Continue [ IndexData (-1)
                 (OCVData (convert_time frame_index_minus_one 0 50000)
                          (convert_time frame_index_minus_one 0 50000 + 0)%Q
                          (extract_float 7) (Some (extract_float 9))) ]
  /\ warnings (snd (turn extract_float runner0 world_frame_minus_one)) = []
  /\ (tech_index frame_index_minus_one < 0)%Z.
Proof. repeat split. Qed.

(** ** Errors of the frame source *)

Lemma runner_stop_inactive (r : TechniqueRunner) (w : World) :
  state (info w) <> RUN \/ _runner (chan w) <> Some (runner_id r) ->
  runner_stop r w = (Ok tt, called GetChannelInfo w).
Proof.
  intros H. unfold runner_stop, is_active, get_info, bindM, api_GetChannelInfo.
  destruct (state (info w)) eqn:E; cbn [PROG_STATE_eqb]; try reflexivity.
  unfold get_chan, ret. cbn [chan called].
  destruct H as [H|H]; [congruence|].
  destruct (_runner (chan w)) as [x|]; [|reflexivity].
  destruct (Nat.eqb x (runner_id r)) eqn:Ex; [|reflexivity].
  apply Nat.eqb_eq in Ex. congruence.
Qed.

(** C6 (as amended): when pulling the next frame raises [e], the runner
    stores [e] (the [exception] accessor returns it, [state] is [Error],
    the metadata status is ["ERROR"]), records the stop time and closes the
    source.  It calls its own [stop()], which reaches the channel only when
    the instrument reports [RUN] with this runner as the active one; when
    that is not the case only the status query is made and the same
    exception [e] goes to the consumer. *)
Theorem runner_captures_source_error
        (fuel : nat) (r : TechniqueRunner) (w w1 : World) (e : PyExn) :
  gen_next (runner_gen r) w = (Raise e, w1) ->
  e <> StopIteration ->
  let run := _iter_data extract_float (S fuel) r w in
  items run = []
  /\ exception (runner run) = Some e
  /\ runner_state (runner run) = Error
  /\ metadata_status (runner run) = "ERROR"
  /\ (exists t, stop_time (runner run) = Some t)
  /\ (state (info w1) <> RUN \/ _runner (chan w1) <> Some (runner_id r) ->
      ending run = Raised e
      /\ stop_time (runner run) = Some (clock w1)
      /\ trace (world run) = trace w1 ++ [GetChannelInfo]
      /\ info (world run) = info w1
      /\ chan (world run) = chan w1).
Proof.
  intros Hn He run. subst run. cbn [_iter_data]. unfold turn. rewrite Hn.
  unfold on_error.
  split; [|split; [|split; [|split; [|split]]]].
  - destruct (runner_stop (set_error e r) w1) as [[u|e'] w2]; reflexivity.
  - destruct (runner_stop (set_error e r) w1) as [[u|e'] w2]; reflexivity.
  - destruct (runner_stop (set_error e r) w1) as [[u|e'] w2]; reflexivity.
  - destruct (runner_stop (set_error e r) w1) as [[u|e'] w2]; reflexivity.
  - destruct (runner_stop (set_error e r) w1) as [[u|e'] w2]; eexists; reflexivity.
  - intros Hin.
    rewrite (@runner_stop_inactive (set_error e r) w1 Hin).
    cbn. repeat split.
    destruct e; try reflexivity. congruence.
Qed.

End WithDriver.

Lemma runner_captures_source_error_witness :
  let run := _iter_data float_of_raw 1 runner0 world_paused_failing in
  items run = []
  /\ exception (runner run) = Some (DriverError (-1))
  /\ runner_state (runner run) = Error
  /\ metadata_status (runner run) = "ERROR"
  /\ (exists t, stop_time (runner run) = Some t)
  /\ (state (info (snd (gen_next 0 world_paused_failing))) <> RUN
      \/ _runner (chan (snd (gen_next 0 world_paused_failing))) <> Some (runner_id runner0) ->
      ending run = Raised (DriverError (-1))
      /\ stop_time (runner run) = Some (clock (snd (gen_next 0 world_paused_failing)))
      /\ trace (world run) = trace (snd (gen_next 0 world_paused_failing)) ++ [GetChannelInfo]
      /\ info (world run) = info (snd (gen_next 0 world_paused_failing))
      /\ chan (world run) = chan (snd (gen_next 0 world_paused_failing))).
Proof.
  apply (@runner_captures_source_error float_of_raw 0 runner0 world_paused_failing
           (snd (gen_next 0 world_paused_failing)) (DriverError (-1))).
  - reflexivity.
  - discriminate.
Defined.

(** C6 (as stated) fails: when the source fails while the instrument
    reports [PAUSE], the runner stores and re-raises the error but no stop
    reaches the channel: the driver sees no stop command, the instrument
    stays paused and the channel keeps its generator and runner. *)
Lemma source_error_on_paused_channel_issues_no_stop :
  let run := _iter_data float_of_raw 1 runner0 world_paused_failing in
  ending run = Raised (DriverError (-1))
  /\ exception (runner run) = Some (DriverError (-1))
  /\ trace (world run)
     = [IsChannelPlugged; GetChannelInfo; LoadTechnique "ocv4.ecc" true true;
        StartChannel; GetData; GetChannelInfo]
  /\ ~ In StopChannel (trace (world run))
  /\ state (info (world run)) = PAUSE
  /\ chan (world run) = {| _gen := Some 0; _runner := Some 0 |}.
Proof.
  cbv zeta. repeat split; try (vm_compute; reflexivity).
  vm_compute. intros H. repeat (destruct H as [H|H]; [discriminate|]). exact H.
Qed.

End RunnerFacts.

(* ====================================================================== *)
(** * Facts about the wire framing                                         *)
(* ====================================================================== *)

Module WireFacts.

Import Wire.

(** ** The length prefix *)

Lemma to_N_byte_of_N (n : N) : Byte.to_N (byte_of_N n) = (n mod 256)%N.
Proof.
  unfold byte_of_N. destruct (Byte.of_N (n mod 256)) as [b|] eqn:E.
  - apply Byte.to_of_N. exact E.
  - apply Byte.of_N_None_iff in E.
    assert (n mod 256 < 256)%N by (apply N.mod_lt; discriminate). lia.
Qed.

Lemma base256_digits (n : N) :
  (n < 2 ^ 32)%N ->
  ((n / 2 ^ 24) mod 256 * 2 ^ 24 + (n / 2 ^ 16) mod 256 * 2 ^ 16
   + (n / 2 ^ 8) mod 256 * 2 ^ 8 + n mod 256 = n)%N.
Proof.
  intros Hn.
  change (2 ^ 24)%N with (256 * (256 * 256))%N.
  change (2 ^ 16)%N with (256 * 256)%N.
  change (2 ^ 8)%N with 256%N.
  rewrite <- !N.Div0.div_div.
  assert (H3 : (n / 256 / 256 / 256 < 256)%N).
  { do 3 apply N.Div0.div_lt_upper_bound. exact Hn. }
  rewrite (N.mod_small _ _ H3).
  pose proof (N.div_mod n 256) as E0.
  pose proof (N.div_mod (n / 256) 256) as E1.
  pose proof (N.div_mod (n / 256 / 256) 256) as E2.
  specialize (E0 ltac:(discriminate)).
  specialize (E1 ltac:(discriminate)).
  specialize (E2 ltac:(discriminate)).
  lia.
Qed.

Lemma unpack_pack_I (n : N) :
  (n < 2 ^ 32)%N ->
  exists header, pack_I n = Ok header
                 /\ List.length header = 4
                 /\ unpack_I header = Ok n.
Proof.
  intros Hn. unfold pack_I.
  apply N.ltb_lt in Hn. rewrite Hn. apply N.ltb_lt in Hn.
  eexists. split; [reflexivity|]. split; [reflexivity|].
  unfold unpack_I. rewrite !to_N_byte_of_N. f_equal.
  apply base256_digits. exact Hn.
Qed.

(** ** Receiving an exact number of bytes *)

Lemma firstn_firstn_skipn {A : Type} (l : list A) (c k : nat) :
  c <= k -> firstn c l ++ firstn (k - c) (skipn c l) = firstn k l.
Proof.
  revert c k. induction l as [|x l IH]; intros c k Hck.
  - rewrite skipn_nil, !firstn_nil. reflexivity.
  - destruct c as [|c].
    + simpl. rewrite Nat.sub_0_r. reflexivity.
    + destruct k as [|k]; [lia|].
      simpl. f_equal. apply IH. lia.
Qed.

Lemma skipn_skipn_add {A : Type} (l : list A) (c k : nat) :
  skipn k (skipn c l) = skipn (c + k) l.
Proof.
  revert c. induction l as [|x l IH]; intros c.
  - rewrite !skipn_nil. reflexivity.
  - destruct c as [|c]; [reflexivity|]. simpl. apply IH.
Qed.

(** With enough bytes pending, the loop returns exactly the missing bytes
    and leaves the rest, however the transport cuts the stream. *)
Lemma recv_exact_loop_enough (fuel : nat) :
  forall (sock : Sock) (n : nat) (buf : list byte),
  n - List.length buf <= fuel ->
  n <= List.length buf + List.length (pending sock) ->
  exists ch,
    recv_exact_loop fuel sock n buf
    = (Got (buf ++ firstn (n - List.length buf) (pending sock)),
       {| pending := skipn (n - List.length buf) (pending sock); chunking := ch |}).
Proof.
  induction fuel as [|fuel IH]; intros sock n buf Hfuel Hlen.
  - assert (Hz : n - List.length buf = 0) by lia.
    cbn [recv_exact_loop]. destruct (Nat.ltb_spec (List.length buf) n); [lia|].
    rewrite Hz. simpl. rewrite app_nil_r. exists (chunking sock).
    destruct sock; reflexivity.
  - cbn [recv_exact_loop]. destruct (Nat.ltb_spec (List.length buf) n) as [Hlt|Hge].
    + unfold recv. destruct (pending sock) as [|b p] eqn:Ep; [simpl in Hlen; lia|].
      set (c := Nat.min (n - List.length buf)
                        (match chunking sock with
                         | [] => n - List.length buf
                         | k :: _ => S k
                         end)).
      assert (Hc1 : 1 <= c) by (unfold c; destruct (chunking sock); lia).
      assert (Hc2 : c <= n - List.length buf) by (unfold c; lia).
      assert (Hc3 : c <= List.length (b :: p)) by lia.
      destruct (firstn c (b :: p)) as [|x chunk] eqn:Ef.
      { destruct c; [lia | discriminate]. }
      rewrite <- Ef.
      assert (Hl : List.length (firstn c (b :: p)) = c)
        by (apply firstn_length_le; exact Hc3).
      destruct (IH {| pending := skipn c (b :: p); chunking := tl (chunking sock) |}
                   n (buf ++ firstn c (b :: p))) as [ch Hrec].
      * rewrite length_app, Hl. lia.
      * cbn [pending]. rewrite length_app, Hl, length_skipn. lia.
      * exists ch. rewrite Hrec. cbn [pending].
        rewrite length_app, Hl, <- app_assoc.
        replace (n - (List.length buf + c)) with (n - List.length buf - c) by lia.
        rewrite firstn_firstn_skipn by exact Hc2.
        rewrite skipn_skipn_add.
        replace (c + (n - List.length buf - c)) with (n - List.length buf) by lia.
        reflexivity.
    + assert (Hz : n - List.length buf = 0) by lia.
      rewrite Hz. simpl. rewrite app_nil_r. exists (chunking sock).
      destruct sock; reflexivity.
Qed.

(** With too few bytes pending, the loop reports the closed connection. *)
Lemma recv_exact_loop_short (fuel : nat) :
  forall (sock : Sock) (n : nat) (buf : list byte),
  n - List.length buf <= fuel ->
  List.length buf + List.length (pending sock) < n ->
  exists sock', recv_exact_loop fuel sock n buf = (ConnClosed, sock').
Proof.
  induction fuel as [|fuel IH]; intros sock n buf Hfuel Hlen; [lia|].
  cbn [recv_exact_loop]. destruct (Nat.ltb_spec (List.length buf) n) as [Hlt|Hge]; [|lia].
  unfold recv. destruct (pending sock) as [|b p] eqn:Ep; [eauto|].
  set (c := Nat.min (n - List.length buf)
                    (match chunking sock with
                     | [] => n - List.length buf
                     | k :: _ => S k
                     end)).
  assert (Hc1 : 1 <= c) by (unfold c; destruct (chunking sock); lia).
  destruct (firstn c (b :: p)) as [|x chunk] eqn:Ef.
  { destruct c; [lia | discriminate]. }
  rewrite <- Ef.
  assert (Hl : 1 <= List.length (firstn c (b :: p))) by (rewrite Ef; simpl; lia).
  assert (Hs : List.length (firstn c (b :: p)) + List.length (skipn c (b :: p))
               = List.length (b :: p)).
  { rewrite <- length_app, firstn_skipn. reflexivity. }
  apply IH.
  - rewrite length_app. lia.
  - cbn [pending]. rewrite length_app. lia.
Qed.

Lemma recv_exact_enough (sock : Sock) (n : nat) :
  n <= List.length (pending sock) ->
  exists ch,
    recv_exact sock n
    = (Got (firstn n (pending sock)),
       {| pending := skipn n (pending sock); chunking := ch |}).
Proof.
  intros H. unfold recv_exact.
  destruct (@recv_exact_loop_enough n sock n []) as [ch E]; simpl; try lia.
  exists ch. rewrite E. simpl. rewrite Nat.sub_0_r. reflexivity.
Qed.

Lemma recv_exact_short (sock : Sock) (n : nat) :
  List.length (pending sock) < n ->
  exists sock', recv_exact sock n = (ConnClosed, sock').
Proof.
  intros H. unfold recv_exact.
  apply recv_exact_loop_short; simpl; lia.
Qed.

(** ** Messages *)

Lemma firstn_app_exact {A : Type} (l r : list A) :
  firstn (List.length l) (l ++ r) = l.
Proof. induction l as [|x l IH]; simpl; [destruct r|]; congruence. Qed.

Lemma skipn_app_exact {A : Type} (l r : list A) :
  skipn (List.length l) (l ++ r) = r.
Proof. induction l as [|x l IH]; simpl; congruence. Qed.

Section WithPickle.

Variable Obj : Type.
Variable dumps : Obj -> list byte.
Variable loads : list byte -> Res Obj.

Hypothesis loads_dumps : forall o, loads (dumps o) = Ok o.

Lemma send_msg_frame (obj : Obj) :
  (N.of_nat (List.length (dumps obj)) < 2 ^ 32)%N ->
  exists header,
    send_msg dumps obj = Ok (header ++ dumps obj)
    /\ List.length header = 4
    /\ unpack_I header = Ok (N.of_nat (List.length (dumps obj))).
Proof.
  intros Hn. destruct (unpack_pack_I Hn) as (header & Hp & Hl & Hu).
  exists header. unfold send_msg. rewrite Hp. auto.
Qed.

Lemma recv_msg_of_frame (obj : Obj) (header rest : list byte) (chunks : list nat) :
  List.length header = 4 ->
  unpack_I header = Ok (N.of_nat (List.length (dumps obj))) ->
  exists ch,
    recv_msg loads {| pending := (header ++ dumps obj) ++ rest; chunking := chunks |}
    = (Message obj, {| pending := rest; chunking := ch |}).
Proof.
  intros Hl Hu. unfold recv_msg.
  destruct (@recv_exact_enough
              {| pending := (header ++ dumps obj) ++ rest; chunking := chunks |} 4)
    as [ch1 E1].
  { cbn [pending]. rewrite !length_app. lia. }
  rewrite E1. cbn [pending].
  rewrite <- app_assoc, <- Hl, firstn_app_exact, skipn_app_exact, Hu.
  rewrite Nat2N.id.
  destruct (@recv_exact_enough
              {| pending := dumps obj ++ rest; chunking := ch1 |}
              (List.length (dumps obj))) as [ch2 E2].
  { cbn [pending]. rewrite length_app. lia. }
  rewrite E2. cbn [pending].
  rewrite firstn_app_exact, skipn_app_exact, loads_dumps.
  exists ch2. reflexivity.
Qed.

Lemma recv_msg_ends_early (sock : Sock) :
  ends_early (pending sock) ->
  exists sock', recv_msg loads sock = (NoMessage Obj, sock').
Proof.
  intros [Hshort | (n & Hu & Hbody)]; unfold recv_msg.
  - destruct (@recv_exact_short sock 4 Hshort) as [s E]. rewrite E. eauto.
  - assert (Hlen : 4 <= List.length (pending sock)).
    { destruct (pending sock) as [|a [|b [|c [|d p]]]]; simpl in *;
        try discriminate; lia. }
    destruct (@recv_exact_enough sock 4 Hlen) as [ch E]. rewrite E, Hu.
    destruct (@recv_exact_short
                {| pending := skipn 4 (pending sock); chunking := ch |}
                (N.to_nat n) Hbody) as [s E2].
    rewrite E2. eauto.
Qed.

End WithPickle.

(** C9 (as amended): for every message whose serialized body is shorter
    than [2^32] bytes, [send_msg] emits a 4-byte big-endian length prefix
    followed by exactly that many bytes of body, and [recv_msg] on those
    bytes (whatever follows them, however the transport cuts them) returns
    the message and leaves the rest; on a byte stream that ends before a
    header or before the announced body is complete, [recv_msg] returns
    [None] and does not raise. *)
Theorem framing_roundtrip
        (Obj : Type) (dumps : Obj -> list byte) (loads : list byte -> Res Obj)
        (loads_dumps : forall o, loads (dumps o) = Ok o) (obj : Obj) :
  (N.of_nat (List.length (dumps obj)) < 2 ^ 32)%N ->
  (exists header,
      send_msg dumps obj = Ok (header ++ dumps obj)
      /\ List.length header = 4
      /\ unpack_I header = Ok (N.of_nat (List.length (dumps obj))))
  /\ (forall bytes rest chunks,
         send_msg dumps obj = Ok bytes ->
         exists ch,
           recv_msg loads {| pending := bytes ++ rest; chunking := chunks |}
           = (Message obj, {| pending := rest; chunking := ch |}))
  /\ (forall sock,
         ends_early (pending sock) ->
         exists sock', recv_msg loads sock = (NoMessage Obj, sock')).
Proof.
  intros Hn. destruct (send_msg_frame dumps obj Hn) as (header & Hs & Hl & Hu).
  split; [eauto|]. split.
  - intros bytes rest chunks Hb. rewrite Hs in Hb. injection Hb as <-.
    apply recv_msg_of_frame; assumption.
  - intros sock. apply recv_msg_ends_early.
Qed.

Lemma framing_roundtrip_witness :
  (exists header,
      send_msg dumps_raw [x01; x02; x03] = Ok (header ++ dumps_raw [x01; x02; x03])
      /\ List.length header = 4
      /\ unpack_I header = Ok (N.of_nat (List.length (dumps_raw [x01; x02; x03]))))
  /\ (forall bytes rest chunks,
         send_msg dumps_raw [x01; x02; x03] = Ok bytes ->
         exists ch,
           recv_msg loads_raw {| pending := bytes ++ rest; chunking := chunks |}
           = (Message [x01; x02; x03], {| pending := rest; chunking := ch |}))
  /\ (forall sock,
         ends_early (pending sock) ->
         exists sock', recv_msg loads_raw sock = (NoMessage (list byte), sock')).
Proof.
  apply (@framing_roundtrip (list byte) dumps_raw loads_raw).
  - reflexivity.
  - reflexivity.
Defined.

(** C9 (as stated) fails for a message whose body is [2^32] bytes long:
    the length does not fit the 4-byte prefix and [send_msg] raises
    [struct.error] instead of emitting a frame. *)
Lemma send_msg_rejects_4GiB_body :
  List.length (dumps_huge tt) = 2 ^ 32
  /\ send_msg dumps_huge tt = Raise StructError.
Proof.
  unfold send_msg, dumps_huge, pack_I.
  rewrite repeat_length. split; [reflexivity|].
  rewrite Nat2N.inj_pow.
  change (N.of_nat 2) with 2%N. change (N.of_nat 32) with 32%N.
  reflexivity.
Qed.

End WireFacts.

(* ====================================================================== *)
(** * Facts about the job worker                                           *)
(* ====================================================================== *)

Module HostFacts.

Import Chan Host.

(** The channel numbers that have a lock are [1 .. MAX_CHANNELS]. *)
Lemma has_lock_iff (n : Z) :
  has_lock n = true <-> (1 <= n <= Z.of_nat MAX_CHANNELS)%Z.
Proof.
  unfold has_lock, channel_locks, MAX_CHANNELS. cbn [seq map existsb].
  rewrite !orb_true_iff, !Z.eqb_eq. cbn. lia.
Qed.

(** C10: a job whose channel number is outside [1 .. MAX_CHANNELS] ends in
    the error branch before the worker touches the instrument: no device
    operation is performed, the connection globals are unchanged, and the
    client (when still there) is sent one error message for the invalid
    channel; the client socket is closed. *)
Theorem invalid_channel_rejected_before_device_io
        (Conn Payload : Type)
        (connect : string -> Res Conn)
        (get_channel : Conn -> Z -> Res unit)
        (run : Conn -> Z -> list Technique -> list Payload * option PyExn)
        (int_of_str : string -> option Z)
        (job : Job) (ch : PyVal) (channel_id : Z) (techniques : list Technique)
        (h : HostState Conn Payload) :
  job_channel job = Some ch ->
  py_int int_of_str ch = Ok channel_id ->
  job_techniques job = Some techniques ->
  ~ (1 <= channel_id <= Z.of_nat MAX_CHANNELS)%Z ->
  let h' := handle_client_job connect get_channel run int_of_str (Ok (Some job)) h in
  device_ops h' = device_ops h
  /\ biologic h' = biologic h
  /\ current_usb_port h' = current_usb_port h
  /\ sent h' = (if client_gone h then sent h
                else sent h ++ [ReplyError
                                  (ValueError ("Invalid channel " ++ str_of_Z channel_id)%string)])
  /\ client_sock_closed h' = true.
Proof.
  intros Hch Hint Htech Hout h'. subst h'.
  unfold handle_client_job, job_body. rewrite Hch, Hint, Htech.
  destruct (has_lock channel_id) eqn:Hl.
  - apply has_lock_iff in Hl. contradiction.
  - cbn [negb]. unfold send. destruct (client_gone h); repeat split.
Qed.

Lemma invalid_channel_rejected_before_device_io_witness :
  let h' := handle_client_job connect_any get_channel_any run_nothing no_int_of_str
                              (Ok (Some job_channel_5)) host_idle in
  device_ops h' = device_ops host_idle
  /\ biologic h' = biologic host_idle
  /\ current_usb_port h' = current_usb_port host_idle
  /\ sent h' = (if client_gone host_idle then sent host_idle
                else sent host_idle
                     ++ [ReplyError (ValueError ("Invalid channel " ++ str_of_Z 5)%string)])
  /\ client_sock_closed h' = true.
Proof.
  apply (@invalid_channel_rejected_before_device_io
           unit unit connect_any get_channel_any run_nothing no_int_of_str
           job_channel_5 (VInt 5) 5 [] host_idle).
  - reflexivity.
  - reflexivity.
  - reflexivity.
  - unfold MAX_CHANNELS. simpl. lia.
Defined.

(** A job missing a key, or whose channel is not a number, is answered
    with an error as well, and the instrument is not touched. *)
Lemma malformed_job_no_device_io
        (Conn Payload : Type)
        (connect : string -> Res Conn)
        (get_channel : Conn -> Z -> Res unit)
        (run : Conn -> Z -> list Technique -> list Payload * option PyExn)
        (int_of_str : string -> option Z)
        (job : Job) (h : HostState Conn Payload) :
  (job_channel job = None
   \/ (exists ch e, job_channel job = Some ch /\ py_int int_of_str ch = Raise e)
   \/ job_techniques job = None) ->
  device_ops (handle_client_job connect get_channel run int_of_str (Ok (Some job)) h)
  = device_ops h.
Proof.
  intros H. unfold handle_client_job, job_body, send.
  destruct (job_channel job) as [ch|].
  - destruct (py_int int_of_str ch) as [n|e] eqn:Ep.
    + destruct (job_techniques job) as [t|].
      * destruct H as [H|[(c & e & Hc & He)|H]]; try discriminate.
        injection Hc as Hc. subst c. congruence.
      * destruct (client_gone h); reflexivity.
    + destruct (client_gone h); reflexivity.
  - destruct (client_gone h); reflexivity.
Qed.

End HostFacts.
